(** * Triangulated Hallucination Index (THI): a shallow embedding of the
    signal-computation and aggregation engine of [DAY18-hackLLM/model].

    The Python sources are embedded function by function, under their own
    names:
    - [components/speculative.py]  as [Speculative],
    - [components/parser.py]       as [Parser],
    - [components/sanity.py]       as [Sanity],
    - [components/paraphrase.py]   as [Paraphrase],
    - [thi_pipeline.py]            as [Pipeline],
    - [thi_server.py]              as [Server].

    [Py] holds the built-ins the sources call ([str] methods, [float],
    [min], [max], [sum], [round], [numpy.var], exceptions), [Spacy] the
    attributes read off a spaCy document, [Demo] concrete capabilities and
    objects to run the embedding on, and [Spec] the vocabulary of the
    statements.

    Python [float] values are embedded as exact rationals ([Q]): every
    arithmetic step is the real-number operation the code writes, without
    binary64 rounding.  The external capabilities (spaCy tagging, the NLI
    classifier, the sentence-embedding similarity, the [re] engine, the date
    parser, the clock) are fields of the objects that hold them in Python. *)

From Stdlib Require Import String Ascii List Bool Arith ZArith QArith Qabs Qround Lia Lqa.
Import ListNotations.

(* ===================================================================== *)
(** * The Python runtime the sources rely on *)
(* ===================================================================== *)

Module Py.

(** Exceptions the embedded code can raise or catch. *)
Inductive exn : Type :=
| ValueError (msg : string)
| ZeroDivisionError
| IndexError
| TypeError
| CapabilityError.

(** A computation either raises ([inl]) or returns ([inr]). *)
Definition py (A : Type) : Type := (exn + A)%type.

Definition ret {A : Type} (a : A) : py A := inr a.

Definition raise {A : Type} (e : exn) : py A := inl e.

Definition bind {A B : Type} (m : py A) (k : A -> py B) : py B :=
  match m with
  | inl e => inl e
  | inr a => k a
  end.

(** [try: m  except Exception: return handler]. *)
Definition try_except {A : Type} (m : py A) (handler : A) : A :=
  match m with
  | inl _ => handler
  | inr a => a
  end.

Fixpoint mapM {A B : Type} (f : A -> py B) (l : list A) : py (list B) :=
  match l with
  | [] => ret []
  | a :: l' =>
      bind (f a) (fun b => bind (mapM f l') (fun bs => ret (b :: bs)))
  end.

(** ** Strings ([str]); characters outside ASCII are kept as their bytes,
    and [lower]/[upper] act on ASCII letters only. *)

Definition is_upper (c : ascii) : bool :=
  let n := nat_of_ascii c in (65 <=? n)%nat && (n <=? 90)%nat.

Definition is_lower (c : ascii) : bool :=
  let n := nat_of_ascii c in (97 <=? n)%nat && (n <=? 122)%nat.

Definition lower_char (c : ascii) : ascii :=
  if is_upper c then ascii_of_nat (nat_of_ascii c + 32) else c.

Definition upper_char (c : ascii) : ascii :=
  if is_lower c then ascii_of_nat (nat_of_ascii c - 32) else c.

(** [s.lower()] *)
Fixpoint lower (s : string) : string :=
  match s with
  | EmptyString => EmptyString
  | String c s' => String (lower_char c) (lower s')
  end.

(** [s.startswith(p)] *)
Definition startswith (s p : string) : bool := String.prefix p s.

(** [sub in s] *)
Fixpoint contains (sub s : string) : bool :=
  String.prefix sub s ||
  match s with
  | EmptyString => false
  | String _ s' => contains sub s'
  end.

(** [s.find(sub)], [None] for [-1]. *)
Fixpoint find (sub s : string) : option nat :=
  if String.prefix sub s then Some 0%nat
  else match s with
       | EmptyString => None
       | String _ s' => option_map S (find sub s')
       end.

(** [s[n:]] and [s[:n]] *)
Fixpoint drop (n : nat) (s : string) : string :=
  match n, s with
  | O, _ => s
  | S _, EmptyString => EmptyString
  | S n', String _ s' => drop n' s'
  end.

Fixpoint take (n : nat) (s : string) : string :=
  match n, s with
  | O, _ => EmptyString
  | S _, EmptyString => EmptyString
  | S n', String c s' => String c (take n' s')
  end.

(** [s.replace(old, new, 1)]: the leftmost occurrence only. *)
Fixpoint replace_first (old new s : string) : string :=
  if String.prefix old s then (new ++ drop (String.length old) s)%string
  else match s with
       | EmptyString => EmptyString
       | String c s' => String c (replace_first old new s')
       end.

(** [s.replace(old, new)] for a non-empty [old]: non-overlapping occurrences,
    left to right.  [skip] counts the characters of a matched occurrence still
    to be dropped. *)
Fixpoint replace_from (old new : string) (skip : nat) (s : string) : string :=
  match s with
  | EmptyString => EmptyString
  | String c s' =>
      match skip with
      | S k => replace_from old new k s'
      | O =>
          if String.prefix old s
          then (new ++ replace_from old new (String.length old - 1) s')%string
          else String c (replace_from old new 0 s')
      end
  end.

(** With an empty [old], Python puts [new] before every character and at the
    end. *)
Fixpoint interleave (new s : string) : string :=
  match s with
  | EmptyString => new
  | String c s' => (new ++ String c (interleave new s'))%string
  end.

Definition replace (old new s : string) : string :=
  match old with
  | EmptyString => interleave new s
  | _ => replace_from old new 0 s
  end.

(** [str.isspace] on ASCII: tab, LF, VT, FF, CR, FS, GS, RS, US, space. *)
Definition is_space (c : ascii) : bool :=
  let n := nat_of_ascii c in
  ((9 <=? n)%nat && (n <=? 13)%nat) || ((28 <=? n)%nat && (n <=? 32)%nat).

Fixpoint lstrip (s : string) : string :=
  match s with
  | EmptyString => EmptyString
  | String c s' => if is_space c then lstrip s' else s
  end.

Fixpoint rstrip (s : string) : string :=
  match s with
  | EmptyString => EmptyString
  | String c s' =>
      match rstrip s' with
      | EmptyString => if is_space c then EmptyString else String c EmptyString
      | r => String c r
      end
  end.

(** [s.strip()] *)
Definition strip (s : string) : string := rstrip (lstrip s).

(** Truthiness of a string: non-empty. *)
Definition nonempty (s : string) : bool :=
  match s with
  | EmptyString => false
  | String _ _ => true
  end.

(** [re.split(r'[.!?]+', s)]: the pieces between maximal runs of the three
    sentence-ending characters. *)
Definition is_sentence_end (c : ascii) : bool :=
  (c =? "."%char)%char || (c =? "!"%char)%char || (c =? "?"%char)%char.

Fixpoint re_split_sentence_end (s : string) : list string :=
  match s with
  | EmptyString => [EmptyString]
  | String c s' =>
      let rest := re_split_sentence_end s' in
      if is_sentence_end c then
        match s' with
        | String c' _ => if is_sentence_end c' then rest else EmptyString :: rest
        | EmptyString => EmptyString :: rest
        end
      else
        match rest with
        | piece :: pieces => String c piece :: pieces
        | [] => [String c EmptyString]
        end
  end.

(** ** Numbers *)

Definition is_digit (c : ascii) : bool :=
  let n := nat_of_ascii c in (48 <=? n)%nat && (n <=? 57)%nat.

Definition digit_value (c : ascii) : Z := Z.of_nat (nat_of_ascii c - 48).

(** Reads the leading decimal digits of [s] after the accumulated value [acc]:
    the value, how many digits were read, and what is left. *)
Fixpoint read_digits (s : string) (acc : Z) (n : nat) : Z * nat * string :=
  match s with
  | EmptyString => (acc, n, EmptyString)
  | String c s' =>
      if is_digit c then read_digits s' (10 * acc + digit_value c)%Z (S n)
      else (acc, n, s)
  end.

Definition read_sign (s : string) : bool * string :=
  match s with
  | String "-"%char s' => (true, s')
  | String "+"%char s' => (false, s')
  | _ => (false, s)
  end.

(** [float(s)] on plain decimal literals: optional surrounding white space,
    an optional sign, digits with an optional fractional part.  [None] stands
    for [ValueError].  Exponents, [inf], [nan] and digit-group underscores are
    outside this embedding (they read as [None]); no mention matched by the
    extractor's patterns has them. *)
Definition float (s : string) : option Q :=
  let '(neg, body) := read_sign (strip s) in
  let '(ip, ni, rest) := read_digits body 0%Z 0%nat in
  let signed (q : Q) := if neg then Qopp q else q in
  match rest with
  | EmptyString =>
      if (0 <? ni)%nat then Some (signed (inject_Z ip)) else None
  | String "."%char frac =>
      let '(v, nf, rest') := read_digits frac ip 0%nat in
      match rest' with
      | EmptyString =>
          if (0 <? ni + nf)%nat
          then Some (signed (Qmake v (Z.to_pos (10 ^ Z.of_nat nf))))
          else None
      | _ => None
      end
  | _ => None
  end.

Definition Qltb (a b : Q) : bool := negb (Qle_bool b a).

(** [min(a, b)] and [max(a, b)]: the first argument unless the second is
    strictly smaller (larger). *)
Definition min (a b : Q) : Q := if Qltb b a then b else a.

Definition max (a b : Q) : Q := if Qltb a b then b else a.

(** [abs(x)] *)
Definition abs (x : Q) : Q := Qabs x.

(** [sum(l)]: starts from 0 and adds from the left. *)
Definition sum (l : list Q) : Q := fold_left Qplus l 0.

Definition len {A : Type} (l : list A) : Q := inject_Z (Z.of_nat (List.length l)).

(** [a / b] on floats. *)
Definition div (a b : Q) : py Q :=
  if Qeq_bool b 0 then raise ZeroDivisionError else ret (a / b).

(** [numpy.var(l)]: the population variance, the mean of the squared
    deviations from the mean. *)
Definition mean (l : list Q) : Q := sum l / len l.

Definition var (l : list Q) : Q :=
  let m := mean l in
  sum (map (fun x => (x - m) * (x - m)) l) / len l.

(** [round(x, ndigits)]: to the nearest multiple of [10^-ndigits], ties to
    the even one. *)
Definition round (x : Q) (ndigits : nat) : Q :=
  let scale := inject_Z (10 ^ Z.of_nat ndigits) in
  let y := x * scale in
  let f := Qfloor y in
  let r := y - inject_Z f in
  let n :=
    if Qltb r (1 # 2) then f
    else if Qltb (1 # 2) r then (f + 1)%Z
    else if Z.even f then f else (f + 1)%Z in
  inject_Z n / scale.

End Py.


Import Py.

Declare Scope py_scope.
Notation "x <- m ;; k" := (bind m (fun x => k))
  (at level 61, m at next level, right associativity) : py_scope.
Open Scope py_scope.
Open Scope string_scope.
Open Scope Q_scope.

(* ===================================================================== *)
(** * spaCy documents, as far as the sources read them *)
(* ===================================================================== *)

Module Spacy.

(** A token with the attributes the sources read: [token.text],
    [token.idx] (character offset), [token.lemma_], [token.pos_],
    [token.dep_], [token.is_punct], [token.is_space]. *)
Record Token : Type := {
  text : string;
  idx : nat;
  lemma_ : string;
  pos_ : string;
  dep_ : string;
  is_punct : bool;
  is_space : bool
}.

(** A named-entity span: [ent.text], [ent.label_], [ent.start_char],
    [ent.end_char]. *)
Record Span : Type := {
  ent_text : string;
  label_ : string;
  start_char : nat;
  end_char : nat
}.

(** [doc = nlp(text)]: iterating the doc gives [tokens]; [doc.sents] and
    [doc.ents] are read by the pipeline and the extractor. *)
Record Doc : Type := {
  tokens : list Token;
  sents : list string;
  ents : list Span
}.

(** The loaded model, [spacy.load("en_core_web_sm")]. *)
Definition Language : Type := string -> Doc.

End Spacy.

(* ===================================================================== *)
(** * components/speculative.py *)
(* ===================================================================== *)

Module Speculative.

(** [config['speculative']['weights']] *)
Record Weights : Type := {
  hedge : Q;
  absolute : Q
}.

(** [SpeculativeScorer]: [hedges] and [absolutes] are Python sets, read only
    through [in]; a list with the same members stands for each. *)
Record SpeculativeScorer : Type := {
  hedges : list string;
  absolutes : list string;
  weights : Weights;
  nlp : Spacy.Language
}.

(** The [counts] dict. *)
Record Counts : Type := {
  count_hedges : nat;
  count_absolutes : nat;
  count_tokens : nat
}.

(** [token in a_set] *)
Definition member (w : string) (set : list string) : bool :=
  existsb (String.eqb w) set.

(** [sum(1 for token in tokens if token in set)] *)
Definition count_in (set : list string) (tokens : list string) : nat :=
  List.length (filter (fun t => member t set) tokens).

(** [[token.lemma_ for token in doc if not token.is_punct and not
    token.is_space]] on [doc = self.nlp(text.lower())]. *)
Definition lemmas (self : SpeculativeScorer) (text : string) : list string :=
  map Spacy.lemma_
    (filter (fun t => negb (Spacy.is_punct t) && negb (Spacy.is_space t))
       (Spacy.tokens (nlp self (lower text)))).

Definition score_sentence (self : SpeculativeScorer) (text : string)
  : Q * Counts :=
  let tokens := lemmas self text in
  match tokens with
  | [] => (0, {| count_hedges := 0; count_absolutes := 0; count_tokens := 0 |})
  | _ =>
      let hedge_count := count_in (hedges self) tokens in
      let absolute_count := count_in (absolutes self) tokens in
      let weighted_sum :=
        inject_Z (Z.of_nat hedge_count) * hedge (weights self) +
        inject_Z (Z.of_nat absolute_count) * absolute (weights self) in
      let spec_score := min (weighted_sum / ((2 # 100) * len tokens)) 1 in
      (spec_score,
       {| count_hedges := hedge_count;
          count_absolutes := absolute_count;
          count_tokens := List.length tokens |})
  end.

(** The dict [{'hedges': [...], 'absolutes': [...]}] of [get_matched_words]. *)
Record MatchedWords : Type := {
  matched_hedges : list string;
  matched_absolutes : list string
}.

Definition get_matched_words (self : SpeculativeScorer) (text : string)
  : MatchedWords :=
  let tokens := lemmas self text in
  {| matched_hedges := filter (fun token => member token (hedges self)) tokens;
     matched_absolutes := filter (fun token => member token (absolutes self)) tokens |}.

End Speculative.

(* ===================================================================== *)
(** * components/parser.py *)
(* ===================================================================== *)

Module Parser.

(** A [re] match object: [match.group()], [match.start()], [match.end()]. *)
Record Match : Type := {
  group : string;
  m_start : nat;
  m_end : nat
}.

(** One extracted mention, the dict [{'text', 'start', 'end'}] (with
    ['label'] for an entity). *)
Record Mention : Type := {
  text : string;
  start : nat;
  end_ : nat;
  label : option string
}.

(** The ['claims'] dict of a sentence. *)
Record Claims : Type := {
  entities : list Mention;
  numbers : list Mention;
  percents : list Mention;
  money : list Mention;
  dates : list Mention
}.

(** The sentence data dict [{'text', 'claims'}]. *)
Record SentenceData : Type := {
  sd_text : string;
  claims : Claims
}.

(** [ClaimExtractor] with the tagger it loads and the [re] engine it calls:
    [finditer pattern ignorecase text] are the matches of
    [re.finditer(pattern, text[, re.IGNORECASE])] in order. *)
Record ClaimExtractor : Type := {
  nlp : Spacy.Language;
  finditer : string -> bool -> string -> list Match
}.

Definition mention_of_match (m : Match) : Mention :=
  {| text := group m; start := m_start m; end_ := m_end m; label := None |}.

(** The loop [for pattern in patterns: for match in re.finditer(...)]. *)
Definition extract_patterns (self : ClaimExtractor) (patterns : list string)
  (ignorecase : bool) (text : string) : list Mention :=
  flat_map (fun pattern => map mention_of_match (finditer self pattern ignorecase text))
    patterns.

Definition entity_labels : list string :=
  ["PERSON"; "ORG"; "GPE"; "PRODUCT"; "EVENT"].

Definition _extract_entities (doc : Spacy.Doc) : list Mention :=
  map (fun ent =>
         {| text := Spacy.ent_text ent;
            start := Spacy.start_char ent;
            end_ := Spacy.end_char ent;
            label := Some (Spacy.label_ ent) |})
    (filter (fun ent => Speculative.member (Spacy.label_ ent) entity_labels)
       (Spacy.ents doc)).

Definition number_patterns : list string :=
  ["\b\d+(?:\.\d+)?\b";
   "\b\d{1,3}(?:,\d{3})*(?:\.\d+)?\b";
   "\b\d+(?:\.\d+)?[kKmMbB]\b"].

Definition _extract_numbers (self : ClaimExtractor) (text : string) : list Mention :=
  extract_patterns self number_patterns false text.

Definition percent_patterns : list string :=
  ["\b\d+(?:\.\d+)?%\b";
   "\b\d+(?:\.\d+)?\s*percent\b";
   "\b\d+(?:\.\d+)?\s*per\s*cent\b"].

Definition _extract_percentages (self : ClaimExtractor) (text : string) : list Mention :=
  extract_patterns self percent_patterns true text.

Definition money_patterns : list string :=
  ["\$[\d,]+(?:\.\d{2})?\b";
   "\b[\d,]+(?:\.\d{2})?\s*dollars?\b";
   "₹[\d,]+(?:\.\d{2})?\b";
   "\b[\d,]+(?:\.\d{2})?\s*rupees?\b";
   "€[\d,]+(?:\.\d{2})?\b";
   "\b[\d,]+(?:\.\d{2})?\s*euros?\b"].

Definition _extract_money (self : ClaimExtractor) (text : string) : list Mention :=
  extract_patterns self money_patterns true text.

Definition date_patterns : list string :=
  ["\b\d{1,2}[/-]\d{1,2}[/-]\d{2,4}\b";
   "\b(?:Jan|Feb|Mar|Apr|May|Jun|Jul|Aug|Sep|Oct|Nov|Dec)[a-z]*\s+\d{1,2},?\s+\d{4}\b";
   "\b\d{4}\b";
   "\bQ[1-4]\s+\d{4}\b";
   "\b(?:yesterday|today|tomorrow)\b";
   "\b(?:last|next)\s+(?:week|month|year|quarter)\b"].

Definition _extract_dates (self : ClaimExtractor) (text : string) : list Mention :=
  extract_patterns self date_patterns true text.

(** Returns the one-element list [[sentence_data]]. *)
Definition extract_sentence_claims (self : ClaimExtractor) (text : string)
  : list SentenceData :=
  let doc := nlp self text in
  [ {| sd_text := text;
       claims :=
         {| entities := _extract_entities doc;
            numbers := _extract_numbers self text;
            percents := _extract_percentages self text;
            money := _extract_money self text;
            dates := _extract_dates self text |} |} ].

End Parser.

(* ===================================================================== *)
(** * components/sanity.py *)
(* ===================================================================== *)

Module Sanity.

(** One entry of [config['sanity']['rules']]; [threshold] is read for
    [percent_jump] only. *)
Record Rule : Type := {
  enabled : bool;
  threshold : Q
}.

Record Rules : Type := {
  percent_jump : Rule;
  currency_mismatch : Rule;
  unit_absurdity : Rule;
  future_past_conflict : Rule
}.

Record Thresholds : Type := {
  human_height_cm : Q;
  human_weight_kg : Q;
  temperature_celsius : Q
}.

(** [SanityChecker] with the two things it reads from the environment in
    [_check_temporal_conflicts]: [dateparser_parse text] is the year of
    [dateparser.parse(text)] ([ret None] when it returns [None], [raise] when
    it raises), and [current_year] is [datetime.now().year]. *)
Record SanityChecker : Type := {
  rules : Rules;
  thresholds : Thresholds;
  currencies : list string;
  nlp : Spacy.Language;
  dateparser_parse : string -> py (option Z);
  current_year : Z
}.

(** The flags, each standing for the string the code formats:
    [f"percent_jump_{value}"], ["currency_mismatch_usd_inr_context"],
    ["currency_mismatch_inr_usd_context"], [f"absurd_height_{value}cm"],
    [f"absurd_weight_{value}kg"], [f"absurd_temperature_{value}°c"],
    [f"future_date_past_context_{year}"]. *)
Inductive Flag : Type :=
| percent_jump_ (value : Q)
| currency_mismatch_usd_inr_context
| currency_mismatch_inr_usd_context
| absurd_height_cm (value : Q)
| absurd_weight_kg (value : Q)
| absurd_temperature_c (value : Q)
| future_date_past_context_ (year : Z).

(** [any(keyword in text for keyword in keywords)] *)
Definition any_in (keywords : list string) (text : string) : bool :=
  existsb (fun keyword => contains keyword text) keywords.

Definition is_daily_context (dates : list Parser.Mention) (text : string) : bool :=
  any_in ["in one day"; "in a single day"; "daily"] (lower text) ||
  existsb (fun d => contains "day" (lower (Parser.text d))) dates.

(** The body of the loop over [percents]: one flag, or nothing when the value
    is within the threshold or [float] raises [ValueError]. *)
Definition percent_flag (threshold : Q) (percent : Parser.Mention) : list Flag :=
  let percent_text := replace "%" "" (Parser.text percent) in
  match float percent_text with
  | Some v =>
      let value := abs v in
      if Qltb threshold value then [percent_jump_ value] else []
  | None => []
  end.

Definition _check_percent_jumps (self : SanityChecker)
  (percents dates : list Parser.Mention) (text : string) : list Flag :=
  let rule := percent_jump (rules self) in
  if negb (enabled rule) || match percents with [] => true | _ => false end
  then []
  else if is_daily_context dates text
       then flat_map (percent_flag (threshold rule)) percents
       else [].

Definition money_flag (inr_context usd_context : bool) (money : Parser.Mention)
  : list Flag :=
  let money_text := Parser.text money in
  if contains "$" money_text && inr_context
  then [currency_mismatch_usd_inr_context]
  else if contains "₹" money_text && usd_context
       then [currency_mismatch_inr_usd_context]
       else [].

Definition _check_currency_mismatch (self : SanityChecker)
  (money_claims : list Parser.Mention) (text : string) : list Flag :=
  if negb (enabled (currency_mismatch (rules self))) then []
  else
    let text_lower := lower text in
    let inr_context := any_in ["rupee"; "inr"; "indian"] text_lower in
    let usd_context := any_in ["dollar"; "usd"; "american"] text_lower in
    flat_map (money_flag inr_context usd_context) money_claims.

(** One unit family: [for num in numbers: try: value = float(num['text']) ...
    except ValueError: continue]. *)
Definition unit_flags (exceeds : Q -> bool) (flag : Q -> Flag)
  (numbers : list Parser.Mention) : list Flag :=
  flat_map (fun num =>
              match float (Parser.text num) with
              | Some value => if exceeds value then [flag value] else []
              | None => []
              end) numbers.

Definition _check_unit_absurdity (self : SanityChecker)
  (numbers : list Parser.Mention) (text : string) : list Flag :=
  if negb (enabled (unit_absurdity (rules self))) then []
  else
    let text_lower := lower text in
    ((if any_in ["height"; "tall"; "cm"; "centimeter"] text_lower
      then unit_flags (fun value => Qltb (human_height_cm (thresholds self)) value)
             absurd_height_cm numbers
      else []) ++
     (if any_in ["weight"; "kg"; "kilogram"] text_lower
      then unit_flags (fun value => Qltb (human_weight_kg (thresholds self)) value)
             absurd_weight_kg numbers
      else []) ++
     (if any_in ["temperature"; "celsius"; "°c"] text_lower
      then unit_flags (fun value => Qltb (temperature_celsius (thresholds self)) (abs value))
             absurd_temperature_c numbers
      else []))%list.

Definition _check_temporal_conflicts (self : SanityChecker)
  (dates : list Parser.Mention) (text : string) : list Flag :=
  if negb (enabled (future_past_conflict (rules self))) then []
  else
    let text_lower := lower text in
    let past_indicators :=
      ["yesterday"; "last week"; "last month"; "last year"; "previous"; "past"] in
    if any_in past_indicators text_lower
    then flat_map (fun date =>
                     match dateparser_parse self (Parser.text date) with
                     | inr (Some year) =>
                         if (current_year self <? year)%Z
                         then [future_date_past_context_ year] else []
                     | _ => []
                     end) dates
    else [].

Definition check_sentence_claims (self : SanityChecker)
  (sentence_data : Parser.SentenceData) : Q * list Flag :=
  let claims := Parser.claims sentence_data in
  let text := Parser.sd_text sentence_data in
  let numeric_claims :=
    (List.length (Parser.percents claims) + List.length (Parser.money claims) +
     List.length (Parser.numbers claims) + List.length (Parser.dates claims))%nat in
  if (numeric_claims =? 0)%nat then (0, [])
  else
    let flags :=
      (_check_percent_jumps self (Parser.percents claims) (Parser.dates claims) text ++
       _check_currency_mismatch self (Parser.money claims) text ++
       _check_unit_absurdity self (Parser.numbers claims) text ++
       _check_temporal_conflicts self (Parser.dates claims) text)%list in
    let num_sanity_score :=
      len flags / inject_Z (Z.of_nat (Nat.max 1 numeric_claims)) in
    (min num_sanity_score 1, flags).

End Sanity.

(* ===================================================================== *)
(** * components/paraphrase.py *)
(* ===================================================================== *)

Module Paraphrase.

(** [ParaphraseGenerator]: [synonyms] is the dict
    [config['paraphrase']['synonyms']] in its insertion order (the order
    [items()] iterates in), [hedges] the list
    [config.get('speculative', {}).get('hedges', [])]. *)
Record ParaphraseGenerator : Type := {
  synonyms : list (string * list string);
  hedges : list string;
  nlp : Spacy.Language
}.

(** The loop [for word, synonyms in self.synonyms.items()]: a key that occurs
    is replaced everywhere by [synonyms[0]], which raises [IndexError] on an
    empty synonym list. *)
Fixpoint apply_synonyms (table : list (string * list string)) (result : string)
  : py string :=
  match table with
  | [] => ret result
  | (word, syns) :: table' =>
      if contains word result
      then match syns with
           | [] => raise IndexError
           | first :: _ => apply_synonyms table' (replace word first result)
           end
      else apply_synonyms table' result
  end.

(** [result[0].upper() + result[1:]] *)
Definition capitalize_first (result : string) : string :=
  match result with
  | EmptyString => EmptyString
  | String c s' => String (upper_char c) s'
  end.

Definition _synonym_paraphrase (self : ParaphraseGenerator) (text : string)
  : py string :=
  result <- apply_synonyms (synonyms self) (lower text) ;;
  if nonempty result
  then
    let result := capitalize_first result in
    let result := replace "announceed" "announced" result in
    let result := replace "rised" "rose" result in
    let result := replace "growed" "grew" result in
    let result := replace "falled" "fell" result in
    let result := replace "dropped" "dropped" result in
    let result := replace "declined" "declined" result in
    ret result
  else ret result.

(** The first token with [pos_ == "VERB"] and [dep_ != "aux"]. *)
Definition main_verb_of (doc : Spacy.Doc) : option Spacy.Token :=
  List.find (fun token =>
               String.eqb (Spacy.pos_ token) "VERB" &&
               negb (String.eqb (Spacy.dep_ token) "aux"))
    (Spacy.tokens doc).

(** [if main_verb:] a spaCy token is truthy when its text is non-empty. *)
Definition truthy (main_verb : option Spacy.Token) : option Spacy.Token :=
  match main_verb with
  | Some token => if nonempty (Spacy.text token) then Some token else None
  | None => None
  end.

Definition _insert_hedge_paraphrase (self : ParaphraseGenerator) (text : string)
  : string :=
  match hedges self with
  | [] => text
  | _ =>
      let doc := nlp self text in
      let hedge := "possibly" in
      let fallback := "Possibly " ++ text in
      match truthy (main_verb_of doc) with
      | Some main_verb =>
          if negb (contains hedge (lower text))
          then
            let verb_text := Spacy.text main_verb in
            replace_first verb_text (hedge ++ " " ++ verb_text) text
          else fallback
      | None => fallback
      end
  end.

Definition time_indicators : list string :=
  ["yesterday"; "today"; "tomorrow"; "last week"; "next month"; "in 2024"].

(** The loop over [time_indicators]: the first one that occurs (ignoring
    case) away from the start of the sentence is cut out and put in front. *)
Fixpoint move_time_indicator (indicators : list string) (text : string)
  : option string :=
  match indicators with
  | [] => None
  | indicator :: indicators' =>
      if contains (lower indicator) (lower text)
      then if startswith (lower text) (lower indicator)
           then move_time_indicator indicators' text
           else
             let result := replace_first indicator "" text in
             Some (indicator ++ " " ++ result)
      else move_time_indicator indicators' text
  end.

Definition _minor_shuffle_paraphrase (self : ParaphraseGenerator) (text : string)
  : string :=
  match move_time_indicator time_indicators text with
  | Some result => result
  | None =>
      if startswith (lower text) "the "
      then replace_first "The " "It is reported that the " text
      else text
  end.

Definition generate_paraphrases (self : ParaphraseGenerator) (text : string)
  : py (list string) :=
  p1 <- _synonym_paraphrase self text ;;
  let p2 := _insert_hedge_paraphrase self text in
  let p3 := _minor_shuffle_paraphrase self text in
  ret [p1; p2; p3].

(** [calculate_instability(original_scores, paraphrase_scores)]: each score
    dict is read at the key ['spec_score'] only, so it is embedded as the
    optional value at that key. *)
Definition calculate_instability (original_scores : option Q)
  (paraphrase_scores : list (option Q)) : Q :=
  match paraphrase_scores with
  | [] => 0
  | _ =>
      let scores :=
        ((match original_scores with Some s => [s] | None => [] end) ++
         flat_map (fun para_scores =>
                     match para_scores with Some s => [s] | None => [] end)
           paraphrase_scores)%list in
      if (List.length scores <? 2)%nat then 0
      else min (var scores * 10) 1
  end.

End Paraphrase.

(* ===================================================================== *)
(** * thi_pipeline.py *)
(* ===================================================================== *)

Module Pipeline.

(** One entry [{'label': ..., 'score': ...}] of the classifier's output. *)
Record LabelScore : Type := {
  label : string;
  score : Q
}.

(** [THIPipeline].  [nli_pipeline premise hypothesis] is the value of
    [self.nli_pipeline(premise=..., hypothesis=...)]; [cosine_similarity claim
    evidence] is the cosine of the two vectors of
    [self.embedding_model.encode([claim, evidence])]. *)
Record THIPipeline : Type := {
  weights : list Q;
  nli_pipeline : string -> string -> py (list (list LabelScore));
  cosine_similarity : string -> string -> py Q;
  extractor : Parser.ClaimExtractor;
  spec_scorer : Speculative.SpeculativeScorer;
  sanity_checker : Sanity.SanityChecker;
  paraphraser : Paraphrase.ParaphraseGenerator;
  nlp : option Spacy.Language
}.

Definition default_weights : list Q :=
  [35 # 100; 30 # 100; 15 # 100; 10 # 100; 10 # 100].

(** [self.weights = weights or [0.35, 0.30, 0.15, 0.10, 0.10]]: [None] and the
    empty list are falsy.  The other arguments are what the constructor
    loads. *)
Definition __init__
  (nli : string -> string -> py (list (list LabelScore)))
  (similarity : string -> string -> py Q)
  (extractor_ : Parser.ClaimExtractor)
  (spec_scorer_ : Speculative.SpeculativeScorer)
  (sanity_checker_ : Sanity.SanityChecker)
  (paraphraser_ : Paraphrase.ParaphraseGenerator)
  (nlp_ : option Spacy.Language)
  (weights_ : option (list Q)) : THIPipeline :=
  {| weights := match weights_ with
                | Some (w :: ws) => w :: ws
                | _ => default_weights
                end;
     nli_pipeline := nli;
     cosine_similarity := similarity;
     extractor := extractor_;
     spec_scorer := spec_scorer_;
     sanity_checker := sanity_checker_;
     paraphraser := paraphraser_;
     nlp := nlp_ |}.

(** The assignment [self.weights = ws]. *)
Definition set_weights (ws : list Q) (self : THIPipeline) : THIPipeline :=
  {| weights := ws;
     nli_pipeline := nli_pipeline self;
     cosine_similarity := cosine_similarity self;
     extractor := extractor self;
     spec_scorer := spec_scorer self;
     sanity_checker := sanity_checker self;
     paraphraser := paraphraser self;
     nlp := nlp self |}.

Definition split_sentences (self : THIPipeline) (text : string) : list string :=
  match nlp self with
  | Some nlp_ => map strip (Spacy.sents (nlp_ text))
  | None =>
      map strip (filter (fun s => nonempty (strip s)) (re_split_sentence_end text))
  end.

(** [l[i]] *)
Definition getitem {A : Type} (l : list A) (i : nat) : py A :=
  match nth_error l i with
  | Some a => ret a
  | None => raise IndexError
  end.

(** The score of the first entry whose lower-cased label contains [needle]. *)
Definition first_labelled (needle : string) (scores : list LabelScore) : option Q :=
  option_map score
    (List.find (fun s => contains needle (lower (label s))) scores).

(** [max(score['score'] for score in scores)] *)
Definition max_score (scores : list LabelScore) : py Q :=
  match scores with
  | [] => raise (ValueError "max() arg is an empty sequence")
  | s :: rest => ret (fold_left (fun m x => max m (score x)) rest (score s))
  end.

Definition compute_contradiction_score (self : THIPipeline) (claim evidence : string)
  : Q :=
  try_except
    (result <- nli_pipeline self evidence claim ;;
     result0 <- getitem result 0 ;;
     match first_labelled "contradict" result0 with
     | Some s => ret s
     | None => max_score result0
     end)
    (1 # 2).

Definition compute_support_score (self : THIPipeline) (claim evidence : string)
  : Q :=
  try_except
    (nli_result <- nli_pipeline self evidence claim ;;
     result0 <- getitem nli_result 0 ;;
     let entailment_score :=
       match first_labelled "entail" result0 with
       | Some s => s
       | None => 0
       end in
     similarity <- cosine_similarity self claim evidence ;;
     let support_score := (7 # 10) * entailment_score + (3 # 10) * max 0 similarity in
     ret (min support_score 1))
    (1 # 2).

(** The risk score of one text: [contra + (1 - support)]. *)
Definition risk_score (self : THIPipeline) (text evidence : string) : Q :=
  let para_contra := compute_contradiction_score self text evidence in
  let para_support := compute_support_score self text evidence in
  para_contra + (1 - para_support).

Definition compute_instability_score (self : THIPipeline) (claim evidence : string)
  : Q :=
  try_except
    (paraphrases <- Paraphrase.generate_paraphrases (paraphraser self) claim ;;
     let original_contra := compute_contradiction_score self claim evidence in
     let original_support := compute_support_score self claim evidence in
     let paraphrase_scores :=
       map (fun para => risk_score self para evidence) paraphrases in
     ret (if (1 <? List.length paraphrase_scores)%nat
          then min (var paraphrase_scores * 10) 1
          else 0))
    0.

Definition compute_speculative_score (self : THIPipeline) (claim : string) : Q :=
  try_except
    (ret (fst (Speculative.score_sentence (spec_scorer self) claim)))
    0.

Definition compute_numeric_sanity_score (self : THIPipeline) (claim : string) : Q :=
  try_except
    (match Parser.extract_sentence_claims (extractor self) claim with
     | sentence_data0 :: _ =>
         ret (fst (Sanity.check_sentence_claims (sanity_checker self) sentence_data0))
     | [] => ret 0
     end)
    0.

(** The ["components"] dict of a claim result. *)
Record Components : Type := {
  contradiction_score : Q;
  support_score : Q;
  instability_score : Q;
  speculative_score : Q;
  numeric_score : Q
}.

(** The dict returned for one claim; its ["explanation"] strings only format
    the component scores and are left out. *)
Record ClaimResult : Type := {
  claim : string;
  evidence : string;
  thi_score : Q;
  components : Components;
  cr_weights : list Q
}.

(** The weighted sum of the THI formula, before rounding; indexing a weight
    vector shorter than 5 raises [IndexError]. *)
Definition thi_formula (ws : list Q) (c : Components) : py Q :=
  w0 <- getitem ws 0 ;;
  w1 <- getitem ws 1 ;;
  w2 <- getitem ws 2 ;;
  w3 <- getitem ws 3 ;;
  w4 <- getitem ws 4 ;;
  ret (w0 * contradiction_score c +
       w1 * (1 - support_score c) +
       w2 * instability_score c +
       w3 * speculative_score c +
       w4 * numeric_score c).

(** The five component scores of a claim, unrounded. *)
Definition component_scores (self : THIPipeline) (claim evidence : string)
  : Components :=
  {| contradiction_score := compute_contradiction_score self claim evidence;
     support_score := compute_support_score self claim evidence;
     instability_score := compute_instability_score self claim evidence;
     speculative_score := compute_speculative_score self claim;
     numeric_score := compute_numeric_sanity_score self claim |}.

Definition rounded (c : Components) : Components :=
  {| contradiction_score := round (contradiction_score c) 4;
     support_score := round (support_score c) 4;
     instability_score := round (instability_score c) 4;
     speculative_score := round (speculative_score c) 4;
     numeric_score := round (numeric_score c) 4 |}.

Definition compute_thi_for_claim (self : THIPipeline) (claim_ evidence_ : string)
  : py ClaimResult :=
  let scores := component_scores self claim_ evidence_ in
  thi <- thi_formula (weights self) scores ;;
  ret {| claim := claim_;
         evidence := evidence_;
         thi_score := round thi 4;
         components := rounded scores;
         cr_weights := weights self |}.

(** The ["summary"] dict. *)
Record Summary : Type := {
  high_risk_claims : nat;
  medium_risk_claims : nat;
  low_risk_claims : nat
}.

Record DocumentResult : Type := {
  input_text : string;
  dr_evidence : string;
  total_claims : nat;
  overall_thi : Q;
  binary_label : bool;
  threshold_used : Q;
  weights_used : list Q;
  claims : list ClaimResult;
  summary : Summary
}.

Definition is_high (r : ClaimResult) : bool := Qltb (7 # 10) (thi_score r).

Definition is_medium (r : ClaimResult) : bool :=
  Qle_bool (4 # 10) (thi_score r) && Qle_bool (thi_score r) (7 # 10).

Definition is_low (r : ClaimResult) : bool := Qltb (thi_score r) (4 # 10).

Definition summarize (claim_results : list ClaimResult) : Summary :=
  {| high_risk_claims := List.length (filter is_high claim_results);
     medium_risk_claims := List.length (filter is_medium claim_results);
     low_risk_claims := List.length (filter is_low claim_results) |}.

Definition process_text (self : THIPipeline) (text : string)
  (evidence_ : option string) : py DocumentResult :=
  let evidence_ := match evidence_ with None => text | Some e => e end in
  let sentences := split_sentences self text in
  claim_results <-
    mapM (fun sentence => compute_thi_for_claim self sentence evidence_)
      (filter (fun sentence => nonempty (strip sentence)) sentences) ;;
  let total_thi := sum (map thi_score claim_results) in
  let avg_thi :=
    match claim_results with
    | [] => 0
    | _ => total_thi / len claim_results
    end in
  ret {| input_text := text;
         dr_evidence := evidence_;
         total_claims := List.length claim_results;
         overall_thi := round avg_thi 4;
         binary_label := Qltb (1 # 2) avg_thi;
         threshold_used := 1 # 2;
         weights_used := weights self;
         claims := claim_results;
         summary := summarize claim_results |}.

(** [all(0 <= w <= 1 for w in new_weights)] *)
Definition all_in_unit (ws : list Q) : bool :=
  forallb (fun w => Qle_bool 0 w && Qle_bool w 1) ws.

(** [update_weights] as a state transformer: the outcome of the call and the
    pipeline object after it. *)
Definition update_weights (new_weights : list Q) (self : THIPipeline)
  : py unit * THIPipeline :=
  if negb (List.length new_weights =? 5)%nat
  then (raise (ValueError "Must provide exactly 5 weights"), self)
  else if negb (all_in_unit new_weights)
  then (raise (ValueError "Weights must be between 0 and 1"), self)
  else
    let total := sum new_weights in
    match mapM (fun w => div w total) new_weights with
    | inl e => (inl e, self)
    | inr ws => (ret tt, set_weights ws self)
    end.

End Pipeline.

(* ===================================================================== *)
(** * thi_server.py *)
(* ===================================================================== *)

Module Server.

Import Pipeline.

(** The request body, already validated by the HTTP layer. *)
Record THIRequest : Type := {
  text : string;
  evidence : option string;
  threshold : option Q;
  custom_weights : option (list Q)
}.

(** The response body, without its time stamps. *)
Record THIResponse : Type := {
  success : bool;
  r_input_text : string;
  r_evidence : string;
  r_overall_thi : Q;
  r_binary_label : bool;
  r_threshold_used : option Q;
  r_weights_used : list Q;
  r_total_claims : nat;
  r_claims : list ClaimResult;
  r_summary : option Summary;
  error : option exn
}.

Inductive HTTPException : Type :=
| HTTP (status_code : nat) (detail : string).

(** The module-level [thi_pipeline: Optional[THIPipeline]], shared by all
    requests. *)
Definition Global : Type := option THIPipeline.

(** [if request.custom_weights: thi_pipeline.update_weights(...)]: [None] and
    the empty list are falsy. *)
Definition apply_custom_weights (request : THIRequest) (p : THIPipeline)
  : py unit * THIPipeline :=
  match custom_weights request with
  | Some (w :: ws) => update_weights (w :: ws) p
  | _ => (ret tt, p)
  end.

(** The threshold override: [results["overall_thi"] > request.threshold]
    raises [TypeError] when the threshold is [None]. *)
Definition override_threshold (request : THIRequest) (results : DocumentResult)
  : py (bool * Q) :=
  match threshold request with
  | None => raise TypeError
  | Some t =>
      if negb (Qeq_bool t (1 # 2))
      then ret (Qltb t (overall_thi results), t)
      else ret (binary_label results, threshold_used results)
  end.

(** [POST /analyze]: the response (or the HTTP error) and the shared pipeline
    after the request. *)
Definition analyze_text (request : THIRequest) (thi_pipeline : Global)
  : (HTTPException + THIResponse) * Global :=
  match thi_pipeline with
  | None => (inl (HTTP 503 "THI pipeline not initialized"), None)
  | Some p =>
      let '(updated, p') := apply_custom_weights request p in
      let body :=
        _ <- updated ;;
        results <- process_text p' (text request) (evidence request) ;;
        label_threshold <- override_threshold request results ;;
        ret (results, label_threshold) in
      match body with
      | inr (results, (label_, threshold_)) =>
          (inr {| success := true;
                  r_input_text := input_text results;
                  r_evidence := dr_evidence results;
                  r_overall_thi := overall_thi results;
                  r_binary_label := label_;
                  r_threshold_used := Some threshold_;
                  r_weights_used := weights_used results;
                  r_total_claims := total_claims results;
                  r_claims := claims results;
                  r_summary := Some (summary results);
                  error := None |},
           Some p')
      | inl e =>
          (inr {| success := false;
                  r_input_text := text request;
                  r_evidence :=
                    match evidence request with
                    | Some (String c s) => String c s
                    | _ => text request
                    end;
                  r_overall_thi := 0;
                  r_binary_label := false;
                  r_threshold_used := threshold request;
                  r_weights_used := weights p';
                  r_total_claims := 0;
                  r_claims := [];
                  r_summary := None;
                  error := Some e |},
           Some p')
      end
  end.

(** [GET /weights] *)
Definition get_weights (thi_pipeline : Global) : HTTPException + list Q :=
  match thi_pipeline with
  | None => inl (HTTP 503 "THI pipeline not initialized")
  | Some p => inr (weights p)
  end.


(** The body of [POST /analyze/batch]. *)
Record BatchRequest : Type := {
  texts : list string;
  b_evidence : option string;
  b_threshold : option Q
}.

(** One entry of the batch results: the dict built for a text, with
    ["error"] set when processing the text raised. *)
Record BatchEntry : Type := {
  e_text : string;
  e_thi_score : Q;
  e_binary_label : bool;
  e_total_claims : nat;
  e_summary : option Summary;
  e_error : option exn
}.

Record BatchResponse : Type := {
  b_success : bool;
  total_texts : nat;
  results : list BatchEntry
}.

(** The body of the loop over [request.texts]. *)
Definition batch_entry (p : THIPipeline) (evidence_ : option string) (text_ : string)
  : BatchEntry :=
  match process_text p text_ evidence_ with
  | inr result =>
      {| e_text := text_;
         e_thi_score := overall_thi result;
         e_binary_label := binary_label result;
         e_total_claims := total_claims result;
         e_summary := Some (summary result);
         e_error := None |}
  | inl e =>
      {| e_text := text_;
         e_thi_score := 0;
         e_binary_label := false;
         e_total_claims := 0;
         e_summary := None;
         e_error := Some e |}
  end.

(** [POST /analyze/batch]; the call reads the shared pipeline and does not
    assign to it. *)
Definition analyze_batch (request : BatchRequest) (thi_pipeline : Global)
  : HTTPException + BatchResponse :=
  match thi_pipeline with
  | None => inl (HTTP 503 "THI pipeline not initialized")
  | Some p =>
      inr {| b_success := true;
             total_texts := List.length (texts request);
             results := map (batch_entry p (b_evidence request)) (texts request) |}
  end.

(** The body returned by the weights endpoints. *)
Record WeightsResponse : Type := {
  w_success : bool;
  message : string;
  current_weights : list Q
}.

(** [POST /weights]: a [ValueError] becomes status 400 with its message, any
    other exception status 500. *)
Definition update_weights (new_weights : list Q) (thi_pipeline : Global)
  : (HTTPException + WeightsResponse) * Global :=
  match thi_pipeline with
  | None => (inl (HTTP 503 "THI pipeline not initialized"), None)
  | Some p =>
      match Pipeline.update_weights new_weights p with
      | (inr _, p') =>
          (inr {| w_success := true;
                  message := "Weights updated successfully";
                  current_weights := weights p' |},
           Some p')
      | (inl (ValueError msg), p') => (inl (HTTP 400 msg), Some p')
      | (inl _, p') => (inl (HTTP 500 "Failed to update weights"), Some p')
      end
  end.

End Server.

(* ===================================================================== *)
(** * Concrete capabilities and objects, for running the embedding *)
(* ===================================================================== *)

Module Demo.

(** A small tagger standing in for the spaCy model: words are maximal runs of
    letters and digits, any other visible character is a punctuation token,
    the lemma is the lower-cased text, and a word of [verbs] is a verb. *)
Definition is_word_char (c : ascii) : bool :=
  is_upper c || is_lower c || is_digit c.

Definition flush (cur : string) (start : nat) : list (string * nat) :=
  if nonempty cur then [(cur, start)] else [].

Fixpoint words (s : string) (i : nat) (cur : string) (start : nat)
  : list (string * nat) :=
  match s with
  | EmptyString => flush cur start
  | String c s' =>
      if Py.is_space c then (flush cur start ++ words s' (S i) "" (S i))%list
      else if is_word_char c then words s' (S i) (cur ++ String c "") start
      else (flush cur start ++ (String c "", i) :: words s' (S i) "" (S i))%list
  end.

Definition verbs : list string :=
  ["reported"; "announced"; "jumped"; "grew"; "set"; "see"; "rose"].

Definition auxiliaries : list string := ["might"; "will"; "has"; "is"].

Definition token_of (w : string * nat) : Spacy.Token :=
  let word := fst w in
  let punct :=
    match word with
    | String c EmptyString => negb (is_word_char c)
    | _ => false
    end in
  {| Spacy.text := word;
     Spacy.idx := snd w;
     Spacy.lemma_ := lower word;
     Spacy.pos_ :=
       if punct then "PUNCT"
       else if Speculative.member (lower word) verbs then "VERB"
       else if Speculative.member (lower word) auxiliaries then "AUX"
       else "NOUN";
     Spacy.dep_ :=
       if Speculative.member (lower word) auxiliaries then "aux" else "dep";
     Spacy.is_punct := punct;
     Spacy.is_space := false |}.

Definition nlp : Spacy.Language :=
  fun text =>
    {| Spacy.tokens := map token_of (words text 0 "" 0);
       Spacy.sents := filter (fun s => nonempty (strip s)) (re_split_sentence_end text);
       Spacy.ents := [] |}.

(** No pattern matches: an extractor that finds no mention. *)
Definition extractor : Parser.ClaimExtractor :=
  {| Parser.nlp := nlp; Parser.finditer := fun _ _ _ => [] |}.

Definition spec_scorer : Speculative.SpeculativeScorer :=
  {| Speculative.hedges := ["might"; "possibly"; "may"; "could"];
     Speculative.absolutes := ["definitely"; "always"; "never"; "doubt"];
     Speculative.weights := {| Speculative.hedge := 1; Speculative.absolute := 1 |};
     Speculative.nlp := nlp |}.

Definition rules : Sanity.Rules :=
  {| Sanity.percent_jump := {| Sanity.enabled := true; Sanity.threshold := 50 |};
     Sanity.currency_mismatch := {| Sanity.enabled := true; Sanity.threshold := 0 |};
     Sanity.unit_absurdity := {| Sanity.enabled := true; Sanity.threshold := 0 |};
     Sanity.future_past_conflict := {| Sanity.enabled := true; Sanity.threshold := 0 |} |}.

Definition sanity_checker : Sanity.SanityChecker :=
  {| Sanity.rules := rules;
     Sanity.thresholds :=
       {| Sanity.human_height_cm := 300;
          Sanity.human_weight_kg := 500;
          Sanity.temperature_celsius := 100 |};
     Sanity.currencies := ["USD"; "INR"; "EUR"];
     Sanity.nlp := nlp;
     Sanity.dateparser_parse := fun _ => ret None;
     Sanity.current_year := 2026 |}.




Definition paraphraser : Paraphrase.ParaphraseGenerator :=
  {| Paraphrase.synonyms := [("reported", ["announced"]); ("grew", ["rose"])];
     Paraphrase.hedges := ["might"; "possibly"; "may"; "could"];
     Paraphrase.nlp := nlp |}.

(** The same generator loaded from a rule file without hedges. *)
Definition paraphraser_no_hedges : Paraphrase.ParaphraseGenerator :=
  {| Paraphrase.synonyms := Paraphrase.synonyms paraphraser;
     Paraphrase.hedges := [];
     Paraphrase.nlp := nlp |}.

Definition claim : string := "The company reported earnings yesterday.".

Definition evidence : string := "The company reported earnings yesterday.".

(** A classifier that finds the evidence's own wording entailed and is
    undecided about any other wording. *)
Definition nli (premise hypothesis : string) : py (list (list Pipeline.LabelScore)) :=
  if String.eqb hypothesis premise
  then ret [[ {| Pipeline.label := "CONTRADICTION"; Pipeline.score := 0 |};
              {| Pipeline.label := "NEUTRAL"; Pipeline.score := 0 |};
              {| Pipeline.label := "ENTAILMENT"; Pipeline.score := 1 |} ]]
  else ret [[ {| Pipeline.label := "CONTRADICTION"; Pipeline.score := 1 # 2 |};
              {| Pipeline.label := "NEUTRAL"; Pipeline.score := 1 # 2 |};
              {| Pipeline.label := "ENTAILMENT"; Pipeline.score := 0 |} ]].

Definition similarity (a b : string) : py Q :=
  if String.eqb a b then ret 1 else ret 0.

(** [THIPipeline()] and [THIPipeline(weights=ws)] over these capabilities. *)
Definition make (weights : option (list Q)) : Pipeline.THIPipeline :=
  Pipeline.__init__ nli similarity extractor spec_scorer sanity_checker
    paraphraser (Some nlp) weights.

Definition pipeline : Pipeline.THIPipeline := make None.




Definition batch_request : Server.BatchRequest :=
  {| Server.texts := ["Revenue grew."; "It might possibly rise!"];
     Server.b_evidence := None;
     Server.b_threshold := Some (3 # 10) |}.

(** The pipeline when the spaCy model could not be loaded ([self.nlp = None]). *)
Definition fallback_pipeline : Pipeline.THIPipeline :=
  Pipeline.__init__ nli similarity extractor spec_scorer sanity_checker
    paraphraser None None.

End Demo.


(* ===================================================================== *)
(** * The vocabulary of the statements *)
(* ===================================================================== *)

Module Spec.

Import Pipeline.

(** A score in [[0,1]]. *)
Definition in_unit (q : Q) : Prop := 0 <= q /\ q <= 1.

Definition components_in_unit (c : Components) : Prop :=
  in_unit (contradiction_score c) /\ in_unit (support_score c) /\
  in_unit (instability_score c) /\ in_unit (speculative_score c) /\
  in_unit (numeric_score c).

(** Every label probability the classifier returns lies in [[0,1]]. *)
Definition probabilities (self : THIPipeline) : Prop :=
  forall premise hypothesis result,
    nli_pipeline self premise hypothesis = inr result ->
    Forall (Forall (fun s => in_unit (score s))) result.

(** The rule file's lexicon weights are non-negative (the RuleConfig
    invariant of the spec's data model). *)
Definition lexicon_weights_nonneg (self : THIPipeline) : Prop :=
  0 <= Speculative.hedge (Speculative.weights (spec_scorer self)) /\
  0 <= Speculative.absolute (Speculative.weights (spec_scorer self)).

(** Five non-negative weights that sum to at most 1. *)
Definition weights_within_unit (ws : list Q) : Prop :=
  List.length ws = 5%nat /\ Forall (fun w => 0 <= w) ws /\ sum ws <= 1.

(** The instability signal as the spec words it (4.4 and 4.5, step 3): the
    risk of the original sentence and of each paraphrase, then
    [min(variance(riskScores) * 10, 1.0)] when at least two risk values are
    available, else [0.0]; any failure gives [0.0]. *)
Definition instability (self : THIPipeline) (claim evidence : string) : Q :=
  try_except
    (paraphrases <- Paraphrase.generate_paraphrases (paraphraser self) claim ;;
     let risk_scores :=
       risk_score self claim evidence ::
       map (fun para => risk_score self para evidence) paraphrases in
     ret (if (2 <=? List.length risk_scores)%nat
          then min (var risk_scores * 10) 1
          else 0))
    0.

(** The component scores [c], [s], [i], [p], [n] as a ["components"] dict. *)
Definition components_of (c s i p n : Q) : Components :=
  {| contradiction_score := c; support_score := s; instability_score := i;
     speculative_score := p; numeric_score := n |}.

(** The vector [update_weights] is to store: each weight over the sum. *)
Definition normalized (ws : list Q) : list Q := map (fun w => w / sum ws) ws.

(** The absolute numeric value the percent rule reads off a mention: the text
    without its percent signs, parsed as a number. *)
Definition percent_value (percent : Parser.Mention) : option Q :=
  option_map abs (float (replace "%" "" (Parser.text percent))).

(** The mention's value exceeds the threshold. *)
Definition exceeds (threshold : Q) (percent : Parser.Mention) : bool :=
  match percent_value percent with
  | Some value => Qltb threshold value
  | None => false
  end.


(** Exactly one of three tests holds. *)
Definition exactly_one (a b c : bool) : Prop :=
  (a = true /\ b = false /\ c = false) \/
  (a = false /\ b = true /\ c = false) \/
  (a = false /\ b = false /\ c = true).

(** The number of lemmas that belong to a lexicon. *)
Definition occurrences (lexicon : list string) (tokens : list string) : nat :=
  List.length (filter (fun t => if in_dec string_dec t lexicon then true else false) tokens).

(** Every character of the string passes the test. *)
Fixpoint all_chars (test : ascii -> bool) (s : string) : bool :=
  match s with
  | EmptyString => true
  | String c s' => test c && all_chars test s'
  end.

(** The string holds none of the sentence terminators [.], [!], [?]. *)
Definition no_terminator (s : string) : bool :=
  all_chars (fun c => negb (is_sentence_end c)) s.

End Spec.

(* ===================================================================== *)
(** * Facts about the runtime *)
(* ===================================================================== *)

Section PyFacts.

Lemma Qltb_lt (a b : Q) : Qltb a b = true <-> a < b.
Proof.
  unfold Qltb. rewrite negb_true_iff.
  split; intro H.
  - apply Qnot_le_lt. intro Hle. apply Qle_bool_iff in Hle. congruence.
  - apply not_true_is_false. intro Hle. apply Qle_bool_iff in Hle.
    apply (Qlt_not_le _ _ H Hle).
Qed.

Lemma Qltb_ge (a b : Q) : Qltb a b = false <-> b <= a.
Proof.
  unfold Qltb. rewrite negb_false_iff. apply Qle_bool_iff.
Qed.

Lemma min_le_r (a b : Q) : min a b <= b.
Proof.
  unfold min. destruct (Qltb b a) eqn:E.
  - apply Qle_refl.
  - apply Qltb_ge in E. exact E.
Qed.


Lemma min_glb (a b c : Q) : c <= a -> c <= b -> c <= min a b.
Proof.
  intros Ha Hb. unfold min. destruct (Qltb b a); assumption.
Qed.

Lemma min_unit (a : Q) : 0 <= a -> Spec.in_unit (min a 1).
Proof.
  intro Ha. split.
  - apply min_glb; [exact Ha | lra].
  - apply min_le_r.
Qed.

Lemma max_ge_l (a b : Q) : a <= max a b.
Proof.
  unfold max. destruct (Qltb a b) eqn:E.
  - apply Qltb_lt in E. apply Qlt_le_weak. exact E.
  - apply Qle_refl.
Qed.

Lemma max_cases (a b : Q) : max a b = a \/ max a b = b.
Proof.
  unfold max. destruct (Qltb a b); auto.
Qed.

Lemma fold_left_plus (l : list Q) (a : Q) :
  fold_left Qplus l a == a + sum l.
Proof.
  unfold sum. revert a.
  induction l as [| x l IH]; intro a; simpl.
  - lra.
  - rewrite (IH (a + x)), (IH (0 + x)). lra.
Qed.

Lemma sum_cons (x : Q) (l : list Q) : sum (x :: l) == x + sum l.
Proof.
  unfold sum at 1. simpl. rewrite fold_left_plus. lra.
Qed.

Lemma sum_nil : sum [] == 0.
Proof. reflexivity. Qed.

Lemma sum_nonneg (l : list Q) : Forall (fun x => 0 <= x) l -> 0 <= sum l.
Proof.
  induction 1 as [| x l Hx _ IH].
  - rewrite sum_nil. lra.
  - rewrite sum_cons. lra.
Qed.

Lemma len_nonneg (A : Type) (l : list A) : 0 <= len l.
Proof.
  unfold len. change 0 with (inject_Z 0). rewrite <- Zle_Qle. lia.
Qed.

Lemma div_nonneg (a b : Q) : 0 <= a -> 0 <= b -> 0 <= a / b.
Proof.
  intros Ha Hb. unfold Qdiv.
  apply Qmult_le_0_compat; [exact Ha | apply Qinv_le_0_compat; exact Hb].
Qed.

Lemma var_nonneg (l : list Q) : 0 <= var l.
Proof.
  unfold var. apply div_nonneg; [| apply len_nonneg].
  apply sum_nonneg. apply Forall_forall. intros y Hy.
  apply in_map_iff in Hy. destruct Hy as [x [<- _]].
  generalize (x - mean l). intro d. nra.
Qed.

Lemma round_unit (x : Q) (ndigits : nat) :
  Spec.in_unit x -> Spec.in_unit (round x ndigits).
Proof.
  intros [H0 H1]. unfold round.
  set (S := (10 ^ Z.of_nat ndigits)%Z).
  assert (HS : (0 < S)%Z) by (apply Z.pow_pos_nonneg; lia).
  assert (HSq : 0 < inject_Z S) by (change 0 with (inject_Z 0); rewrite <- Zlt_Qlt; exact HS).
  set (y := x * inject_Z S).
  assert (Hy0 : 0 <= y) by (unfold y; nra).
  assert (Hy1 : y <= inject_Z S) by (unfold y; nra).
  set (f := Qfloor y).
  assert (Hf0 : (0 <= f)%Z).
  { change 0%Z with (Qfloor 0). apply Qfloor_resp_le. exact Hy0. }
  assert (Hf1 : (f <= S)%Z).
  { rewrite <- (Qfloor_Z S). apply Qfloor_resp_le. exact Hy1. }
  assert (Hfy : inject_Z f <= y) by apply Qfloor_le.
  assert (Hup : y - inject_Z f < 1 # 2 \/ (f + 1 <= S)%Z).
  { destruct (Z.eq_dec f S) as [-> | Hne]; [left; lra | right; lia]. }
  assert (Hn : forall n : Z, (0 <= n <= S)%Z -> Spec.in_unit (inject_Z n / inject_Z S)).
  { intros n [Hn0 Hn1].
    assert (0 <= inject_Z n) by (change 0 with (inject_Z 0); rewrite <- Zle_Qle; exact Hn0).
    assert (inject_Z n <= inject_Z S) by (rewrite <- Zle_Qle; exact Hn1).
    split.
    - apply div_nonneg; lra.
    - apply Qle_shift_div_r; lra. }
  destruct (Qltb (y - inject_Z f) (1 # 2)) eqn:E1.
  - apply Hn. lia.
  - apply Qltb_ge in E1.
    assert (Hlt : (f + 1 <= S)%Z) by (destruct Hup as [Hup | Hup]; [lra | exact Hup]).
    destruct (Qltb (1 # 2) (y - inject_Z f)); [apply Hn; lia |].
    destruct (Z.even f); apply Hn; lia.
Qed.

Lemma take_drop (n : nat) (s : string) : (take n s ++ drop n s)%string = s.
Proof.
  revert s. induction n as [| n IH]; intros [| c s]; simpl; try reflexivity.
  now rewrite IH.
Qed.

Lemma drop_drop (n m : nat) (s : string) : drop n (drop m s) = drop (m + n) s.
Proof.
  revert s. induction m as [| m IH]; intro s; simpl.
  - reflexivity.
  - destruct s as [| c s]; simpl.
    + now destruct n.
    + apply IH.
Qed.

Lemma prefix_drop (p s : string) :
  String.prefix p s = true -> s = (p ++ drop (String.length p) s)%string.
Proof.
  revert s. induction p as [| a p IH]; intros [| b s] H; simpl in *;
    try reflexivity; try discriminate.
  destruct (ascii_dec a b) as [-> | Hab]; [| discriminate].
  f_equal. apply IH. exact H.
Qed.

Lemma find_eq (old s : string) :
  find old s =
  if String.prefix old s then Some 0%nat
  else match s with
       | EmptyString => None
       | String _ s' => option_map S (find old s')
       end.
Proof. destruct s; reflexivity. Qed.

Lemma replace_first_eq (old new s : string) :
  replace_first old new s =
  if String.prefix old s then (new ++ drop (String.length old) s)%string
  else match s with
       | EmptyString => EmptyString
       | String c s' => String c (replace_first old new s')
       end.
Proof. destruct s; reflexivity. Qed.

Lemma find_prefix (old s : string) (n : nat) :
  find old s = Some n -> String.prefix old (drop n s) = true.
Proof.
  revert n. induction s as [| c s IH]; intros n H; rewrite find_eq in H.
  - destruct (String.prefix old "") eqn:E; [| discriminate].
    injection H as <-. exact E.
  - destruct (String.prefix old (String c s)) eqn:E.
    + injection H as <-. exact E.
    + destruct (find old s) as [k |]; [| discriminate].
      injection H as <-. simpl. now apply IH.
Qed.

(** [replace(old, new, 1)] cuts the text at the offset [find] returns. *)
Lemma replace_first_find (old new s : string) (n : nat) :
  find old s = Some n ->
  replace_first old new s =
  (take n s ++ new ++ drop (n + String.length old) s)%string.
Proof.
  revert n. induction s as [| c s IH]; intros n H;
    rewrite find_eq in H; rewrite replace_first_eq.
  - destruct (String.prefix old "") eqn:E; [| discriminate].
    injection H as <-. reflexivity.
  - destruct (String.prefix old (String c s)) eqn:E.
    + injection H as <-. reflexivity.
    + destruct (find old s) as [k |]; [| discriminate].
      injection H as <-. simpl. f_equal. now apply IH.
Qed.

Lemma append_assoc (a b c : string) : ((a ++ b) ++ c = a ++ (b ++ c))%string.
Proof.
  induction a as [| x a IH]; simpl; [reflexivity | now rewrite IH].
Qed.

(** Inserting before an occurrence found by [find] keeps the rest of the text. *)
Lemma replace_first_inserts (old ins s : string) (n : nat) :
  find old s = Some n ->
  replace_first old (ins ++ old) s = (take n s ++ ins ++ drop n s)%string.
Proof.
  intro H. rewrite (replace_first_find _ _ _ _ H).
  f_equal. rewrite <- drop_drop.
  rewrite (prefix_drop _ _ (find_prefix _ _ _ H)) at 2.
  now rewrite append_assoc.
Qed.

End PyFacts.

(* ===================================================================== *)
(** * Facts about the component scores *)
(* ===================================================================== *)

(** Non-negativity of an injected natural number or length. *)
Ltac inject_nonneg :=
  change 0 with (inject_Z 0); rewrite <- Zle_Qle; lia.

Section UnitFacts.

Import Pipeline.

Lemma half_unit : Spec.in_unit (1 # 2).
Proof. split; lra. Qed.

Lemma zero_unit : Spec.in_unit 0.
Proof. split; lra. Qed.

Lemma first_labelled_unit (needle : string) (scores : list LabelScore) (q : Q) :
  Forall (fun s => Spec.in_unit (score s)) scores ->
  first_labelled needle scores = Some q -> Spec.in_unit q.
Proof.
  intros Hall H. unfold first_labelled in H.
  destruct (List.find _ scores) as [s |] eqn:E; [| discriminate].
  injection H as <-. apply find_some in E. destruct E as [Hin _].
  rewrite Forall_forall in Hall. now apply Hall.
Qed.

Lemma fold_max_unit (rest : list LabelScore) (m : Q) :
  Forall (fun s => Spec.in_unit (score s)) rest -> Spec.in_unit m ->
  Spec.in_unit (fold_left (fun m x => max m (score x)) rest m).
Proof.
  intro Hall. revert m.
  induction Hall as [| s rest Hs _ IH]; intros m Hm; simpl.
  - exact Hm.
  - apply IH. destruct (max_cases m (score s)) as [-> | ->]; assumption.
Qed.

Lemma max_score_unit (scores : list LabelScore) (q : Q) :
  Forall (fun s => Spec.in_unit (score s)) scores ->
  max_score scores = inr q -> Spec.in_unit q.
Proof.
  intros Hall H. destruct scores as [| s rest]; [discriminate |].
  injection H as <-. inversion Hall; subst. now apply fold_max_unit.
Qed.

Lemma getitem_in (A : Type) (l : list A) (i : nat) (a : A) :
  getitem l i = inr a -> In a l.
Proof.
  unfold getitem. destruct (nth_error l i) eqn:E; [| discriminate].
  intro H. injection H as <-. eapply nth_error_In. exact E.
Qed.

Lemma sanity_unit (checker : Sanity.SanityChecker) (sentence_data : Parser.SentenceData) :
  Spec.in_unit (fst (Sanity.check_sentence_claims checker sentence_data)).
Proof.
  unfold Sanity.check_sentence_claims.
  destruct (_ =? 0)%nat; simpl; [apply zero_unit |].
  apply min_unit. apply div_nonneg; [apply len_nonneg | inject_nonneg].
Qed.

Lemma rounded_unit (c : Components) :
  Spec.components_in_unit c -> Spec.components_in_unit (rounded c).
Proof.
  unfold Spec.components_in_unit, rounded. simpl.
  intros (H1 & H2 & H3 & H4 & H5).
  repeat split; apply round_unit; assumption.
Qed.

Lemma five_weights (ws : list Q) :
  List.length ws = 5%nat -> exists w0 w1 w2 w3 w4, ws = [w0; w1; w2; w3; w4].
Proof.
  intro H.
  destruct ws as [| w0 [| w1 [| w2 [| w3 [| w4 [| w5 ws]]]]]]; try discriminate.
  now exists w0, w1, w2, w3, w4.
Qed.

Lemma sum_five (w0 w1 w2 w3 w4 : Q) :
  sum [w0; w1; w2; w3; w4] == w0 + w1 + w2 + w3 + w4.
Proof. unfold sum. simpl. lra. Qed.

(** With five non-negative weights that sum to at most 1, the weighted sum of
    scores in [[0,1]] is defined and lies in [[0,1]]. *)
Lemma thi_formula_unit (ws : list Q) (c : Components) :
  Spec.weights_within_unit ws -> Spec.components_in_unit c ->
  exists thi, thi_formula ws c = inr thi /\ Spec.in_unit thi.
Proof.
  intros (Hlen & Hpos & Hsum) (Hc & Hs & Hi & Hp & Hn).
  destruct (five_weights _ Hlen) as (w0 & w1 & w2 & w3 & w4 & ->).
  rewrite sum_five in Hsum.
  repeat match goal with
         | H : Forall _ (_ :: _) |- _ => inversion H; clear H; subst
         end.
  eexists. split; [reflexivity |].
  unfold Spec.in_unit in *.
  generalize dependent (contradiction_score c). intros x0 Hx0.
  generalize dependent (support_score c). intros x1 Hx1.
  generalize dependent (instability_score c). intros x2 Hx2.
  generalize dependent (speculative_score c). intros x3 Hx3.
  generalize dependent (numeric_score c). intros x4 Hx4.
  split; nra.
Qed.

(** Five weights are all the formula needs to return. *)
Lemma thi_formula_defined (ws : list Q) (c : Components) :
  List.length ws = 5%nat -> exists thi, thi_formula ws c = inr thi.
Proof.
  intro Hlen. destruct (five_weights _ Hlen) as (w0 & w1 & w2 & w3 & w4 & ->).
  eexists. reflexivity.
Qed.

End UnitFacts.

Create HintDb unit_scores.
#[export] Hint Resolve half_unit zero_unit min_unit round_unit sanity_unit : unit_scores.

(** The five component scores of one claim, for a pipeline whose classifier
    returns probabilities and whose rule file has non-negative lexicon
    weights. *)
Section ComponentScores.

Import Pipeline.

Variable self : THIPipeline.
Hypothesis classifier_probabilities : Spec.probabilities self.
Hypothesis lexicon_nonneg : Spec.lexicon_weights_nonneg self.
Variables claim evidence : string.

(** The first list of the classifier's answer holds probabilities. *)
Lemma first_result_unit (result : list (list LabelScore)) (result0 : list LabelScore) :
  nli_pipeline self evidence claim = inr result ->
  getitem result 0 = inr result0 ->
  Forall (fun s => Spec.in_unit (score s)) result0.
Proof.
  intros E E0. pose proof (classifier_probabilities _ _ _ E) as Hp.
  rewrite Forall_forall in Hp. apply Hp. eapply getitem_in. exact E0.
Qed.

Lemma contradiction_unit :
  Spec.in_unit (compute_contradiction_score self claim evidence).
Proof.
  unfold compute_contradiction_score.
  destruct (nli_pipeline self evidence claim) as [e | result] eqn:E; simpl;
    [auto with unit_scores |].
  destruct (getitem result 0) as [e | result0] eqn:E0; simpl;
    [auto with unit_scores |].
  pose proof (first_result_unit _ _ E E0) as Hall.
  destruct (first_labelled "contradict" result0) as [q |] eqn:Ef; simpl.
  - eapply first_labelled_unit; eassumption.
  - destruct (max_score result0) as [e | q] eqn:Em; simpl; [auto with unit_scores |].
    eapply max_score_unit; eassumption.
Qed.

Lemma support_unit :
  Spec.in_unit (compute_support_score self claim evidence).
Proof.
  unfold compute_support_score.
  destruct (nli_pipeline self evidence claim) as [e | result] eqn:E; simpl;
    [auto with unit_scores |].
  destruct (getitem result 0) as [e | result0] eqn:E0; simpl;
    [auto with unit_scores |].
  destruct (cosine_similarity self claim evidence) as [e | similarity] eqn:Es; simpl;
    [auto with unit_scores |].
  pose proof (first_result_unit _ _ E E0) as Hall.
  assert (He : Spec.in_unit
                 match first_labelled "entail" result0 with
                 | Some s => s
                 | None => 0
                 end).
  { destruct (first_labelled "entail" result0) as [q |] eqn:Ef.
    - eapply first_labelled_unit; eassumption.
    - apply zero_unit. }
  destruct He as [He0 _].
  apply min_unit.
  pose proof (max_ge_l 0 similarity) as Hm.
  generalize dependent (max 0 similarity). intros m Hm.
  generalize dependent (match first_labelled "entail" result0 with
                        | Some s => s
                        | None => 0
                        end).
  intros en Hen. nra.
Qed.

Lemma instability_unit :
  Spec.in_unit (compute_instability_score self claim evidence).
Proof.
  unfold compute_instability_score.
  destruct (Paraphrase.generate_paraphrases (paraphraser self) claim)
    as [e | paraphrases]; simpl; [auto with unit_scores |].
  destruct (1 <? _)%nat; [| auto with unit_scores].
  apply min_unit.
  pose proof (var_nonneg (map (fun para => risk_score self para evidence) paraphrases)).
  nra.
Qed.

Lemma speculative_unit :
  Spec.in_unit (compute_speculative_score self claim).
Proof.
  destruct lexicon_nonneg as [Hh Ha].
  unfold compute_speculative_score, Speculative.score_sentence. simpl.
  destruct (Speculative.lemmas (spec_scorer self) claim) as [| t tokens] eqn:E; simpl;
    [auto with unit_scores |].
  apply min_unit. apply div_nonneg.
  - assert (Hn : forall n : nat, 0 <= inject_Z (Z.of_nat n)) by (intro n; inject_nonneg).
    pose proof (Hn (Speculative.count_in (Speculative.hedges (spec_scorer self)) (t :: tokens))).
    pose proof (Hn (Speculative.count_in (Speculative.absolutes (spec_scorer self)) (t :: tokens))).
    nra.
  - pose proof (len_nonneg _ (t :: tokens)). nra.
Qed.

Lemma numeric_unit :
  Spec.in_unit (compute_numeric_sanity_score self claim).
Proof.
  unfold compute_numeric_sanity_score.
  destruct (Parser.extract_sentence_claims (extractor self) claim) as [| sd rest]; simpl;
    auto with unit_scores.
Qed.

Lemma component_scores_unit :
  Spec.components_in_unit (component_scores self claim evidence).
Proof.
  unfold Spec.components_in_unit, component_scores. simpl.
  repeat split;
    first [ apply contradiction_unit | apply support_unit | apply instability_unit
          | apply speculative_unit | apply numeric_unit ].
Qed.

End ComponentScores.

(* ===================================================================== *)
(** * Weight updates *)
(* ===================================================================== *)

Section WeightFacts.

Import Pipeline.

Lemma all_in_unit_Forall (ws : list Q) :
  all_in_unit ws = true <-> Forall Spec.in_unit ws.
Proof.
  unfold all_in_unit. rewrite forallb_forall, Forall_forall.
  split; intros H w Hw; specialize (H w Hw).
  - apply andb_true_iff in H. destruct H as [H0 H1].
    split; now apply Qle_bool_iff.
  - destruct H as [H0 H1]. apply andb_true_iff. split; now apply Qle_bool_iff.
Qed.

Lemma mapM_div (total : Q) (ws : list Q) :
  Qeq_bool total 0 = false ->
  mapM (fun w => div w total) ws = inr (map (fun w => w / total) ws).
Proof.
  intro Ht. induction ws as [| w ws IH]; simpl.
  - reflexivity.
  - unfold div at 1. rewrite Ht. simpl. rewrite IH. reflexivity.
Qed.

Lemma sum_map_div (total : Q) (ws : list Q) :
  sum (map (fun w => w / total) ws) == sum ws / total.
Proof.
  induction ws as [| w ws IH]; simpl.
  - rewrite sum_nil. unfold Qdiv. lra.
  - rewrite !sum_cons, IH. unfold Qdiv. lra.
Qed.

Lemma in_le_sum (ws : list Q) (w : Q) :
  Forall (fun x => 0 <= x) ws -> In w ws -> w <= sum ws.
Proof.
  induction 1 as [| x ws Hx Hall IH]; intros Hin; [contradiction |].
  rewrite sum_cons. pose proof (sum_nonneg _ Hall) as Hs.
  destruct Hin as [-> | Hin]; [lra |]. specialize (IH Hin). lra.
Qed.

Lemma Forall_unit_nonneg (ws : list Q) :
  Forall Spec.in_unit ws -> Forall (fun x => 0 <= x) ws.
Proof.
  apply Forall_impl. now intros w [H _].
Qed.

(** Dividing by a positive sum: what is stored has five entries in [[0,1]]
    that sum to 1. *)
Lemma normalized_unit_sum (ws : list Q) :
  Forall Spec.in_unit ws -> 0 < sum ws ->
  List.length (Spec.normalized ws) = List.length ws /\
  Forall Spec.in_unit (Spec.normalized ws) /\
  sum (Spec.normalized ws) == 1.
Proof.
  intros Hall Hpos. unfold Spec.normalized. split; [apply length_map |]. split.
  - apply Forall_forall. intros q Hq. apply in_map_iff in Hq.
    destruct Hq as [w [<- Hw]].
    pose proof (in_le_sum ws w (Forall_unit_nonneg ws Hall) Hw) as Hle.
    rewrite Forall_forall in Hall. destruct (Hall w Hw) as [Hw0 _].
    split.
    + apply div_nonneg; lra.
    + apply Qle_shift_div_r; lra.
  - rewrite sum_map_div. field. lra.
Qed.

(** On five weights in [[0,1]] with a non-zero sum, [update_weights] returns
    and stores the normalized vector. *)
Lemma update_weights_normalizes (ws : list Q) (self : THIPipeline) :
  List.length ws = 5%nat -> all_in_unit ws = true -> Qeq_bool (sum ws) 0 = false ->
  update_weights ws self = (ret tt, set_weights (Spec.normalized ws) self).
Proof.
  intros Hlen Hall Hsum. unfold update_weights.
  rewrite Hlen, Hall. simpl. rewrite (mapM_div _ ws Hsum). reflexivity.
Qed.

Lemma nonzero_sum_positive (ws : list Q) :
  all_in_unit ws = true -> Qeq_bool (sum ws) 0 = false -> 0 < sum ws.
Proof.
  intros Hall Hsum. apply all_in_unit_Forall in Hall.
  pose proof (sum_nonneg _ (Forall_unit_nonneg ws Hall)) as H0.
  destruct (Qlt_le_dec 0 (sum ws)) as [H | H]; [exact H |].
  assert (E : sum ws == 0) by lra.
  apply Qeq_bool_iff in E. congruence.
Qed.

(** After a call that returns, the stored vector has five entries in
    [[0,1]] that sum to 1. *)
Lemma update_weights_stores_normalized (ws : list Q) (self self' : THIPipeline) :
  update_weights ws self = (ret tt, self') ->
  List.length (weights self') = 5%nat /\
  Forall Spec.in_unit (weights self') /\
  sum (weights self') == 1.
Proof.
  unfold update_weights.
  destruct (List.length ws =? 5)%nat eqn:Hlen; simpl; [| discriminate].
  destruct (all_in_unit ws) eqn:Hall; simpl; [| discriminate].
  destruct (Qeq_bool (sum ws) 0) eqn:Hsum.
  - destruct ws as [| w ws]; [discriminate |].
    simpl. unfold div at 1. rewrite Hsum. discriminate.
  - rewrite (mapM_div _ ws Hsum). intro H. injection H as <-. simpl.
    apply Nat.eqb_eq in Hlen.
    destruct (normalized_unit_sum ws (proj1 (all_in_unit_Forall ws) Hall)
                (nonzero_sum_positive ws Hall Hsum)) as (H1 & H2 & H3).
    unfold Spec.normalized in H1, H2, H3. rewrite H1. auto.
Qed.

(** The spec's scenario: [[0.7, 0.6, 0.3, 0.2, 0.2]] is stored as
    [[0.35, 0.30, 0.15, 0.10, 0.10]]. *)
Lemma update_weights_scenario (self : THIPipeline) :
  exists self',
    update_weights [7 # 10; 6 # 10; 3 # 10; 2 # 10; 2 # 10] self = (ret tt, self') /\
    Forall2 Qeq (weights self') default_weights.
Proof.
  eexists. split; [reflexivity |].
  simpl. repeat constructor; reflexivity.
Qed.

Lemma default_weights_within_unit : Spec.weights_within_unit default_weights.
Proof.
  split; [reflexivity |]. split.
  - unfold default_weights. repeat constructor; lra.
  - unfold default_weights. rewrite sum_five. lra.
Qed.

End WeightFacts.

(* ===================================================================== *)
(** * Facts about the paraphrases and the instability signal *)
(* ===================================================================== *)

(** The generator returns, when it returns, exactly three paraphrases. *)
Lemma generate_paraphrases_three (self : Paraphrase.ParaphraseGenerator)
  (text : string) (paraphrases : list string) :
  Paraphrase.generate_paraphrases self text = inr paraphrases ->
  List.length paraphrases = 3%nat.
Proof.
  unfold Paraphrase.generate_paraphrases.
  destruct (Paraphrase._synonym_paraphrase self text) as [e | p1]; simpl;
    [discriminate |].
  intro H. injection H as <-. reflexivity.
Qed.

(** What the code computes: the scaled variance of the three paraphrases'
    risk scores; the scores of the original sentence do not enter it. *)
Lemma compute_instability_score_over_paraphrases (self : Pipeline.THIPipeline)
  (claim evidence : string) (paraphrases : list string) :
  Paraphrase.generate_paraphrases (Pipeline.paraphraser self) claim = inr paraphrases ->
  Pipeline.compute_instability_score self claim evidence =
  min (var (map (fun para => Pipeline.risk_score self para evidence) paraphrases) * 10) 1.
Proof.
  intro H. unfold Pipeline.compute_instability_score. rewrite H. simpl.
  rewrite length_map, (generate_paraphrases_three _ _ _ H). reflexivity.
Qed.

(* ===================================================================== *)
(** * Facts about the speculative scorer *)
(* ===================================================================== *)

Section SpeculativeFacts.

Import Speculative.

Lemma member_In (w : string) (set : list string) :
  member w set = true <-> In w set.
Proof.
  unfold member. rewrite existsb_exists. split.
  - intros [x [Hin Heq]]. apply String.eqb_eq in Heq. now subst.
  - intro Hin. exists w. split; [exact Hin | apply String.eqb_refl].
Qed.

Lemma count_in_occurrences (set tokens : list string) :
  count_in set tokens = Spec.occurrences set tokens.
Proof.
  unfold count_in, Spec.occurrences. f_equal.
  apply filter_ext. intro t.
  destruct (in_dec string_dec t set) as [Hin | Hnin].
  - now apply member_In.
  - apply not_true_is_false. intro H. apply member_In in H. contradiction.
Qed.

Lemma filter_none (A : Type) (f : A -> bool) (l : list A) :
  Forall (fun a => f a = false) l -> filter f l = [].
Proof.
  induction 1 as [| a l Ha _ IH]; simpl; [reflexivity |].
  now rewrite Ha.
Qed.

End SpeculativeFacts.

(* ===================================================================== *)
(** * Facts about the summary buckets *)
(* ===================================================================== *)

Section BucketFacts.

Import Pipeline.

Lemma buckets_exactly_one (r : ClaimResult) :
  Spec.exactly_one (is_high r) (is_medium r) (is_low r).
Proof.
  unfold Spec.exactly_one, is_high, is_medium, is_low.
  generalize (thi_score r). intro q.
  destruct (Qltb (7 # 10) q) eqn:Eh; destruct (Qltb q (4 # 10)) eqn:El;
    destruct (Qle_bool (4 # 10) q) eqn:E4; destruct (Qle_bool q (7 # 10)) eqn:E7;
    simpl; auto;
    repeat match goal with
           | H : Qltb _ _ = true |- _ => apply Qltb_lt in H
           | H : Qltb _ _ = false |- _ => apply Qltb_ge in H
           | H : Qle_bool _ _ = true |- _ => apply Qle_bool_iff in H
           | H : Qle_bool ?a ?b = false |- _ =>
               assert (~ a <= b) by (intro Hle; apply Qle_bool_iff in Hle; congruence);
               clear H
           end;
    exfalso; lra.
Qed.

Lemma buckets_count (l : list ClaimResult) :
  (List.length (filter is_high l) + List.length (filter is_medium l) +
   List.length (filter is_low l) = List.length l)%nat.
Proof.
  induction l as [| r l IH]; simpl; [reflexivity |].
  destruct (buckets_exactly_one r) as [(-> & -> & ->) | [(-> & -> & ->) | (-> & -> & ->)]];
    simpl; lia.
Qed.

End BucketFacts.

(* ===================================================================== *)
(** * Facts about the percent-jump rule *)
(* ===================================================================== *)

Section PercentFacts.

Import Sanity.

Lemma percent_flag_cases (threshold : Q) (percent : Parser.Mention) :
  match Spec.percent_value percent with
  | Some value =>
      percent_flag threshold percent =
      if Qltb threshold value then [percent_jump_ value] else []
  | None => percent_flag threshold percent = []
  end.
Proof.
  unfold Spec.percent_value, percent_flag.
  destruct (float (replace "%" "" (Parser.text percent))); reflexivity.
Qed.


Lemma percent_flag_length (threshold : Q) (percent : Parser.Mention) :
  List.length (percent_flag threshold percent) =
  if Spec.exceeds threshold percent then 1%nat else 0%nat.
Proof.
  pose proof (percent_flag_cases threshold percent) as H.
  unfold Spec.exceeds.
  destruct (Spec.percent_value percent) as [value |]; rewrite H;
    [destruct (Qltb threshold value) |]; reflexivity.
Qed.

Lemma percent_flags_length (threshold : Q) (percents : list Parser.Mention) :
  List.length (flat_map (percent_flag threshold) percents) =
  List.length (filter (Spec.exceeds threshold) percents).
Proof.
  induction percents as [| p percents IH]; simpl; [reflexivity |].
  rewrite length_app, IH, percent_flag_length.
  destruct (Spec.exceeds threshold p); reflexivity.
Qed.


End PercentFacts.

(* ===================================================================== *)
(** * Facts about the demo capabilities *)
(* ===================================================================== *)

Section DemoFacts.

Lemma demo_probabilities (weights : option (list Q)) :
  Spec.probabilities (Demo.make weights).
Proof.
  intros premise hypothesis result. simpl. unfold Demo.nli.
  destruct (String.eqb hypothesis premise); intro H; injection H as <-;
    repeat constructor; simpl; lra.
Qed.

Lemma demo_lexicon_weights_nonneg (weights : option (list Q)) :
  Spec.lexicon_weights_nonneg (Demo.make weights).
Proof.
  split; simpl; lra.
Qed.

End DemoFacts.

(* ===================================================================== *)
(** * The fusion formula *)
(* ===================================================================== *)

Section FormulaFacts.

Import Pipeline.

(** If the weighted sum stays in [[0,1]] for all scores in [[0,1]], the
    weights are non-negative and sum to at most 1. *)
Lemma thi_formula_unit_only (w0 w1 w2 w3 w4 : Q) :
  (forall c, Spec.components_in_unit c ->
             exists thi, thi_formula [w0; w1; w2; w3; w4] c = inr thi /\ Spec.in_unit thi) ->
  Spec.weights_within_unit [w0; w1; w2; w3; w4].
Proof.
  intro H.
  assert (Hat : forall c s i p n,
             Spec.in_unit c -> Spec.in_unit s -> Spec.in_unit i ->
             Spec.in_unit p -> Spec.in_unit n ->
             Spec.in_unit (w0 * c + w1 * (1 - s) + w2 * i + w3 * p + w4 * n)).
  { intros c s i p n Hc Hs Hi Hp Hn.
    destruct (H (Spec.components_of c s i p n)) as (thi & Hthi & Hunit).
    - repeat split; simpl; solve [apply Hc | apply Hs | apply Hi | apply Hp | apply Hn].
    - injection Hthi as <-. exact Hunit. }
  assert (U0 : Spec.in_unit 0) by (split; lra).
  assert (U1 : Spec.in_unit 1) by (split; lra).
  pose proof (Hat 1 1 0 0 0 U1 U1 U0 U0 U0) as [H0 _].
  pose proof (Hat 0 0 0 0 0 U0 U0 U0 U0 U0) as [H1 _].
  pose proof (Hat 0 1 1 0 0 U0 U1 U1 U0 U0) as [H2 _].
  pose proof (Hat 0 1 0 1 0 U0 U1 U0 U1 U0) as [H3 _].
  pose proof (Hat 0 1 0 0 1 U0 U1 U0 U0 U1) as [H4 _].
  pose proof (Hat 1 0 1 1 1 U1 U0 U1 U1 U1) as [_ Hs].
  split; [reflexivity |]. split.
  - repeat constructor; lra.
  - rewrite sum_five. lra.
Qed.

End FormulaFacts.

(* ===================================================================== *)
(** * Facts about the server *)
(* ===================================================================== *)

Section ServerFacts.

Import Pipeline Server.

Lemma mapM_inr (A B : Type) (f : A -> py B) (l : list A) :
  (forall a, exists b, f a = inr b) -> exists bs, mapM f l = inr bs.
Proof.
  intro Hf. induction l as [| a l [bs IH]]; simpl.
  - now exists [].
  - destruct (Hf a) as [b ->]. simpl. rewrite IH. simpl. now exists (b :: bs).
Qed.

Lemma mapM_Forall (A B : Type) (f : A -> py B) (P : B -> Prop) (l : list A)
  (bs : list B) :
  (forall a b, f a = inr b -> P b) -> mapM f l = inr bs -> Forall P bs.
Proof.
  intro Hf. revert bs. induction l as [| a l IH]; simpl; intros bs H.
  - injection H as <-. constructor.
  - destruct (f a) as [e | b] eqn:Ea; simpl in H; [discriminate |].
    destruct (mapM f l) as [e | bs'] eqn:El; simpl in H; [discriminate |].
    injection H as <-. constructor; [now apply (Hf a) | now apply IH].
Qed.

Lemma compute_thi_for_claim_weights (self : THIPipeline) (claim evidence : string)
  (r : ClaimResult) :
  compute_thi_for_claim self claim evidence = inr r -> cr_weights r = weights self.
Proof.
  unfold compute_thi_for_claim.
  destruct (thi_formula _ _) as [e | thi]; simpl; [discriminate |].
  intro H. injection H as <-. reflexivity.
Qed.

(** With five stored weights [process_text] returns, reports the stored
    weights, and every claim in the result was scored with them. *)
Lemma process_text_with_five_weights (self : THIPipeline) (text : string)
  (evidence : option string) :
  List.length (weights self) = 5%nat ->
  exists results,
    process_text self text evidence = inr results /\
    weights_used results = weights self /\
    Forall (fun c => cr_weights c = weights self) (claims results).
Proof.
  intro Hlen. unfold process_text.
  match goal with
  | |- context [mapM ?f ?l] =>
      destruct (mapM_inr _ _ f l) as [claim_results E]
  end.
  { intro sentence. unfold compute_thi_for_claim.
    destruct (thi_formula_defined (weights self)
                (component_scores self sentence
                   match evidence with None => text | Some e => e end) Hlen)
      as [thi ->].
    simpl. eexists. reflexivity. }
  rewrite E. simpl. eexists. split; [reflexivity |]. simpl.
  split; [reflexivity |].
  apply (mapM_Forall _ _ _ (fun c => cr_weights c = weights self) _ _
           (fun sentence r => compute_thi_for_claim_weights self sentence _ r) E).
Qed.




End ServerFacts.

(* ===================================================================== *)
(** * The claims *)
(* ===================================================================== *)

(** C1 (code defect).  The claim [Demo.claim] against [Demo.evidence], with a
    classifier that gives the original sentence risk 0 and each of its three
    paraphrases risk 3/2: the code takes the variance over the three
    paraphrase risks only and returns 0, where the variance over the original
    and the three paraphrases, as the spec words the signal, gives 1; so does
    the generator's own [calculate_instability] on the same four values. *)
Theorem instability_variance_leaves_out_original :
  Paraphrase.generate_paraphrases Demo.paraphraser Demo.claim =
    inr ["The company announced earnings yesterday.";
         "The company possibly reported earnings yesterday.";
         "yesterday The company reported earnings ."] /\
  Pipeline.risk_score Demo.pipeline Demo.claim Demo.evidence == 0 /\
  Forall (fun para => Pipeline.risk_score Demo.pipeline para Demo.evidence == 3 # 2)
    ["The company announced earnings yesterday.";
     "The company possibly reported earnings yesterday.";
     "yesterday The company reported earnings ."] /\
  Pipeline.compute_instability_score Demo.pipeline Demo.claim Demo.evidence == 0 /\
  Spec.instability Demo.pipeline Demo.claim Demo.evidence == 1 /\
  Paraphrase.calculate_instability (Some 0) [Some (3 # 2); Some (3 # 2); Some (3 # 2)] == 1.
Proof.
  split; [vm_compute; reflexivity |].
  split; [vm_compute; reflexivity |].
  split; [repeat constructor; vm_compute; reflexivity |].
  repeat split; vm_compute; reflexivity.
Qed.

(** C2 as stated fails: on a pipeline constructed with
    [weights=[1, 1, 1, 1, 1]], [update_weights([0, 0, 0, 0, 0])] (length 5,
    every entry in [[0,1]]) leaves a stored vector that does not sum to 1. *)
Lemma update_weights_counterexample :
  ~ (forall (self : Pipeline.THIPipeline) (ws : list Q),
       List.length ws = 5%nat -> Forall Spec.in_unit ws ->
       let stored := Pipeline.weights (snd (Pipeline.update_weights ws self)) in
       List.length stored = 5%nat /\ Forall Spec.in_unit stored /\ sum stored == 1).
Proof.
  intro H.
  assert (Hzeros : Forall Spec.in_unit [0; 0; 0; 0; 0])
    by (repeat constructor; lra).
  destruct (H (Demo.make (Some [1; 1; 1; 1; 1])) [0; 0; 0; 0; 0] eq_refl Hzeros)
    as (_ & _ & Hsum).
  vm_compute in Hsum. discriminate.
Qed.

(** C2, amended.  For every weight vector of length 5 with each entry in
    [[0,1]] and a non-zero sum, [update_weights] returns and stores each
    weight divided by the sum: the stored vector has length 5, all entries in
    [[0,1]], and sums to 1.  In particular [[0.7, 0.6, 0.3, 0.2, 0.2]] is
    stored as [[0.35, 0.30, 0.15, 0.10, 0.10]]. *)
Theorem update_weights_stores_normalized_vector (self : Pipeline.THIPipeline)
  (ws : list Q) :
  List.length ws = 5%nat -> Forall Spec.in_unit ws -> ~ sum ws == 0 ->
  let after := Pipeline.update_weights ws self in
  let stored := Pipeline.weights (snd after) in
  fst after = ret tt /\
  stored = map (fun w => w / sum ws) ws /\
  List.length stored = 5%nat /\
  Forall Spec.in_unit stored /\
  sum stored == 1 /\
  (Forall2 Qeq ws [7 # 10; 6 # 10; 3 # 10; 2 # 10; 2 # 10] ->
   Forall2 Qeq stored [35 # 100; 30 # 100; 15 # 100; 10 # 100; 10 # 100]).
Proof.
  intros Hlen Hall Hsum. cbv zeta.
  assert (Hall' : Pipeline.all_in_unit ws = true) by now apply all_in_unit_Forall.
  assert (Hsum' : Qeq_bool (sum ws) 0 = false).
  { apply not_true_is_false. intro E. apply Qeq_bool_iff in E. contradiction. }
  rewrite (update_weights_normalizes ws self Hlen Hall' Hsum'). simpl.
  destruct (normalized_unit_sum ws Hall (nonzero_sum_positive ws Hall' Hsum'))
    as (H1 & H2 & H3).
  unfold Spec.normalized in *.
  split; [reflexivity |]. split; [reflexivity |].
  split; [now rewrite H1 |]. split; [exact H2 |]. split; [exact H3 |].
  intro Heq.
  destruct (five_weights ws Hlen) as (w0 & w1 & w2 & w3 & w4 & ->).
  repeat match goal with
         | H : Forall2 _ (_ :: _) _ |- _ => inversion H; clear H; subst
         end.
  assert (Htotal : sum [w0; w1; w2; w3; w4] == 2) by (rewrite sum_five; lra).
  simpl.
  repeat (apply Forall2_cons;
          [ rewrite Htotal;
            match goal with
            | H : ?w == _ |- ?w / _ == _ => rewrite H; reflexivity
            end
          | ]).
  apply Forall2_nil.
Qed.

(** C2, amended, at the spec's scenario on the demo pipeline. *)
Lemma update_weights_stores_normalized_vector_witness :
  let after :=
    Pipeline.update_weights [7 # 10; 6 # 10; 3 # 10; 2 # 10; 2 # 10] Demo.pipeline in
  fst after = ret tt /\
  Forall2 Qeq (Pipeline.weights (snd after))
    [35 # 100; 30 # 100; 15 # 100; 10 # 100; 10 # 100] /\
  sum (Pipeline.weights (snd after)) == 1.
Proof.
  cbv zeta.
  assert (Hunit : Forall Spec.in_unit [7 # 10; 6 # 10; 3 # 10; 2 # 10; 2 # 10])
    by (repeat constructor; lra).
  assert (Hsum : ~ sum [7 # 10; 6 # 10; 3 # 10; 2 # 10; 2 # 10] == 0)
    by (intro E; vm_compute in E; discriminate).
  destruct (update_weights_stores_normalized_vector Demo.pipeline
              [7 # 10; 6 # 10; 3 # 10; 2 # 10; 2 # 10] eq_refl Hunit Hsum)
    as (Hret & _ & _ & _ & Hone & Hscenario).
  split; [exact Hret |]. split; [| exact Hone].
  apply Hscenario. repeat constructor; reflexivity.
Defined.

(** C3 as stated fails: a pipeline constructed with [weights=[1, 1, 1, 1, 1]]
    over a classifier whose probabilities lie in [[0,1]] and a rule file with
    non-negative lexicon weights returns THI 1.5 for "Revenue grew.". *)
Lemma scores_in_unit_counterexample :
  ~ (forall (self : Pipeline.THIPipeline) (claim evidence : string)
            (r : Pipeline.ClaimResult),
       Spec.probabilities self -> Spec.lexicon_weights_nonneg self ->
       Pipeline.compute_thi_for_claim self claim evidence = inr r ->
       Spec.in_unit (Pipeline.thi_score r) /\
       Spec.components_in_unit (Pipeline.components r)).
Proof.
  intro H.
  destruct (Pipeline.compute_thi_for_claim (Demo.make (Some [1; 1; 1; 1; 1]))
              "Revenue grew." Demo.evidence) as [e | r] eqn:E.
  - vm_compute in E. discriminate.
  - destruct (H _ _ _ r (demo_probabilities _) (demo_lexicon_weights_nonneg _) E)
      as [[_ Hle] _].
    vm_compute in E. injection E as <-. simpl in Hle. lra.
Qed.

(** C3, amended.  When the classifier's label probabilities lie in [[0,1]],
    the rule file's lexicon weights are non-negative and the pipeline's
    weight vector has five non-negative entries that sum to at most 1, the
    per-claim scoring returns, and the THI score and the five component
    scores it returns (and the unrounded component scores) lie in [[0,1]]. *)
Theorem scores_in_unit (self : Pipeline.THIPipeline) (claim evidence : string) :
  Spec.probabilities self ->
  Spec.lexicon_weights_nonneg self ->
  Spec.weights_within_unit (Pipeline.weights self) ->
  exists r,
    Pipeline.compute_thi_for_claim self claim evidence = inr r /\
    Spec.in_unit (Pipeline.thi_score r) /\
    Spec.components_in_unit (Pipeline.components r) /\
    Spec.components_in_unit (Pipeline.component_scores self claim evidence).
Proof.
  intros Hp Hl Hw.
  pose proof (component_scores_unit self Hp Hl claim evidence) as Hc.
  destruct (thi_formula_unit _ _ Hw Hc) as (thi & Hthi & Hunit).
  unfold Pipeline.compute_thi_for_claim. rewrite Hthi. simpl.
  eexists. split; [reflexivity |]. simpl.
  split; [now apply round_unit |].
  split; [now apply rounded_unit | exact Hc].
Qed.

(** C3, amended, on the demo pipeline with its default weights. *)
Lemma scores_in_unit_witness :
  exists r,
    Pipeline.compute_thi_for_claim Demo.pipeline Demo.claim Demo.evidence = inr r /\
    Spec.in_unit (Pipeline.thi_score r) /\
    Spec.components_in_unit (Pipeline.components r) /\
    Spec.components_in_unit (Pipeline.component_scores Demo.pipeline Demo.claim Demo.evidence).
Proof.
  apply (scores_in_unit Demo.pipeline Demo.claim Demo.evidence
           (demo_probabilities None) (demo_lexicon_weights_nonneg None)
           default_weights_within_unit).
Defined.


(** C5 as stated fails: a generator whose rule file lists no hedge words
    leaves the sentence unchanged, although the sentence has a main verb that
    occurs only at its own offset and does not contain "possibly". *)
Lemma hedge_insertion_counterexample :
  ~ (forall (self : Paraphrase.ParaphraseGenerator) (text : string) (verb : Spacy.Token),
       Paraphrase.main_verb_of (Paraphrase.nlp self text) = Some verb ->
       find (Spacy.text verb) text = Some (Spacy.idx verb) ->
       contains "possibly" (lower text) = false ->
       Paraphrase._insert_hedge_paraphrase self text =
       (take (Spacy.idx verb) text ++ "possibly " ++ drop (Spacy.idx verb) text)%string).
Proof.
  intro H.
  specialize (H Demo.paraphraser_no_hedges "Apple reported earnings."
                (Demo.token_of ("reported", 6%nat))
                eq_refl eq_refl eq_refl).
  vm_compute in H. discriminate.
Qed.

(** C5, amended.  With no hedge words configured the sentence is returned
    unchanged.  Otherwise: when the first verb token that is not an
    auxiliary has its text first occurring at the token's own offset and the
    lower-cased sentence does not contain "possibly", the result is the
    sentence with "possibly " inserted at that offset; when there is no such
    token, or the lower-cased sentence already contains "possibly", the
    result is "Possibly " followed by the sentence. *)
Theorem hedge_insertion (self : Paraphrase.ParaphraseGenerator) (text : string) :
  (Paraphrase.hedges self = [] ->
   Paraphrase._insert_hedge_paraphrase self text = text) /\
  (Paraphrase.hedges self <> [] ->
   (forall verb,
      Paraphrase.main_verb_of (Paraphrase.nlp self text) = Some verb ->
      Spacy.text verb <> "" ->
      find (Spacy.text verb) text = Some (Spacy.idx verb) ->
      contains "possibly" (lower text) = false ->
      Paraphrase._insert_hedge_paraphrase self text =
      (take (Spacy.idx verb) text ++ "possibly " ++ drop (Spacy.idx verb) text)%string) /\
   (Paraphrase.main_verb_of (Paraphrase.nlp self text) = None ->
    Paraphrase._insert_hedge_paraphrase self text = ("Possibly " ++ text)%string) /\
   (contains "possibly" (lower text) = true ->
    Paraphrase._insert_hedge_paraphrase self text = ("Possibly " ++ text)%string)).
Proof.
  unfold Paraphrase._insert_hedge_paraphrase.
  split.
  - intros ->. reflexivity.
  - intro Hne. destruct (Paraphrase.hedges self) as [| h hs]; [contradiction |].
    split; [| split].
    + intros verb Hverb Htext Hfind Hposs.
      assert (Ht : Paraphrase.truthy (Some verb) = Some verb).
      { unfold Paraphrase.truthy.
        destruct (Spacy.text verb); [contradiction | reflexivity]. }
      rewrite Hverb, Ht, Hposs.
      exact (@replace_first_inserts (Spacy.text verb) "possibly " text
               (Spacy.idx verb) Hfind).
    + intros ->. reflexivity.
    + intros ->. simpl.
      destruct (Paraphrase.truthy _); reflexivity.
Qed.

(** C5, amended, on the demo generator: an insertion before the verb, a
    sentence without a verb, a sentence that already contains the word, and
    the generator without hedge words. *)
Lemma hedge_insertion_witness :
  Paraphrase._insert_hedge_paraphrase Demo.paraphraser "Apple reported earnings." =
    "Apple possibly reported earnings." /\
  Paraphrase._insert_hedge_paraphrase Demo.paraphraser "Great news for Apple." =
    "Possibly Great news for Apple." /\
  Paraphrase._insert_hedge_paraphrase Demo.paraphraser "Apple possibly reported earnings." =
    "Possibly Apple possibly reported earnings." /\
  Paraphrase._insert_hedge_paraphrase Demo.paraphraser_no_hedges "Apple reported earnings." =
    "Apple reported earnings.".
Proof.
  assert (Hne : Paraphrase.hedges Demo.paraphraser <> []) by discriminate.
  split; [| split; [| split]].
  - apply (proj1 (proj2 (hedge_insertion Demo.paraphraser "Apple reported earnings.") Hne)
             (Demo.token_of ("reported", 6%nat)));
      [reflexivity | discriminate | reflexivity | reflexivity].
  - apply (proj1 (proj2 (proj2 (hedge_insertion Demo.paraphraser "Great news for Apple.") Hne))).
    reflexivity.
  - apply (proj2 (proj2 (proj2 (hedge_insertion Demo.paraphraser
                                  "Apple possibly reported earnings.") Hne))).
    reflexivity.
  - apply (proj1 (hedge_insertion Demo.paraphraser_no_hedges "Apple reported earnings.")).
    reflexivity.
Defined.

(** C6.  With [tokens] the lemmas of the tokens that are neither punctuation
    nor white space: on a non-empty [tokens] the score is
    [min((hedgeCount * weights.hedge + absoluteCount * weights.absolute) /
    (0.02 * tokenCount), 1.0)], the counts being the numbers of lemmas found
    in each lexicon; on an empty [tokens], in particular whenever every token
    is punctuation or white space (or there is none, as for the empty
    string), the result is score 0 with all three counts 0. *)
Theorem speculative_score_formula (self : Speculative.SpeculativeScorer) (text : string) :
  let tokens := Speculative.lemmas self text in
  let hedge_count := Spec.occurrences (Speculative.hedges self) tokens in
  let absolute_count := Spec.occurrences (Speculative.absolutes self) tokens in
  let zero :=
    (0, {| Speculative.count_hedges := 0;
           Speculative.count_absolutes := 0;
           Speculative.count_tokens := 0 |}) in
  (tokens <> [] ->
   Speculative.score_sentence self text =
   (min ((inject_Z (Z.of_nat hedge_count) * Speculative.hedge (Speculative.weights self) +
          inject_Z (Z.of_nat absolute_count) * Speculative.absolute (Speculative.weights self)) /
         ((2 # 100) * inject_Z (Z.of_nat (List.length tokens)))) 1,
    {| Speculative.count_hedges := hedge_count;
       Speculative.count_absolutes := absolute_count;
       Speculative.count_tokens := List.length tokens |})) /\
  (tokens = [] -> Speculative.score_sentence self text = zero) /\
  (Forall (fun t => Spacy.is_punct t = true \/ Spacy.is_space t = true)
     (Spacy.tokens (Speculative.nlp self (lower text))) ->
   Speculative.score_sentence self text = zero).
Proof.
  cbv zeta. unfold Speculative.score_sentence.
  split; [| split].
  - intro Hne.
    destruct (Speculative.lemmas self text) as [| t tokens] eqn:E; [contradiction |].
    rewrite !count_in_occurrences. reflexivity.
  - intros ->. reflexivity.
  - intro Hall.
    assert (E : Speculative.lemmas self text = []).
    { unfold Speculative.lemmas. rewrite filter_none; [reflexivity |].
      eapply Forall_impl; [| exact Hall].
      intros t [-> | ->]; simpl; [reflexivity | apply andb_false_r]. }
    rewrite E. reflexivity.
Qed.

(** C6 on the demo scorer: a sentence with two absolutes among six tokens
    scores [min(2 / 0.12, 1) = 1]; the empty string and a punctuation-only
    sentence give score 0 with all counts 0. *)
Lemma speculative_score_formula_witness :
  Speculative.score_sentence Demo.spec_scorer "This is definitely true without doubt." =
    (1, {| Speculative.count_hedges := 0;
           Speculative.count_absolutes := 2;
           Speculative.count_tokens := 6 |}) /\
  Speculative.score_sentence Demo.spec_scorer "" =
    (0, {| Speculative.count_hedges := 0;
           Speculative.count_absolutes := 0;
           Speculative.count_tokens := 0 |}) /\
  Speculative.score_sentence Demo.spec_scorer "?!" =
    (0, {| Speculative.count_hedges := 0;
           Speculative.count_absolutes := 0;
           Speculative.count_tokens := 0 |}).
Proof.
  split; [| split].
  - rewrite (proj1 (speculative_score_formula Demo.spec_scorer
                      "This is definitely true without doubt."))
      by (vm_compute; discriminate).
    vm_compute. reflexivity.
  - apply (proj1 (proj2 (speculative_score_formula Demo.spec_scorer ""))).
    reflexivity.
  - apply (proj2 (proj2 (speculative_score_formula Demo.spec_scorer "?!"))).
    repeat constructor.
Defined.

(** C7.  In the result of [process_text] the three bucket counts (high:
    [thi > 0.7], medium: [0.4 <= thi <= 0.7], low: [thi < 0.4]) add up to
    [total_claims], which is the number of claims, and every claim falls in
    exactly one bucket. *)
Theorem summary_buckets_partition_claims (self : Pipeline.THIPipeline)
  (text : string) (evidence : option string) (r : Pipeline.DocumentResult) :
  Pipeline.process_text self text evidence = inr r ->
  (Pipeline.high_risk_claims (Pipeline.summary r) +
   Pipeline.medium_risk_claims (Pipeline.summary r) +
   Pipeline.low_risk_claims (Pipeline.summary r) = Pipeline.total_claims r)%nat /\
  Pipeline.total_claims r = List.length (Pipeline.claims r) /\
  Pipeline.high_risk_claims (Pipeline.summary r) =
    List.length (filter (fun c => Qltb (7 # 10) (Pipeline.thi_score c)) (Pipeline.claims r)) /\
  Pipeline.medium_risk_claims (Pipeline.summary r) =
    List.length (filter (fun c => Qle_bool (4 # 10) (Pipeline.thi_score c) &&
                                  Qle_bool (Pipeline.thi_score c) (7 # 10))
                   (Pipeline.claims r)) /\
  Pipeline.low_risk_claims (Pipeline.summary r) =
    List.length (filter (fun c => Qltb (Pipeline.thi_score c) (4 # 10)) (Pipeline.claims r)) /\
  Forall (fun c => Spec.exactly_one (Pipeline.is_high c) (Pipeline.is_medium c)
                     (Pipeline.is_low c))
    (Pipeline.claims r).
Proof.
  unfold Pipeline.process_text.
  destruct (mapM _ _) as [e | claim_results]; simpl; [discriminate |].
  intro H. injection H as <-. simpl.
  split; [apply buckets_count |].
  repeat split; try reflexivity.
  apply Forall_forall. intros c _. apply buckets_exactly_one.
Qed.

(** C7 at a three-sentence text run through the demo pipeline. *)
Lemma summary_buckets_partition_claims_witness :
  exists r,
    Pipeline.process_text Demo.pipeline
      "Revenue grew. It might possibly rise! The company reported earnings yesterday."
      None = inr r /\
    Pipeline.total_claims r = 3%nat /\
    (Pipeline.high_risk_claims (Pipeline.summary r) +
     Pipeline.medium_risk_claims (Pipeline.summary r) +
     Pipeline.low_risk_claims (Pipeline.summary r) = Pipeline.total_claims r)%nat.
Proof.
  destruct (Pipeline.process_text Demo.pipeline
              "Revenue grew. It might possibly rise! The company reported earnings yesterday."
              None) as [e | r] eqn:E.
  - vm_compute in E. discriminate.
  - exists r. split; [reflexivity |].
    split.
    + vm_compute in E. injection E as <-. reflexivity.
    + apply (summary_buckets_partition_claims Demo.pipeline _ None r E).
Defined.

(** C8.  The all-zero vector has length 5 and every entry in [[0,1]], so both
    validation checks pass; the normalization then divides by the sum 0 and
    the call raises [ZeroDivisionError] (not the [ValueError] of a validation
    check), leaving the pipeline, and so its stored weights, as they were. *)
Theorem update_weights_all_zero_raises_zero_division (self : Pipeline.THIPipeline) :
  let zeros := [0; 0; 0; 0; 0] in
  (List.length zeros =? 5)%nat = true /\
  Pipeline.all_in_unit zeros = true /\
  sum zeros == 0 /\
  Pipeline.update_weights zeros self = (inl ZeroDivisionError, self) /\
  Pipeline.weights (snd (Pipeline.update_weights zeros self)) = Pipeline.weights self.
Proof.
  cbv zeta. repeat split; reflexivity.
Qed.



(** C10.  The constructor stores a non-empty [weights] argument as it is:
    no check of length, range or sum, no normalization ([None] and the empty
    list give the default vector).  With fewer than five stored weights the
    per-claim scoring raises [IndexError]; with five it fuses the component
    scores with the stored values as they are.  The weighted sum stays in [[0,1]] for all component scores in
    [[0,1]] exactly when the five weights are non-negative and sum to at most
    1; under that precondition the returned THI lies in [[0,1]], and a
    pipeline constructed with [[1, 1, 1, 1, 1]] returns THI 1.5. *)
Theorem constructor_weights_unvalidated :
  (forall nli similarity extractor spec_scorer sanity_checker paraphraser nlp w ws,
     Pipeline.weights
       (Pipeline.__init__ nli similarity extractor spec_scorer sanity_checker
          paraphraser nlp (Some (w :: ws))) = w :: ws) /\
  (forall nli similarity extractor spec_scorer sanity_checker paraphraser nlp,
     Pipeline.weights
       (Pipeline.__init__ nli similarity extractor spec_scorer sanity_checker
          paraphraser nlp None) = Pipeline.default_weights /\
     Pipeline.weights
       (Pipeline.__init__ nli similarity extractor spec_scorer sanity_checker
          paraphraser nlp (Some [])) = Pipeline.default_weights) /\
  (forall (self : Pipeline.THIPipeline) (claim evidence : string),
     (List.length (Pipeline.weights self) < 5)%nat ->
     Pipeline.compute_thi_for_claim self claim evidence = inl IndexError) /\
  (forall (self : Pipeline.THIPipeline) (claim evidence : string) w0 w1 w2 w3 w4,
     Pipeline.weights self = [w0; w1; w2; w3; w4] ->
     exists r,
       Pipeline.compute_thi_for_claim self claim evidence = inr r /\
       Pipeline.cr_weights r = [w0; w1; w2; w3; w4] /\
       Pipeline.thi_score r =
       round (w0 * Pipeline.compute_contradiction_score self claim evidence +
              w1 * (1 - Pipeline.compute_support_score self claim evidence) +
              w2 * Pipeline.compute_instability_score self claim evidence +
              w3 * Pipeline.compute_speculative_score self claim +
              w4 * Pipeline.compute_numeric_sanity_score self claim) 4) /\
  (forall w0 w1 w2 w3 w4,
     (forall c, Spec.components_in_unit c ->
                exists thi,
                  Pipeline.thi_formula [w0; w1; w2; w3; w4] c = inr thi /\
                  Spec.in_unit thi) <->
     Spec.weights_within_unit [w0; w1; w2; w3; w4]) /\
  (forall (self : Pipeline.THIPipeline) (claim evidence : string),
     Spec.probabilities self -> Spec.lexicon_weights_nonneg self ->
     Spec.weights_within_unit (Pipeline.weights self) ->
     exists r,
       Pipeline.compute_thi_for_claim self claim evidence = inr r /\
       Spec.in_unit (Pipeline.thi_score r)) /\
  (exists r,
     Pipeline.compute_thi_for_claim (Demo.make (Some [1; 1; 1; 1; 1]))
       "Revenue grew." Demo.evidence = inr r /\
     Pipeline.cr_weights r = [1; 1; 1; 1; 1] /\
     Pipeline.thi_score r == 3 # 2).
Proof.
  split; [reflexivity |].
  split; [intros; split; reflexivity |].
  split.
  { intros self claim evidence Hlen. unfold Pipeline.compute_thi_for_claim.
    destruct (Pipeline.weights self) as [| w0 [| w1 [| w2 [| w3 [| w4 ws]]]]];
      try reflexivity.
    simpl in Hlen. lia. }
  split.
  { intros self claim evidence w0 w1 w2 w3 w4 Hw.
    unfold Pipeline.compute_thi_for_claim. rewrite Hw. simpl.
    eexists. repeat split. }
  split.
  { intros w0 w1 w2 w3 w4. split.
    - apply thi_formula_unit_only.
    - intros Hw c Hc. now apply thi_formula_unit. }
  split.
  { intros self claim evidence Hp Hl Hw.
    pose proof (component_scores_unit self Hp Hl claim evidence) as Hc.
    destruct (thi_formula_unit _ _ Hw Hc) as (thi & Hthi & Hunit).
    unfold Pipeline.compute_thi_for_claim. rewrite Hthi. simpl.
    eexists. split; [reflexivity |]. simpl. now apply round_unit. }
  eexists. split; [vm_compute; reflexivity |].
  split; reflexivity.
Qed.

(* ===================================================================== *)
(** * Further properties: weight updates *)
(* ===================================================================== *)

Section UpdateFacts.

Import Pipeline.

Lemma all_in_unit_false (ws : list Q) :
  ~ Forall Spec.in_unit ws -> all_in_unit ws = false.
Proof.
  intro H. apply not_true_is_false. intro E. apply H. now apply all_in_unit_Forall.
Qed.

Lemma mapM_div_zero (total w : Q) (ws : list Q) :
  Qeq_bool total 0 = true ->
  mapM (fun x => div x total) (w :: ws) = inl ZeroDivisionError.
Proof.
  intro Ht. simpl. unfold div at 1. rewrite Ht. reflexivity.
Qed.

Lemma Qeq_bool_false (a b : Q) : ~ a == b -> Qeq_bool a b = false.
Proof.
  intro H. apply not_true_is_false. intro E. apply Qeq_bool_iff in E. contradiction.
Qed.

(** Dividing each entry by a sum equal to 1 changes no entry. *)
Lemma normalized_of_unit_sum (ws : list Q) :
  sum ws == 1 -> Forall2 Qeq (Spec.normalized ws) ws.
Proof.
  intro Hsum. unfold Spec.normalized.
  generalize (sum ws) Hsum. intros total Htotal. clear Hsum.
  induction ws as [| w ws IH]; simpl; [constructor |].
  constructor; [| exact IH].
  rewrite Htotal. field.
Qed.

Lemma sum_map_mult (k : Q) (ws : list Q) :
  sum (map (Qmult k) ws) == k * sum ws.
Proof.
  induction ws as [| w ws IH]; simpl.
  - rewrite sum_nil. lra.
  - rewrite !sum_cons, IH. lra.
Qed.

End UpdateFacts.

(** X1.  The three ways [update_weights] ends, in the order the code checks
    them: a vector whose length is not 5 is rejected with "Must provide
    exactly 5 weights" (whatever its entries); a vector of length 5 with an
    entry outside [[0,1]] with "Weights must be between 0 and 1"; a vector
    that passes both checks raises [ZeroDivisionError] when its sum is 0 and
    is stored normalized otherwise.  Whenever the call raises, the pipeline
    is left exactly as it was; when it returns, only the weights differ. *)
Theorem update_weights_outcomes (ws : list Q) (self : Pipeline.THIPipeline) :
  let outcome := fst (Pipeline.update_weights ws self) in
  let after := snd (Pipeline.update_weights ws self) in
  (List.length ws <> 5%nat ->
   outcome = raise (ValueError "Must provide exactly 5 weights")) /\
  (List.length ws = 5%nat -> ~ Forall Spec.in_unit ws ->
   outcome = raise (ValueError "Weights must be between 0 and 1")) /\
  (List.length ws = 5%nat -> Forall Spec.in_unit ws -> sum ws == 0 ->
   outcome = raise ZeroDivisionError) /\
  (List.length ws = 5%nat -> Forall Spec.in_unit ws -> ~ sum ws == 0 ->
   outcome = ret tt /\ Pipeline.weights after = Spec.normalized ws) /\
  (outcome <> ret tt -> after = self) /\
  after = Pipeline.set_weights (Pipeline.weights after) self.
Proof.
  cbv zeta. unfold Pipeline.update_weights.
  destruct (List.length ws =? 5)%nat eqn:Hlen; simpl.
  - apply Nat.eqb_eq in Hlen.
    destruct (Pipeline.all_in_unit ws) eqn:Hall; simpl.
    + pose proof (proj1 (all_in_unit_Forall ws) Hall) as Hunit.
      destruct (Qeq_bool (sum ws) 0) eqn:Hsum.
      * destruct ws as [| w ws]; [discriminate |].
        rewrite (mapM_div_zero _ w ws Hsum). simpl.
        apply Qeq_bool_iff in Hsum.
        repeat split; intros;
          first [contradiction | reflexivity | destruct self; reflexivity].
      * rewrite (mapM_div _ ws Hsum). simpl.
        assert (Hne : ~ sum ws == 0).
        { intro E. apply Qeq_bool_iff in E. congruence. }
        repeat split; intros; first [contradiction | reflexivity | congruence].
    + assert (Hnot : ~ Forall Spec.in_unit ws).
      { intro H. apply all_in_unit_Forall in H. congruence. }
      repeat split; intros;
        first [contradiction | reflexivity | destruct self; reflexivity].
  - apply Nat.eqb_neq in Hlen.
    repeat split; intros;
      first [contradiction | reflexivity | destruct self; reflexivity].
Qed.

(** X2.  Normalizing is idempotent: after a call that returned, passing the
    stored vector to [update_weights] again returns and stores the same
    weights (equal as fractions). *)
Theorem update_weights_idempotent (ws : list Q) (self self' : Pipeline.THIPipeline) :
  Pipeline.update_weights ws self = (ret tt, self') ->
  fst (Pipeline.update_weights (Pipeline.weights self') self') = ret tt /\
  Forall2 Qeq
    (Pipeline.weights (snd (Pipeline.update_weights (Pipeline.weights self') self')))
    (Pipeline.weights self').
Proof.
  intro H.
  destruct (update_weights_stores_normalized ws self self' H) as (Hlen & Hunit & Hsum).
  assert (Hall : Pipeline.all_in_unit (Pipeline.weights self') = true)
    by now apply all_in_unit_Forall.
  assert (Hne : Qeq_bool (sum (Pipeline.weights self')) 0 = false).
  { apply Qeq_bool_false. rewrite Hsum. lra. }
  rewrite (update_weights_normalizes _ self' Hlen Hall Hne). simpl.
  split; [reflexivity |]. now apply normalized_of_unit_sum.
Qed.

(** X2 on the demo pipeline, after the update [[1, 1, 1, 1, 1]]. *)
Lemma update_weights_idempotent_witness :
  let once := snd (Pipeline.update_weights [1; 1; 1; 1; 1] Demo.pipeline) in
  let twice := snd (Pipeline.update_weights (Pipeline.weights once) once) in
  Forall2 Qeq (Pipeline.weights twice) (Pipeline.weights once) /\
  Forall2 Qeq (Pipeline.weights once) [1 # 5; 1 # 5; 1 # 5; 1 # 5; 1 # 5].
Proof.
  cbv zeta. split.
  - apply (update_weights_idempotent [1; 1; 1; 1; 1] Demo.pipeline). reflexivity.
  - repeat constructor; reflexivity.
Defined.

(** X3.  Only the ratios of the weights matter: a vector and a non-zero
    multiple of it, both of length 5 with entries in [[0,1]] and a non-zero
    sum, are stored as the same weights (equal as fractions). *)
Theorem update_weights_scale_invariant (k : Q) (ws : list Q)
  (self : Pipeline.THIPipeline) :
  List.length ws = 5%nat -> Forall Spec.in_unit ws ->
  Forall Spec.in_unit (map (Qmult k) ws) -> ~ sum ws == 0 -> ~ k == 0 ->
  fst (Pipeline.update_weights (map (Qmult k) ws) self) = ret tt /\
  fst (Pipeline.update_weights ws self) = ret tt /\
  Forall2 Qeq
    (Pipeline.weights (snd (Pipeline.update_weights (map (Qmult k) ws) self)))
    (Pipeline.weights (snd (Pipeline.update_weights ws self))).
Proof.
  intros Hlen Hunit Hunitk Hsum Hk.
  assert (Hsumk : ~ sum (map (Qmult k) ws) == 0).
  { rewrite sum_map_mult. intro E.
    apply Qmult_integral in E. tauto. }
  rewrite (update_weights_normalizes ws self Hlen
             (proj2 (all_in_unit_Forall ws) Hunit) (Qeq_bool_false _ _ Hsum)).
  rewrite (update_weights_normalizes (map (Qmult k) ws) self
             (eq_trans (length_map _ _) Hlen)
             (proj2 (all_in_unit_Forall _) Hunitk) (Qeq_bool_false _ _ Hsumk)).
  simpl. split; [reflexivity |]. split; [reflexivity |].
  unfold Spec.normalized.
  generalize (sum_map_mult k ws). generalize (sum (map (Qmult k) ws)).
  generalize Hsum. generalize (sum ws). intros total Htotal totalk Htotalk.
  clear Hlen Hunit Hunitk Hsum Hsumk.
  induction ws as [| w ws IH]; simpl; [constructor |].
  constructor; [| exact IH].
  rewrite Htotalk. field. split; assumption.
Qed.

(** X3 at [[0.2, 0.2, 0.2, 0.2, 0.2]] and five times it. *)
Lemma update_weights_scale_invariant_witness :
  let fifths := [1 # 5; 1 # 5; 1 # 5; 1 # 5; 1 # 5] in
  Forall2 Qeq
    (Pipeline.weights (snd (Pipeline.update_weights (map (Qmult 5) fifths) Demo.pipeline)))
    (Pipeline.weights (snd (Pipeline.update_weights fifths Demo.pipeline))).
Proof.
  cbv zeta.
  assert (Hunit : Forall Spec.in_unit [1 # 5; 1 # 5; 1 # 5; 1 # 5; 1 # 5])
    by (repeat constructor; lra).
  assert (Hunitk : Forall Spec.in_unit (map (Qmult 5) [1 # 5; 1 # 5; 1 # 5; 1 # 5; 1 # 5]))
    by (repeat constructor; simpl; lra).
  assert (Hsum : ~ sum [1 # 5; 1 # 5; 1 # 5; 1 # 5; 1 # 5] == 0)
    by (intro E; vm_compute in E; discriminate).
  assert (Hk : ~ 5 == 0) by (intro E; discriminate).
  exact (proj2 (proj2 (update_weights_scale_invariant 5
                         [1 # 5; 1 # 5; 1 # 5; 1 # 5; 1 # 5]
                         Demo.pipeline eq_refl Hunit Hunitk Hsum Hk))).
Defined.

(* ===================================================================== *)
(** * Further properties: the classifier-based scores *)
(* ===================================================================== *)

Section ClassifierFacts.

Import Pipeline.

Lemma find_first (A : Type) (f : A -> bool) (pre post : list A) (a : A) :
  Forall (fun x => f x = false) pre -> f a = true ->
  List.find f (pre ++ a :: post) = Some a.
Proof.
  induction 1 as [| x pre Hx _ IH]; intro Ha; simpl.
  - now rewrite Ha.
  - rewrite Hx. now apply IH.
Qed.

Lemma find_none (A : Type) (f : A -> bool) (l : list A) :
  Forall (fun x => f x = false) l -> List.find f l = None.
Proof.
  induction 1 as [| x l Hx _ IH]; simpl; [reflexivity |].
  now rewrite Hx.
Qed.

Lemma max_ge_r (a b : Q) : b <= max a b.
Proof.
  unfold max. destruct (Qltb a b) eqn:E.
  - apply Qle_refl.
  - now apply Qltb_ge in E.
Qed.

(** The running maximum is at least its start and every score seen, and it
    is the start or one of the scores. *)
Lemma fold_max_spec (rest : list LabelScore) (m : Q) :
  let r := fold_left (fun m x => max m (score x)) rest m in
  m <= r /\ (forall x, In x rest -> score x <= r) /\
  (r = m \/ exists x, In x rest /\ r = score x).
Proof.
  cbv zeta. revert m. induction rest as [| s rest IH]; intro m; simpl.
  - split; [apply Qle_refl |]. split; [intros x [] | now left].
  - destruct (IH (max m (score s))) as (Hge & Hall & Hin).
    pose proof (max_ge_l m (score s)) as Hl.
    pose proof (max_ge_r m (score s)) as Hr.
    split; [eapply Qle_trans; eassumption |]. split.
    + intros x [<- | Hx]; [eapply Qle_trans; eassumption | now apply Hall].
    + destruct Hin as [-> | (x & Hx & ->)].
      * destruct (max_cases m (score s)) as [-> | ->]; [now left |].
        right. exists s. split; [now left | reflexivity].
      * right. exists x. split; [now right | reflexivity].
Qed.

Lemma max_score_spec (s : LabelScore) (rest : list LabelScore) :
  exists r,
    max_score (s :: rest) = inr r /\
    (forall x, In x (s :: rest) -> score x <= r) /\
    (exists x, In x (s :: rest) /\ r = score x).
Proof.
  simpl. eexists. split; [reflexivity |].
  destruct (fold_max_spec rest (score s)) as (Hge & Hall & Hin).
  split.
  - intros x [<- | Hx]; [exact Hge | now apply Hall].
  - destruct Hin as [-> | (x & Hx & ->)].
    + exists s. split; [now left | reflexivity].
    + exists x. split; [now right | reflexivity].
Qed.

(** Without a "contradict" label the score is the largest of the first list. *)
Lemma contradiction_unlabelled_max (self : THIPipeline) (claim evidence : string)
  (s : LabelScore) (scores : list LabelScore) (others : list (list LabelScore)) :
  nli_pipeline self evidence claim = inr ((s :: scores) :: others) ->
  Forall (fun x => contains "contradict" (lower (label x)) = false) (s :: scores) ->
  (forall x, In x (s :: scores) ->
             score x <= compute_contradiction_score self claim evidence) /\
  (exists x, In x (s :: scores) /\
             compute_contradiction_score self claim evidence = score x).
Proof.
  intros Hnli Hnone. unfold compute_contradiction_score.
  rewrite Hnli. cbn [bind getitem nth_error ret].
  unfold first_labelled. rewrite (find_none _ _ _ Hnone).
  cbn [option_map].
  destruct (max_score_spec s scores) as (r & -> & Hall & Hin).
  exact (conj Hall Hin).
Qed.

End ClassifierFacts.

(** X4.  How the contradiction score is read off the classifier's answer.
    It is 0.5 when the call raises, when the answer holds no list, and when
    its first list is empty.  Otherwise it is the score of the first entry
    of the first list whose lower-cased label contains "contradict"; when no
    label does, it is the largest score of that list. *)
Theorem contradiction_score_cases (self : Pipeline.THIPipeline)
  (claim evidence : string) :
  let labelled (s : Pipeline.LabelScore) :=
    contains "contradict" (lower (Pipeline.label s)) in
  let result := Pipeline.compute_contradiction_score self claim evidence in
  (forall e, Pipeline.nli_pipeline self evidence claim = inl e -> result = 1 # 2) /\
  (Pipeline.nli_pipeline self evidence claim = inr [] -> result = 1 # 2) /\
  (forall others,
     Pipeline.nli_pipeline self evidence claim = inr ([] :: others) ->
     result = 1 # 2) /\
  (forall before s after others,
     Pipeline.nli_pipeline self evidence claim =
       inr ((before ++ s :: after)%list :: others) ->
     Forall (fun x => labelled x = false) before -> labelled s = true ->
     result = Pipeline.score s) /\
  (forall s scores others,
     Pipeline.nli_pipeline self evidence claim = inr ((s :: scores) :: others) ->
     Forall (fun x => labelled x = false) (s :: scores) ->
     (forall x, In x (s :: scores) -> Pipeline.score x <= result) /\
     (exists x, In x (s :: scores) /\ result = Pipeline.score x)).
Proof.
  cbv zeta. unfold Pipeline.compute_contradiction_score.
  split; [intros e ->; reflexivity |].
  split; [intros ->; reflexivity |].
  split; [intros others ->; reflexivity |].
  split.
  - intros before s after others -> Hbefore Hs. simpl.
    unfold Pipeline.first_labelled.
    rewrite (find_first _ _ before after s Hbefore Hs). reflexivity.
  - intros s scores others Hnli Hnone.
    fold (Pipeline.compute_contradiction_score self claim evidence).
    now apply (contradiction_unlabelled_max self claim evidence s scores others).
Qed.



(* ===================================================================== *)
(** * Further properties: paraphrases and instability *)
(* ===================================================================== *)

Section InstabilityFacts.

Import Pipeline.

Lemma len_cons (A : Type) (a : A) (l : list A) : len (a :: l) == 1 + len l.
Proof.
  unfold len. cbn [List.length]. rewrite Nat2Z.inj_succ.
  unfold Z.succ. rewrite inject_Z_plus.
  generalize (inject_Z (Z.of_nat (List.length l))). intro q.
  change (inject_Z 1) with 1. lra.
Qed.

Lemma sum_all_equal (r : Q) (l : list Q) :
  Forall (fun x => x == r) l -> sum l == len l * r.
Proof.
  induction 1 as [| x l Hx _ IH].
  - rewrite sum_nil. change (len (@nil Q)) with 0. lra.
  - rewrite sum_cons, len_cons, IH, Hx. lra.
Qed.

Lemma sum_squares_zero (m : Q) (l : list Q) :
  Forall (fun x => x == m) l ->
  sum (map (fun x => (x - m) * (x - m)) l) == 0.
Proof.
  induction 1 as [| x l Hx _ IH]; simpl.
  - apply sum_nil.
  - rewrite sum_cons, IH, Hx. lra.
Qed.

(** The variance of equal values is 0. *)
Lemma var_all_equal (r : Q) (l : list Q) :
  Forall (fun x => x == r) l -> var l == 0.
Proof.
  intro H. unfold var.
  destruct l as [| x l]; [reflexivity |].
  assert (Hlen : 0 < len (x :: l)).
  { rewrite len_cons. pose proof (len_nonneg _ l). lra. }
  assert (Hmean : mean (x :: l) == r).
  { unfold mean. rewrite (sum_all_equal r _ H). field. lra. }
  rewrite sum_squares_zero.
  - unfold Qdiv. lra.
  - eapply Forall_impl; [| exact H]. intros y Hy. simpl in Hy. now rewrite Hy, Hmean.
Qed.

Lemma min_zero (x : Q) : x == 0 -> min x 1 == 0.
Proof.
  intro H. unfold min. destruct (Qltb 1 x) eqn:E; [| exact H].
  apply Qltb_lt in E. lra.
Qed.

(** Without a classifier answer both scores take the neutral value. *)
Lemma scores_when_classifier_raises (self : THIPipeline) (text evidence : string) (e : exn) :
  nli_pipeline self evidence text = inl e ->
  compute_contradiction_score self text evidence = 1 # 2 /\
  compute_support_score self text evidence = 1 # 2.
Proof.
  intro H. unfold compute_contradiction_score, compute_support_score.
  rewrite H. split; reflexivity.
Qed.



End InstabilityFacts.

(** X6.  When the three paraphrases get the same risk score, the instability
    is 0, whatever the scores of the original sentence are. *)
Theorem instability_zero_on_equal_risks (self : Pipeline.THIPipeline)
  (claim evidence : string) (paraphrases : list string) (r : Q) :
  Paraphrase.generate_paraphrases (Pipeline.paraphraser self) claim = inr paraphrases ->
  Forall (fun para => Pipeline.risk_score self para evidence == r) paraphrases ->
  Pipeline.compute_instability_score self claim evidence == 0.
Proof.
  intros Hgen Hall.
  rewrite (compute_instability_score_over_paraphrases self claim evidence _ Hgen).
  apply min_zero. rewrite (var_all_equal r).
  - lra.
  - apply Forall_forall. intros x Hx. apply in_map_iff in Hx.
    destruct Hx as [para [<- Hpara]].
    rewrite Forall_forall in Hall. now apply Hall.
Qed.

(** X6 on the demo pipeline: the three paraphrases of the demo claim all
    have risk 3/2. *)
Lemma instability_zero_on_equal_risks_witness :
  Pipeline.compute_instability_score Demo.pipeline Demo.claim Demo.evidence == 0.
Proof.
  apply (instability_zero_on_equal_risks Demo.pipeline Demo.claim Demo.evidence
           ["The company announced earnings yesterday.";
            "The company possibly reported earnings yesterday.";
            "yesterday The company reported earnings ."] (3 # 2)).
  - vm_compute. reflexivity.
  - repeat constructor; vm_compute; reflexivity.
Defined.

(** X7.  When the classifier raises on every input, every claim gets the
    neutral contradiction score 0.5, support 0.5 and instability 0, so its
    unrounded THI is [w0/2 + w1/2 + w3*speculative + w4*numeric]. *)
Theorem scores_when_classifier_unavailable (self : Pipeline.THIPipeline)
  (claim evidence : string) :
  (forall premise hypothesis, exists e,
     Pipeline.nli_pipeline self premise hypothesis = inl e) ->
  Pipeline.compute_contradiction_score self claim evidence = 1 # 2 /\
  Pipeline.compute_support_score self claim evidence = 1 # 2 /\
  Pipeline.compute_instability_score self claim evidence == 0 /\
  (forall w0 w1 w2 w3 w4,
     Pipeline.weights self = [w0; w1; w2; w3; w4] ->
     exists thi,
       Pipeline.thi_formula (Pipeline.weights self)
         (Pipeline.component_scores self claim evidence) = inr thi /\
       thi == w0 / 2 + w1 / 2 +
              w3 * Pipeline.compute_speculative_score self claim +
              w4 * Pipeline.compute_numeric_sanity_score self claim).
Proof.
  intro Hdown.
  assert (Hneutral : forall text,
             Pipeline.compute_contradiction_score self text evidence = 1 # 2 /\
             Pipeline.compute_support_score self text evidence = 1 # 2).
  { intro text. destruct (Hdown evidence text) as [e He].
    now apply (scores_when_classifier_raises self text evidence e). }
  assert (Hinst : Pipeline.compute_instability_score self claim evidence == 0).
  { destruct (Paraphrase.generate_paraphrases (Pipeline.paraphraser self) claim)
      as [e | paraphrases] eqn:Hgen.
    - unfold Pipeline.compute_instability_score. rewrite Hgen. reflexivity.
    - apply (instability_zero_on_equal_risks self claim evidence paraphrases 1 Hgen).
      apply Forall_forall. intros para _. unfold Pipeline.risk_score.
      destruct (Hneutral para) as [-> ->]. reflexivity. }
  destruct (Hneutral claim) as [Hc Hs].
  split; [exact Hc |]. split; [exact Hs |]. split; [exact Hinst |].
  intros w0 w1 w2 w3 w4 Hw. rewrite Hw. eexists. split; [reflexivity |].
  cbn [Pipeline.component_scores Pipeline.contradiction_score Pipeline.support_score
       Pipeline.instability_score Pipeline.speculative_score Pipeline.numeric_score].
  rewrite Hc, Hs, Hinst. field.
Qed.

(** X7 on the demo objects with a classifier that always raises. *)
Lemma scores_when_classifier_unavailable_witness :
  let offline :=
    Pipeline.__init__ (fun _ _ => raise CapabilityError) Demo.similarity
      Demo.extractor Demo.spec_scorer Demo.sanity_checker Demo.paraphraser
      (Some Demo.nlp) None in
  Pipeline.compute_contradiction_score offline Demo.claim Demo.evidence = 1 # 2 /\
  Pipeline.compute_support_score offline Demo.claim Demo.evidence = 1 # 2 /\
  Pipeline.compute_instability_score offline Demo.claim Demo.evidence == 0.
Proof.
  cbv zeta.
  match goal with
  | |- Pipeline.compute_contradiction_score ?p _ _ = _ /\ _ =>
      destruct (scores_when_classifier_unavailable p Demo.claim Demo.evidence)
        as (Hc & Hs & Hi & _)
  end.
  - intros premise hypothesis. now exists CapabilityError.
  - exact (conj Hc (conj Hs Hi)).
Defined.



(* ===================================================================== *)
(** * Further properties: documents *)
(* ===================================================================== *)

Section DocumentFacts.

Import Pipeline.

Lemma mapM_Forall2 (A B : Type) (f : A -> py B) (l : list A) (bs : list B) :
  mapM f l = inr bs -> Forall2 (fun a b => f a = inr b) l bs.
Proof.
  revert bs. induction l as [| a l IH]; simpl; intros bs H.
  - injection H as <-. constructor.
  - destruct (f a) as [e | b] eqn:Ea; simpl in H; [discriminate |].
    destruct (mapM f l) as [e | bs'] eqn:El; simpl in H; [discriminate |].
    injection H as <-. constructor; [exact Ea | now apply IH].
Qed.

Lemma compute_thi_for_claim_fields (self : THIPipeline) (claim_ evidence_ : string)
  (r : ClaimResult) :
  compute_thi_for_claim self claim_ evidence_ = inr r ->
  claim r = claim_ /\ evidence r = evidence_.
Proof.
  unfold compute_thi_for_claim.
  destruct (thi_formula _ _) as [e | thi]; simpl; [discriminate |].
  intro H. injection H as <-. split; reflexivity.
Qed.

(** The mean of scores in [[0,1]] lies in [[0,1]]. *)
Lemma sum_unit_bound (l : list Q) :
  Forall Spec.in_unit l -> 0 <= sum l /\ sum l <= len l.
Proof.
  induction 1 as [| x l [Hx0 Hx1] _ [IH0 IH1]].
  - rewrite sum_nil. change (len (@nil Q)) with 0. lra.
  - rewrite sum_cons, len_cons. lra.
Qed.

Lemma mean_unit (x : Q) (l : list Q) :
  Forall Spec.in_unit (x :: l) -> Spec.in_unit (sum (x :: l) / len (x :: l)).
Proof.
  intro H. destruct (sum_unit_bound _ H) as [H0 H1].
  assert (Hlen : 0 < len (x :: l)).
  { rewrite len_cons. pose proof (len_nonneg _ l). lra. }
  split.
  - apply div_nonneg; lra.
  - apply Qle_shift_div_r; lra.
Qed.

(** Rounding does not cross a multiple of the rounding step. *)
Lemma round_grid (x : Q) (ndigits : nat) (k : Z) :
  let step := inject_Z k / inject_Z (10 ^ Z.of_nat ndigits) in
  (step <= x -> step <= round x ndigits) /\
  (x <= step -> round x ndigits <= step).
Proof.
  cbv zeta. unfold round.
  set (S := (10 ^ Z.of_nat ndigits)%Z).
  assert (HS : (0 < S)%Z) by (apply Z.pow_pos_nonneg; lia).
  assert (HSq : 0 < inject_Z S)
    by (change 0 with (inject_Z 0); rewrite <- Zlt_Qlt; exact HS).
  set (y := x * inject_Z S).
  set (f := Qfloor y).
  assert (Hfy : inject_Z f <= y) by apply Qfloor_le.
  assert (Hyf : y < inject_Z (f + 1)) by apply Qlt_floor.
  rewrite inject_Z_plus in Hyf. change (inject_Z 1) with 1 in Hyf.
  assert (Hdiv : forall a b : Z,
             (a <= b)%Z -> inject_Z a / inject_Z S <= inject_Z b / inject_Z S).
  { intros a b Hab. apply Qmult_le_compat_r.
    - rewrite <- Zle_Qle. exact Hab.
    - apply Qinv_le_0_compat. lra. }
  assert (Hky : inject_Z k / inject_Z S <= x -> inject_Z k <= y).
  { intro H. unfold y.
    apply (Qmult_le_compat_r _ _ (inject_Z S)) in H; [| lra].
    assert (E : inject_Z k / inject_Z S * inject_Z S == inject_Z k) by (field; lra).
    rewrite E in H. exact H. }
  assert (Hyk : x <= inject_Z k / inject_Z S -> y <= inject_Z k).
  { intro H. unfold y.
    apply (Qmult_le_compat_r _ _ (inject_Z S)) in H; [| lra].
    assert (E : inject_Z k / inject_Z S * inject_Z S == inject_Z k) by (field; lra).
    rewrite E in H. exact H. }
  split.
  - intro H. apply Hky in H.
    assert (Hkf : (k <= f)%Z).
    { apply Z.lt_succ_r. rewrite Zlt_Qlt. unfold Z.succ.
      rewrite inject_Z_plus. change (inject_Z 1) with 1. lra. }
    destruct (Qltb (y - inject_Z f) (1 # 2)); [apply Hdiv; lia |].
    destruct (Qltb (1 # 2) (y - inject_Z f)); [apply Hdiv; lia |].
    destruct (Z.even f); apply Hdiv; lia.
  - intro H. apply Hyk in H.
    assert (Hfk : (f <= k)%Z) by (rewrite Zle_Qle; lra).
    destruct (Z.eq_dec f k) as [-> | Hne].
    + assert (Hr : y - inject_Z k <= 0) by lra.
      destruct (Qltb (y - inject_Z k) (1 # 2)) eqn:E1; [apply Hdiv; lia |].
      apply Qltb_ge in E1. lra.
    + destruct (Qltb (y - inject_Z f) (1 # 2)); [apply Hdiv; lia |].
      destruct (Qltb (1 # 2) (y - inject_Z f)); [apply Hdiv; lia |].
      destruct (Z.even f); apply Hdiv; lia.
Qed.

(** 0.5 is a multiple of the step of four-digit rounding. *)
Lemma round_half (x : Q) :
  (1 # 2 < x -> 1 # 2 <= round x 4) /\ (x <= 1 # 2 -> round x 4 <= 1 # 2).
Proof.
  destruct (round_grid x 4 5000) as [Hge Hle].
  assert (E : inject_Z 5000 / inject_Z (10 ^ Z.of_nat 4) == 1 # 2) by reflexivity.
  split; intro H.
  - rewrite <- E. apply Hge. rewrite E. lra.
  - rewrite <- E. apply Hle. rewrite E. exact H.
Qed.

End DocumentFacts.

(** X9.  The claims of a document are its non-blank sentences, in their
    order: the result holds one claim result per non-blank sentence that
    [split_sentences] returns, in the same order and carrying that sentence;
    every one was scored against the evidence, which is the text itself when
    no evidence is given; [total_claims] is their number. *)
Theorem process_text_claims_follow_sentences (self : Pipeline.THIPipeline)
  (text : string) (evidence : option string) (r : Pipeline.DocumentResult) :
  Pipeline.process_text self text evidence = inr r ->
  let used := match evidence with None => text | Some e => e end in
  map Pipeline.claim (Pipeline.claims r) =
    filter (fun sentence => nonempty (strip sentence)) (Pipeline.split_sentences self text) /\
  Forall (fun c => Pipeline.evidence c = used) (Pipeline.claims r) /\
  Pipeline.dr_evidence r = used /\
  Pipeline.input_text r = text /\
  Pipeline.total_claims r =
    List.length (filter (fun sentence => nonempty (strip sentence))
                   (Pipeline.split_sentences self text)).
Proof.
  unfold Pipeline.process_text.
  destruct (mapM _ _) as [e | claim_results] eqn:E; simpl; [discriminate |].
  intro H. injection H as <-. cbv zeta. simpl.
  apply mapM_Forall2 in E.
  assert (Hclaims : map Pipeline.claim claim_results =
                    filter (fun sentence => nonempty (strip sentence))
                      (Pipeline.split_sentences self text) /\
                    Forall (fun c => Pipeline.evidence c =
                                     match evidence with None => text | Some e => e end)
                      claim_results).
  { induction E as [| sentence c sentences cs Hc _ [IH1 IH2]]; simpl.
    - split; [reflexivity | constructor].
    - destruct (compute_thi_for_claim_fields _ _ _ _ Hc) as [H1 H2].
      split; [now rewrite H1, IH1 | constructor; assumption]. }
  destruct Hclaims as [H1 H2].
  repeat split; try assumption.
  now rewrite <- H1, length_map.
Qed.

(** X9 on the demo pipeline and a text of three sentences. *)
Lemma process_text_claims_follow_sentences_witness :
  exists r,
    Pipeline.process_text Demo.pipeline
      "Revenue grew. It might possibly rise! The company reported earnings yesterday."
      None = inr r /\
    map Pipeline.claim (Pipeline.claims r) =
      ["Revenue grew"; "It might possibly rise"; "The company reported earnings yesterday"].
Proof.
  destruct (Pipeline.process_text Demo.pipeline
              "Revenue grew. It might possibly rise! The company reported earnings yesterday."
              None) as [e | r] eqn:E.
  - vm_compute in E. discriminate.
  - exists r. split; [reflexivity |].
    rewrite (proj1 (process_text_claims_follow_sentences Demo.pipeline _ None r E)).
    vm_compute. reflexivity.
Defined.

(** X10.  Under the preconditions of the per-claim bound (classifier
    probabilities in [[0,1]], non-negative lexicon weights, five non-negative
    weights that sum to at most 1), [process_text] returns for every text,
    and the document's [overall_thi], like the THI of each of its claims,
    lies in [[0,1]]. *)
Theorem process_text_scores_in_unit (self : Pipeline.THIPipeline) (text : string)
  (evidence : option string) :
  Spec.probabilities self ->
  Spec.lexicon_weights_nonneg self ->
  Spec.weights_within_unit (Pipeline.weights self) ->
  exists r,
    Pipeline.process_text self text evidence = inr r /\
    Spec.in_unit (Pipeline.overall_thi r) /\
    Forall (fun c => Spec.in_unit (Pipeline.thi_score c)) (Pipeline.claims r).
Proof.
  intros Hp Hl Hw.
  destruct (process_text_with_five_weights self text evidence (proj1 Hw))
    as (r & Hr & _ & _).
  exists r. split; [exact Hr |].
  unfold Pipeline.process_text in Hr.
  destruct (mapM _ _) as [e | claim_results] eqn:E; simpl in Hr; [discriminate |].
  injection Hr as <-. simpl.
  assert (Hall : Forall (fun c => Spec.in_unit (Pipeline.thi_score c)) claim_results).
  { refine (mapM_Forall _ _ _ (fun c => Spec.in_unit (Pipeline.thi_score c)) _ _
              (fun sentence c => _) E).
    cbv beta. unfold Pipeline.compute_thi_for_claim.
    destruct (thi_formula_unit _ _ Hw
                (component_scores_unit self Hp Hl sentence
                   match evidence with None => text | Some e => e end))
      as (thi & -> & Hunit).
    simpl. intro H. injection H as <-. simpl. now apply round_unit. }
  split; [| exact Hall].
  apply round_unit.
  destruct claim_results as [| c cs]; [apply zero_unit |].
  replace (len (c :: cs)) with (len (map Pipeline.thi_score (c :: cs)))
    by (unfold len; now rewrite length_map).
  apply (mean_unit (Pipeline.thi_score c) (map Pipeline.thi_score cs)).
  apply Forall_forall. intros q Hq.
  change (Pipeline.thi_score c :: map Pipeline.thi_score cs)
    with (map Pipeline.thi_score (c :: cs)) in Hq.
  apply in_map_iff in Hq. destruct Hq as [c' [<- Hc']].
  rewrite Forall_forall in Hall. now apply Hall.
Qed.

(** X10 on the demo pipeline. *)
Lemma process_text_scores_in_unit_witness :
  exists r,
    Pipeline.process_text Demo.pipeline "Revenue grew. It might possibly rise!" None = inr r /\
    Spec.in_unit (Pipeline.overall_thi r).
Proof.
  destruct (process_text_scores_in_unit Demo.pipeline
              "Revenue grew. It might possibly rise!" None
              (demo_probabilities None) (demo_lexicon_weights_nonneg None)
              default_weights_within_unit) as (r & Hr & Hunit & _).
  exists r. split; assumption.
Defined.

(** X11.  The document's label is decided on the unrounded mean, the
    reported [overall_thi] is that mean rounded to four digits; the two
    agree up to the rounding: a document labelled as hallucination reports
    [overall_thi >= 0.5], one not so labelled reports [overall_thi <= 0.5].
    A text without a non-blank sentence gives no claims, [overall_thi] 0, the
    label [False] and three empty buckets. *)
Theorem process_text_label_and_overall (self : Pipeline.THIPipeline) (text : string)
  (evidence : option string) (r : Pipeline.DocumentResult) :
  Pipeline.process_text self text evidence = inr r ->
  (Pipeline.binary_label r = true -> 1 # 2 <= Pipeline.overall_thi r) /\
  (Pipeline.binary_label r = false -> Pipeline.overall_thi r <= 1 # 2) /\
  Pipeline.threshold_used r = 1 # 2 /\
  (filter (fun sentence => nonempty (strip sentence))
     (Pipeline.split_sentences self text) = [] ->
   Pipeline.claims r = [] /\ Pipeline.total_claims r = 0%nat /\
   Pipeline.overall_thi r == 0 /\ Pipeline.binary_label r = false /\
   Pipeline.summary r =
     {| Pipeline.high_risk_claims := 0;
        Pipeline.medium_risk_claims := 0;
        Pipeline.low_risk_claims := 0 |}).
Proof.
  unfold Pipeline.process_text.
  destruct (mapM _ _) as [e | claim_results] eqn:E; simpl; [discriminate |].
  intro H. injection H as <-. simpl.
  split; [| split; [| split; [reflexivity |]]].
  - intro Hlabel. apply Qltb_lt in Hlabel. now apply round_half.
  - intro Hlabel. apply Qltb_ge in Hlabel. now apply round_half.
  - intro Hnone. rewrite Hnone in E. simpl in E. injection E as <-.
    repeat split; reflexivity.
Qed.

(** X11 on the demo pipeline: a labelled document and an empty one. *)
Lemma process_text_label_and_overall_witness :
  (exists r,
     Pipeline.process_text Demo.pipeline "It might possibly rise!" None = inr r /\
     Pipeline.binary_label r = true /\ 1 # 2 <= Pipeline.overall_thi r) /\
  (exists r,
     Pipeline.process_text Demo.pipeline "" None = inr r /\
     Pipeline.claims r = [] /\ Pipeline.binary_label r = false).
Proof.
  split.
  - destruct (Pipeline.process_text Demo.pipeline "It might possibly rise!" None)
      as [e | r] eqn:E.
    + vm_compute in E. discriminate.
    + exists r. split; [reflexivity |].
      assert (Hlabel : Pipeline.binary_label r = true)
        by (vm_compute in E; injection E as <-; reflexivity).
      split; [exact Hlabel |].
      now apply (proj1 (process_text_label_and_overall Demo.pipeline _ None r E)).
  - destruct (Pipeline.process_text Demo.pipeline "" None) as [e | r] eqn:E.
    + vm_compute in E. discriminate.
    + exists r. split; [reflexivity |].
      destruct (process_text_label_and_overall Demo.pipeline _ None r E)
        as (_ & _ & _ & Hempty).
      destruct (Hempty eq_refl) as (H1 & _ & _ & H2 & _).
      now split.
Defined.

(* ===================================================================== *)
(** * Further properties: the sanity rules *)
(* ===================================================================== *)

Section SanityFacts.

Import Sanity.

Lemma flat_map_length_le (A B : Type) (f : A -> list B) (n : nat) (l : list A) :
  (forall a, (List.length (f a) <= n)%nat) ->
  (List.length (flat_map f l) <= n * List.length l)%nat.
Proof.
  intro H. induction l as [| a l IH]; simpl; [lia |].
  rewrite length_app. specialize (H a). lia.
Qed.

Lemma money_flag_cases (inr_context usd_context : bool) (money : Parser.Mention) :
  money_flag inr_context usd_context money =
  if contains "$" (Parser.text money) && inr_context
  then [currency_mismatch_usd_inr_context]
  else if contains "₹" (Parser.text money) && usd_context
       then [currency_mismatch_inr_usd_context]
       else [].
Proof. reflexivity. Qed.

Lemma money_flag_length (inr_context usd_context : bool) (money : Parser.Mention) :
  (List.length (money_flag inr_context usd_context money) <= 1)%nat.
Proof.
  rewrite money_flag_cases.
  destruct (contains "$" (Parser.text money) && inr_context);
    [| destruct (contains "₹" (Parser.text money) && usd_context)]; simpl; lia.
Qed.

Lemma money_flag_usd (inr_context usd_context : bool) (money : Parser.Mention) :
  In currency_mismatch_usd_inr_context (money_flag inr_context usd_context money) <->
  contains "$" (Parser.text money) = true /\ inr_context = true.
Proof.
  rewrite money_flag_cases, <- andb_true_iff.
  destruct (contains "$" (Parser.text money) && inr_context);
    [| destruct (contains "₹" (Parser.text money) && usd_context)]; simpl;
    intuition congruence.
Qed.

Lemma money_flag_inr (inr_context usd_context : bool) (money : Parser.Mention) :
  In currency_mismatch_inr_usd_context (money_flag inr_context usd_context money) <->
  contains "₹" (Parser.text money) = true /\ usd_context = true /\
  (contains "$" (Parser.text money) = false \/ inr_context = false).
Proof.
  rewrite money_flag_cases.
  destruct (contains "$" (Parser.text money)); destruct inr_context;
    destruct (contains "₹" (Parser.text money)); destruct usd_context; simpl;
    intuition congruence.
Qed.

Lemma money_flag_kinds (inr_context usd_context : bool) (money : Parser.Mention)
  (flag : Flag) :
  In flag (money_flag inr_context usd_context money) ->
  flag = currency_mismatch_usd_inr_context \/ flag = currency_mismatch_inr_usd_context.
Proof.
  rewrite money_flag_cases.
  destruct (contains "$" (Parser.text money) && inr_context);
    [| destruct (contains "₹" (Parser.text money) && usd_context)]; simpl;
    intuition congruence.
Qed.

Lemma currency_flags_length (self : SanityChecker) (money_claims : list Parser.Mention)
  (text : string) :
  (List.length (_check_currency_mismatch self money_claims text)
   <= List.length money_claims)%nat.
Proof.
  unfold _check_currency_mismatch.
  destruct (negb (enabled (currency_mismatch (rules self)))); [simpl; lia |].
  rewrite <- (Nat.mul_1_l (List.length money_claims)).
  apply flat_map_length_le. apply money_flag_length.
Qed.

Lemma unit_flags_length (exceeds : Q -> bool) (flag : Q -> Flag)
  (numbers : list Parser.Mention) :
  (List.length (unit_flags exceeds flag numbers) <= List.length numbers)%nat.
Proof.
  unfold unit_flags.
  rewrite <- (Nat.mul_1_l (List.length numbers)).
  apply flat_map_length_le. intro num.
  destruct (float (Parser.text num)) as [value |]; [destruct (exceeds value) |];
    simpl; lia.
Qed.

Lemma gated_unit_flags_length (gate : bool) (exceeds : Q -> bool) (flag : Q -> Flag)
  (numbers : list Parser.Mention) :
  (List.length (if gate then unit_flags exceeds flag numbers else [])
   <= List.length numbers)%nat.
Proof.
  destruct gate; [apply unit_flags_length | simpl; lia].
Qed.

Lemma unit_flags_In (exceeds : Q -> bool) (flag : Q -> Flag)
  (numbers : list Parser.Mention) (f : Flag) :
  In f (unit_flags exceeds flag numbers) <->
  exists num value,
    In num numbers /\ float (Parser.text num) = Some value /\
    exceeds value = true /\ f = flag value.
Proof.
  unfold unit_flags. rewrite in_flat_map. split.
  - intros (num & Hnum & Hf).
    destruct (float (Parser.text num)) as [value |] eqn:Ev; [| destruct Hf].
    destruct (exceeds value) eqn:Ee; [| destruct Hf].
    destruct Hf as [<- | []]. now exists num, value.
  - intros (num & value & Hnum & Hv & He & ->).
    exists num. split; [exact Hnum |]. rewrite Hv, He. now left.
Qed.

Lemma unit_absurdity_length (self : SanityChecker) (numbers : list Parser.Mention)
  (text : string) :
  (List.length (_check_unit_absurdity self numbers text) <= 3 * List.length numbers)%nat.
Proof.
  unfold _check_unit_absurdity.
  destruct (negb (enabled (unit_absurdity (rules self)))); [simpl; lia |].
  rewrite !length_app.
  match goal with
  | |- (List.length (if ?g1 then unit_flags ?e1 ?f1 _ else []) +
        (List.length (if ?g2 then unit_flags ?e2 ?f2 _ else []) +
         List.length (if ?g3 then unit_flags ?e3 ?f3 _ else [])) <= _)%nat =>
      pose proof (gated_unit_flags_length g1 e1 f1 numbers);
      pose proof (gated_unit_flags_length g2 e2 f2 numbers);
      pose proof (gated_unit_flags_length g3 e3 f3 numbers)
  end.
  lia.
Qed.

(** The flags of one date mention. *)
Lemma date_flags_cases (self : SanityChecker) (date : Parser.Mention) (flag : Flag) :
  In flag
    match dateparser_parse self (Parser.text date) with
    | inr (Some year) =>
        if (current_year self <? year)%Z then [future_date_past_context_ year] else []
    | _ => []
    end <->
  exists year,
    dateparser_parse self (Parser.text date) = inr (Some year) /\
    (current_year self < year)%Z /\ flag = future_date_past_context_ year.
Proof.
  destruct (dateparser_parse self (Parser.text date)) as [e | [year |]].
  - split; [intros [] | intros (y & H & _); discriminate].
  - destruct (current_year self <? year)%Z eqn:Ey.
    + apply Z.ltb_lt in Ey. split.
      * intros [<- | []]. now exists year.
      * intros (y & H & _ & ->). injection H as <-. now left.
    + apply Z.ltb_ge in Ey. split; [intros [] |].
      intros (y & H & Hy & _). injection H as <-. lia.
  - split; [intros [] | intros (y & H & _); discriminate].
Qed.

Lemma temporal_length (self : SanityChecker) (dates : list Parser.Mention)
  (text : string) :
  (List.length (_check_temporal_conflicts self dates text) <= List.length dates)%nat.
Proof.
  unfold _check_temporal_conflicts.
  destruct (negb (enabled (future_past_conflict (rules self)))); [simpl; lia |].
  destruct (any_in _ (lower text)); [| simpl; lia].
  rewrite <- (Nat.mul_1_l (List.length dates)).
  apply flat_map_length_le. intro date.
  destruct (dateparser_parse self (Parser.text date)) as [e | [year |]];
    [| destruct (current_year self <? year)%Z |]; simpl; lia.
Qed.

Lemma percent_jumps_length (self : SanityChecker) (percents dates : list Parser.Mention)
  (text : string) :
  (List.length (_check_percent_jumps self percents dates text)
   <= List.length percents)%nat.
Proof.
  unfold _check_percent_jumps.
  destruct (negb _ || _); [simpl; lia |].
  destruct (is_daily_context _ _); [| simpl; lia].
  rewrite percent_flags_length. apply List.filter_length_le.
Qed.

End SanityFacts.

(** X12.  The currency rule raises at most one flag per money mention and
    only its two flags.  The USD-symbol flag is raised exactly when the rule
    is enabled, the lower-cased sentence contains "rupee", "inr" or "indian"
    and some money mention contains "$"; the INR-symbol flag exactly when
    the rule is enabled, the sentence contains "dollar", "usd" or "american"
    and some money mention contains the rupee sign without being flagged for
    its "$". *)
Theorem currency_mismatch_rule (self : Sanity.SanityChecker)
  (money_claims : list Parser.Mention) (text : string) :
  let flags := Sanity._check_currency_mismatch self money_claims text in
  let on := Sanity.enabled (Sanity.currency_mismatch (Sanity.rules self)) in
  let inr_context := Sanity.any_in ["rupee"; "inr"; "indian"] (lower text) in
  let usd_context := Sanity.any_in ["dollar"; "usd"; "american"] (lower text) in
  (List.length flags <= List.length money_claims)%nat /\
  (forall flag, In flag flags ->
     flag = Sanity.currency_mismatch_usd_inr_context \/
     flag = Sanity.currency_mismatch_inr_usd_context) /\
  (In Sanity.currency_mismatch_usd_inr_context flags <->
   on = true /\ inr_context = true /\
   exists money, In money money_claims /\ contains "$" (Parser.text money) = true) /\
  (In Sanity.currency_mismatch_inr_usd_context flags <->
   on = true /\ usd_context = true /\
   exists money,
     In money money_claims /\ contains "₹" (Parser.text money) = true /\
     (contains "$" (Parser.text money) = false \/ inr_context = false)).
Proof.
  cbv zeta. split; [apply currency_flags_length |].
  unfold Sanity._check_currency_mismatch.
  destruct (Sanity.enabled (Sanity.currency_mismatch (Sanity.rules self)));
    cbn [negb].
  - split.
    { intros flag Hflag. apply in_flat_map in Hflag.
      destruct Hflag as (money & _ & Hflag). eapply money_flag_kinds. exact Hflag. }
    split; rewrite in_flat_map; split.
    + intros (money & Hin & Hflag). apply money_flag_usd in Hflag.
      destruct Hflag as [Hd Hi]. repeat split; [exact Hi |]. now exists money.
    + intros (_ & Hi & money & Hin & Hd). exists money. split; [exact Hin |].
      apply money_flag_usd. now split.
    + intros (money & Hin & Hflag). apply money_flag_inr in Hflag.
      destruct Hflag as (Hr & Hu & Hno). repeat split; [exact Hu |]. now exists money.
    + intros (_ & Hu & money & Hin & Hr & Hno). exists money. split; [exact Hin |].
      apply money_flag_inr. now repeat split.
  - split; [intros flag [] |].
    split; (split; [intros [] | intros (H & _); discriminate]).
Qed.

(** X13.  The unit rule raises at most three flags per number mention (one
    per unit family whose key word occurs in the sentence).  Every height or
    weight flag carries the parsed value of a number mention that exceeds the
    family's threshold, every temperature flag one whose absolute value
    does; when the rule is disabled, or no key word of any family occurs,
    there is no flag. *)
Theorem unit_absurdity_rule (self : Sanity.SanityChecker)
  (numbers : list Parser.Mention) (text : string) :
  let flags := Sanity._check_unit_absurdity self numbers text in
  let limits := Sanity.thresholds self in
  (List.length flags <= 3 * List.length numbers)%nat /\
  (forall flag, In flag flags ->
     exists num value,
       In num numbers /\ float (Parser.text num) = Some value /\
       ((flag = Sanity.absurd_height_cm value /\ Sanity.human_height_cm limits < value) \/
        (flag = Sanity.absurd_weight_kg value /\ Sanity.human_weight_kg limits < value) \/
        (flag = Sanity.absurd_temperature_c value /\
         Sanity.temperature_celsius limits < Qabs value))) /\
  (Sanity.enabled (Sanity.unit_absurdity (Sanity.rules self)) = false -> flags = []) /\
  (Sanity.any_in ["height"; "tall"; "cm"; "centimeter"] (lower text) = false ->
   Sanity.any_in ["weight"; "kg"; "kilogram"] (lower text) = false ->
   Sanity.any_in ["temperature"; "celsius"; "°c"] (lower text) = false ->
   flags = []).
Proof.
  cbv zeta. split; [apply unit_absurdity_length |].
  unfold Sanity._check_unit_absurdity.
  destruct (Sanity.enabled (Sanity.unit_absurdity (Sanity.rules self)));
    cbn [negb].
  - split.
    { intros flag Hflag.
      repeat (apply in_app_or in Hflag; destruct Hflag as [Hflag | Hflag]);
        match type of Hflag with
        | In _ (if ?b then _ else _) => destruct b; [| destruct Hflag]
        end;
        apply unit_flags_In in Hflag;
        destruct Hflag as (num & value & Hin & Hv & He & ->);
        apply Qltb_lt in He; exists num, value;
        (split; [exact Hin |]); (split; [exact Hv |]); tauto. }
    split; [discriminate |].
    intros -> -> ->. reflexivity.
  - split; [intros flag [] |]. split; reflexivity.
Qed.

(** X14.  The temporal rule raises flags only in a past context (the
    lower-cased sentence contains "yesterday", "last week", "last month",
    "last year", "previous" or "past") and at most one per date mention;
    every flag carries the year of a date mention that the date parser
    placed after the current year.  Mentions the parser rejects, by raising
    or by returning nothing, raise no flag. *)
Theorem temporal_conflict_rule (self : Sanity.SanityChecker)
  (dates : list Parser.Mention) (text : string) :
  let flags := Sanity._check_temporal_conflicts self dates text in
  let past :=
    Sanity.any_in
      ["yesterday"; "last week"; "last month"; "last year"; "previous"; "past"]
      (lower text) in
  (List.length flags <= List.length dates)%nat /\
  (forall flag,
     In flag flags <->
     Sanity.enabled (Sanity.future_past_conflict (Sanity.rules self)) = true /\
     past = true /\
     exists date year,
       In date dates /\
       Sanity.dateparser_parse self (Parser.text date) = inr (Some year) /\
       (Sanity.current_year self < year)%Z /\
       flag = Sanity.future_date_past_context_ year) /\
  ((forall date, In date dates ->
      Sanity.dateparser_parse self (Parser.text date) = inr None \/
      exists e, Sanity.dateparser_parse self (Parser.text date) = inl e) ->
   flags = []).
Proof.
  cbv zeta. split; [apply temporal_length |].
  unfold Sanity._check_temporal_conflicts.
  destruct (Sanity.enabled (Sanity.future_past_conflict (Sanity.rules self)));
    cbn [negb].
  - destruct (Sanity.any_in _ (lower text)).
    + split.
      { intro flag. rewrite in_flat_map. split.
        - intros (date & Hin & Hflag). apply date_flags_cases in Hflag.
          destruct Hflag as (year & Hp & Hy & ->).
          repeat split. now exists date, year.
        - intros (_ & _ & date & year & Hin & Hp & Hy & ->).
          exists date. split; [exact Hin |]. apply date_flags_cases. now exists year. }
      intro Hrejected. induction dates as [| date dates IH]; [reflexivity |].
      cbn [flat_map]. rewrite IH by (intros d Hd; apply Hrejected; now right).
      destruct (Hrejected date (or_introl eq_refl)) as [-> | [e ->]]; reflexivity.
    + split; [| reflexivity].
      intro flag. split; [intros [] | intros (_ & H & _); discriminate].
  - split; [| reflexivity].
    intro flag. split; [intros [] | intros (H & _); discriminate].
Qed.

(** X15.  The sanity score of a sentence.  Without any percent, money,
    number or date mention the result is score 0 and no flag, whatever the
    rules are.  Otherwise there are at most
    [percents + money + 3 * numbers + dates] flags; the score lies in
    [[0,1]], is 0 exactly when no flag was raised, and is 1 as soon as there
    are at least as many flags as mentions. *)
Theorem sanity_score_properties (self : Sanity.SanityChecker)
  (sentence_data : Parser.SentenceData) :
  let claims := Parser.claims sentence_data in
  let mentions :=
    (List.length (Parser.percents claims) + List.length (Parser.money claims) +
     List.length (Parser.numbers claims) + List.length (Parser.dates claims))%nat in
  let score := fst (Sanity.check_sentence_claims self sentence_data) in
  let flags := snd (Sanity.check_sentence_claims self sentence_data) in
  (mentions = 0%nat -> Sanity.check_sentence_claims self sentence_data = (0, [])) /\
  (List.length flags <=
   List.length (Parser.percents claims) + List.length (Parser.money claims) +
   3 * List.length (Parser.numbers claims) + List.length (Parser.dates claims))%nat /\
  0 <= score /\ score <= 1 /\
  (score == 0 <-> flags = []) /\
  ((mentions <= List.length flags)%nat -> (0 < mentions)%nat -> score == 1).
Proof.
  cbv zeta. unfold Sanity.check_sentence_claims.
  set (claims := Parser.claims sentence_data).
  set (text := Parser.sd_text sentence_data).
  set (n := (List.length (Parser.percents claims) + List.length (Parser.money claims) +
             List.length (Parser.numbers claims) + List.length (Parser.dates claims))%nat).
  destruct (n =? 0)%nat eqn:En.
  - apply Nat.eqb_eq in En. cbn [fst snd List.length].
    split; [reflexivity |]. split; [lia |]. split; [lra |]. split; [lra |].
    split; [split; reflexivity | lia].
  - apply Nat.eqb_neq in En. cbn [fst snd].
    pose proof (percent_jumps_length self (Parser.percents claims)
                  (Parser.dates claims) text) as H1.
    pose proof (currency_flags_length self (Parser.money claims) text) as H2.
    pose proof (unit_absurdity_length self (Parser.numbers claims) text) as H3.
    pose proof (temporal_length self (Parser.dates claims) text) as H4.
    set (flags := (Sanity._check_percent_jumps self (Parser.percents claims)
                     (Parser.dates claims) text ++
                   Sanity._check_currency_mismatch self (Parser.money claims) text ++
                   Sanity._check_unit_absurdity self (Parser.numbers claims) text ++
                   Sanity._check_temporal_conflicts self (Parser.dates claims) text)%list).
    assert (Hn : 0 < inject_Z (Z.of_nat (Nat.max 1 n))).
    { change 0 with (inject_Z 0). rewrite <- Zlt_Qlt. lia. }
    assert (Hratio : 0 <= len flags / inject_Z (Z.of_nat (Nat.max 1 n)))
      by (apply div_nonneg; [apply len_nonneg | lra]).
    split; [intro H; contradiction |].
    split; [unfold flags; rewrite !length_app; lia |].
    split; [apply min_glb; lra |].
    split; [apply min_le_r |].
    split.
    + split.
      * intro Hzero. destruct flags as [| f fs] eqn:Ef; [reflexivity | exfalso].
        assert (Hpos : 0 < len (f :: fs)).
        { rewrite len_cons. pose proof (len_nonneg _ fs). lra. }
        assert (Hq : 0 < len (f :: fs) / inject_Z (Z.of_nat (Nat.max 1 n))).
        { apply Qlt_shift_div_l; lra. }
        unfold min in Hzero.
        destruct (Qltb 1 (len (f :: fs) / inject_Z (Z.of_nat (Nat.max 1 n)))); lra.
      * intros ->. apply min_zero. unfold Qdiv.
        change (len (@nil Sanity.Flag)) with 0. lra.
    + intros Hmany Hsome.
      assert (Hone : 1 <= len flags / inject_Z (Z.of_nat (Nat.max 1 n))).
      { apply Qle_shift_div_l; [exact Hn |]. unfold len.
        rewrite Qmult_1_l, <- Zle_Qle. lia. }
      unfold min.
      destruct (Qltb 1 (len flags / inject_Z (Z.of_nat (Nat.max 1 n)))) eqn:E;
        [reflexivity |].
      apply Qltb_ge in E. lra.
Qed.

(* ===================================================================== *)
(** * Further properties: the server endpoints *)
(* ===================================================================== *)

Section EndpointFacts.

Import Pipeline Server.

(** The label and the reported score of a document agree up to rounding. *)
Lemma process_text_label_round (self : THIPipeline) (text_ : string)
  (evidence_ : option string) (r : DocumentResult) :
  process_text self text_ evidence_ = inr r ->
  (binary_label r = true -> 1 # 2 <= overall_thi r) /\
  (binary_label r = false -> overall_thi r <= 1 # 2).
Proof.
  unfold process_text.
  destruct (mapM _ _) as [e | claim_results]; simpl; [discriminate |].
  intro H. injection H as <-. simpl. split; intro Hlabel.
  - apply Qltb_lt in Hlabel. now apply round_half.
  - apply Qltb_ge in Hlabel. now apply round_half.
Qed.


(** An [analyze] request at threshold [t] against five stored weights. *)
Lemma analyze_text_at_threshold (text_ : string) (evidence_ : option string) (t : Q)
  (p : THIPipeline) :
  List.length (weights p) = 5%nat ->
  exists r results,
    analyze_text {| text := text_; Server.evidence := evidence_;
                    threshold := Some t; custom_weights := None |} (Some p)
    = (inr r, Some p) /\
    process_text p text_ evidence_ = inr results /\
    success r = true /\ error r = None /\
    r_overall_thi r = overall_thi results /\
    r_claims r = claims results /\
    r_total_claims r = total_claims results /\
    r_summary r = Some (summary results) /\
    r_weights_used r = weights p /\
    r_binary_label r =
      (if Qeq_bool t (1 # 2) then binary_label results
       else Qltb t (overall_thi results)) /\
    r_threshold_used r = Some (if Qeq_bool t (1 # 2) then threshold_used results else t).
Proof.
  intro Hlen.
  destruct (process_text_with_five_weights p text_ evidence_ Hlen)
    as (results & Hres & Hused & _).
  unfold analyze_text, apply_custom_weights, override_threshold.
  cbn [custom_weights text Server.evidence threshold bind ret].
  rewrite Hres. cbn [bind ret].
  destruct (Qeq_bool t (1 # 2)); cbn [negb bind ret];
    eexists; exists results; (split; [reflexivity |]); cbn;
    repeat split; try reflexivity; exact Hused.
Qed.

End EndpointFacts.

(** X16.  The answers of [POST /weights].  Without a loaded pipeline: status
    503.  A vector whose length is not 5, or with an entry outside [[0,1]],
    is answered with status 400 and the pipeline's message; the all-zero
    vector passes both checks and is answered with status 500 ("Failed to
    update weights"), not 400; in these three cases the shared pipeline is
    left as it was.  Any other vector is answered with its normalized form,
    which is also what [GET /weights] returns afterwards. *)
Theorem post_weights_status_codes (new_weights : list Q) (p : Pipeline.THIPipeline) :
  let answer := fst (Server.update_weights new_weights (Some p)) in
  let after := snd (Server.update_weights new_weights (Some p)) in
  Server.update_weights new_weights None =
    (inl (Server.HTTP 503 "THI pipeline not initialized"), None) /\
  (List.length new_weights <> 5%nat ->
   answer = inl (Server.HTTP 400 "Must provide exactly 5 weights") /\
   after = Some p) /\
  (List.length new_weights = 5%nat -> ~ Forall Spec.in_unit new_weights ->
   answer = inl (Server.HTTP 400 "Weights must be between 0 and 1") /\
   after = Some p) /\
  (List.length new_weights = 5%nat -> Forall Spec.in_unit new_weights ->
   sum new_weights == 0 ->
   answer = inl (Server.HTTP 500 "Failed to update weights") /\ after = Some p) /\
  (List.length new_weights = 5%nat -> Forall Spec.in_unit new_weights ->
   ~ sum new_weights == 0 ->
   answer = inr {| Server.w_success := true;
                   Server.message := "Weights updated successfully";
                   Server.current_weights := Spec.normalized new_weights |} /\
   Server.get_weights after = inr (Spec.normalized new_weights)).
Proof.
  cbv zeta. split; [reflexivity |].
  unfold Server.update_weights, Pipeline.update_weights.
  destruct (List.length new_weights =? 5)%nat eqn:Hlen; cbn [negb].
  - apply Nat.eqb_eq in Hlen.
    destruct (Pipeline.all_in_unit new_weights) eqn:Hall; cbn [negb].
    + pose proof (proj1 (all_in_unit_Forall new_weights) Hall) as Hunit.
      destruct (Qeq_bool (sum new_weights) 0) eqn:Hsum.
      * destruct new_weights as [| w ws]; [discriminate |].
        rewrite (mapM_div_zero _ w ws Hsum). cbn.
        apply Qeq_bool_iff in Hsum.
        repeat split; intros; first [contradiction | reflexivity].
      * rewrite (mapM_div _ new_weights Hsum). cbn.
        assert (Hne : ~ sum new_weights == 0).
        { intro E. apply Qeq_bool_iff in E. congruence. }
        repeat split; intros; first [contradiction | reflexivity].
    + assert (Hnot : ~ Forall Spec.in_unit new_weights).
      { intro H. apply all_in_unit_Forall in H. congruence. }
      cbn. repeat split; intros; first [contradiction | reflexivity].
  - apply Nat.eqb_neq in Hlen.
    cbn. repeat split; intros; first [contradiction | reflexivity].
Qed.



(** X18.  [POST /analyze/batch] against five stored weights: the answer has
    one entry per text, in order, and each entry reports what [POST
    /analyze] answers for that text with the same evidence, no custom
    weights and the default threshold 0.5 (score, label, number of claims,
    summary, no error), whatever threshold the batch request carries: the
    batch threshold is not used. *)
Theorem analyze_batch_agrees_with_analyze (request : Server.BatchRequest)
  (p : Pipeline.THIPipeline) :
  List.length (Pipeline.weights p) = 5%nat ->
  exists batch,
    Server.analyze_batch request (Some p) = inr batch /\
    Server.b_success batch = true /\
    Server.total_texts batch = List.length (Server.texts request) /\
    Forall2
      (fun text_ entry =>
         exists r,
           Server.analyze_text
             {| Server.text := text_;
                Server.evidence := Server.b_evidence request;
                Server.threshold := Some (1 # 2);
                Server.custom_weights := None |} (Some p)
           = (inr r, Some p) /\
           Server.success r = true /\
           Server.e_text entry = text_ /\
           Server.e_thi_score entry = Server.r_overall_thi r /\
           Server.e_binary_label entry = Server.r_binary_label r /\
           Server.e_total_claims entry = Server.r_total_claims r /\
           Server.e_summary entry = Server.r_summary r /\
           Server.e_error entry = None)
      (Server.texts request) (Server.results batch).
Proof.
  intro Hlen. unfold Server.analyze_batch.
  eexists. split; [reflexivity |]. cbn [Server.b_success Server.total_texts Server.results].
  split; [reflexivity |]. split; [reflexivity |].
  induction (Server.texts request) as [| text_ texts IH]; cbn [map];
    constructor; [| exact IH].
  destruct (analyze_text_at_threshold text_ (Server.b_evidence request) (1 # 2) p Hlen)
    as (r & results & Hr & Hres & Hs & _ & Ho & _ & Hn & Hsum & _ & Hl & _).
  exists r. split; [exact Hr |]. split; [exact Hs |].
  unfold Server.batch_entry. rewrite Hres. cbn.
  rewrite Ho, Hl, Hn, Hsum. repeat split; reflexivity.
Qed.

(** X18 on the demo pipeline and a batch of two texts sent with threshold
    0.3. *)
Lemma analyze_batch_agrees_with_analyze_witness :
  exists batch,
    Server.analyze_batch Demo.batch_request (Some Demo.pipeline) = inr batch /\
    Server.total_texts batch = 2%nat /\
    List.length (Server.results batch) = 2%nat.
Proof.
  destruct (analyze_batch_agrees_with_analyze Demo.batch_request Demo.pipeline eq_refl)
    as (batch & Hb & _ & Hn & Hall).
  exists batch. split; [exact Hb |]. split; [exact Hn |].
  apply Forall2_length in Hall. symmetry. exact Hall.
Defined.

(** X19.  The label of [POST /analyze] is monotone in the threshold: for the
    same text and evidence (no custom weights, five stored weights) and
    thresholds [t1 <= t2], both requests succeed and report the same score
    and claims, and a text labelled as hallucination at [t2] is so labelled
    at [t1].  At a threshold other than 0.5 the label is exactly "the
    reported (rounded) score exceeds the threshold". *)
Theorem analyze_text_label_monotone (text_ : string) (evidence_ : option string)
  (t1 t2 : Q) (p : Pipeline.THIPipeline) :
  List.length (Pipeline.weights p) = 5%nat -> t1 <= t2 ->
  exists r1 r2,
    Server.analyze_text
      {| Server.text := text_; Server.evidence := evidence_;
         Server.threshold := Some t1; Server.custom_weights := None |} (Some p)
    = (inr r1, Some p) /\
    Server.analyze_text
      {| Server.text := text_; Server.evidence := evidence_;
         Server.threshold := Some t2; Server.custom_weights := None |} (Some p)
    = (inr r2, Some p) /\
    Server.success r1 = true /\ Server.success r2 = true /\
    Server.r_overall_thi r1 = Server.r_overall_thi r2 /\
    Server.r_claims r1 = Server.r_claims r2 /\
    (Server.r_binary_label r2 = true -> Server.r_binary_label r1 = true) /\
    (~ t1 == 1 # 2 ->
     Server.r_threshold_used r1 = Some t1 /\
     (Server.r_binary_label r1 = true <-> t1 < Server.r_overall_thi r1)).
Proof.
  intros Hlen Ht.
  destruct (analyze_text_at_threshold text_ evidence_ t1 p Hlen)
    as (r1 & results & Hr1 & Hres & Hs1 & _ & Ho1 & Hc1 & _ & _ & _ & Hl1 & Hu1).
  destruct (analyze_text_at_threshold text_ evidence_ t2 p Hlen)
    as (r2 & results' & Hr2 & Hres' & Hs2 & _ & Ho2 & Hc2 & _ & _ & _ & Hl2 & _).
  rewrite Hres in Hres'. injection Hres' as <-.
  destruct (process_text_label_round p text_ evidence_ results Hres) as [Hup Hdown].
  exists r1, r2.
  split; [exact Hr1 |]. split; [exact Hr2 |].
  split; [exact Hs1 |]. split; [exact Hs2 |].
  split; [congruence |]. split; [congruence |].
  split.
  - rewrite Hl1, Hl2.
    destruct (Qeq_bool t1 (1 # 2)) eqn:E1; destruct (Qeq_bool t2 (1 # 2)) eqn:E2.
    + tauto.
    + apply Qeq_bool_iff in E1. intro H. apply Qltb_lt in H.
      destruct (Pipeline.binary_label results); [reflexivity |].
      specialize (Hdown eq_refl). lra.
    + apply Qeq_bool_iff in E2. intro H. specialize (Hup H). apply Qltb_lt.
      assert (Hne : ~ t1 == 1 # 2) by (intro E; apply Qeq_bool_iff in E; congruence).
      lra.
    + intro H. apply Qltb_lt in H. apply Qltb_lt. lra.
  - intro Hne. rewrite Hu1, Hl1, Ho1.
    rewrite (Qeq_bool_false _ _ Hne). split; [reflexivity | apply Qltb_lt].
Qed.

(** X19 on the demo pipeline at the thresholds 0.3 and 0.7. *)
Lemma analyze_text_label_monotone_witness :
  exists r1 r2,
    Server.analyze_text
      {| Server.text := "It might possibly rise!"; Server.evidence := None;
         Server.threshold := Some (3 # 10); Server.custom_weights := None |}
      (Some Demo.pipeline) = (inr r1, Some Demo.pipeline) /\
    Server.analyze_text
      {| Server.text := "It might possibly rise!"; Server.evidence := None;
         Server.threshold := Some (7 # 10); Server.custom_weights := None |}
      (Some Demo.pipeline) = (inr r2, Some Demo.pipeline) /\
    (Server.r_binary_label r2 = true -> Server.r_binary_label r1 = true).
Proof.
  assert (Ht : 3 # 10 <= 7 # 10) by (intro H; discriminate).
  destruct (analyze_text_label_monotone "It might possibly rise!" None (3 # 10) (7 # 10)
              Demo.pipeline eq_refl Ht)
    as (r1 & r2 & H1 & H2 & _ & _ & _ & _ & Hmono & _).
  exists r1, r2. split; [exact H1 |]. split; [exact H2 |]. exact Hmono.
Defined.

(* ===================================================================== *)
(** * Further properties: lexicon matches and the spread of scores *)
(* ===================================================================== *)

Section SpreadFacts.

Lemma min_pos (x : Q) : 0 < x -> 0 < min x 1.
Proof.
  intro H. unfold min. destruct (Qltb 1 x); lra.
Qed.

Lemma min_Qeq (a b : Q) : a == b -> min a 1 == min b 1.
Proof.
  intro H. unfold min.
  destruct (Qltb 1 a) eqn:Ea; destruct (Qltb 1 b) eqn:Eb; try reflexivity;
    try exact H.
  - apply Qltb_lt in Ea. apply Qltb_ge in Eb. lra.
  - apply Qltb_ge in Ea. apply Qltb_lt in Eb. lra.
Qed.

Lemma len_pos (A : Type) (a : A) (l : list A) : 0 < len (a :: l).
Proof.
  rewrite len_cons. pose proof (len_nonneg _ l). lra.
Qed.

Lemma len_zero (A : Type) (l : list A) : len l == 0 -> l = [].
Proof.
  destruct l as [| a l]; [reflexivity |].
  intro H. pose proof (len_pos _ a l). lra.
Qed.

Lemma sum_map_ext (A : Type) (f g : A -> Q) (l : list A) :
  (forall a, f a == g a) -> sum (map f l) == sum (map g l).
Proof.
  intro H. induction l as [| a l IH]; simpl; [reflexivity |].
  rewrite !sum_cons, IH, H. reflexivity.
Qed.

Lemma sum_shift (c : Q) (l : list Q) : sum (map (Qplus c) l) == len l * c + sum l.
Proof.
  induction l as [| x l IH]; simpl.
  - rewrite sum_nil. change (len (@nil Q)) with 0. lra.
  - rewrite !sum_cons, len_cons, IH. lra.
Qed.

(** The variance does not change when every value is shifted by [c]. *)
Lemma var_shift (c : Q) (l : list Q) : var (map (Qplus c) l) == var l.
Proof.
  destruct l as [| x l]; [reflexivity |].
  pose proof (len_pos _ x l) as Hlen.
  assert (Hmean : mean (map (Qplus c) (x :: l)) == c + mean (x :: l)).
  { unfold mean. rewrite sum_shift.
    replace (len (map (Qplus c) (x :: l))) with (len (x :: l))
      by (unfold len; now rewrite length_map).
    field. lra. }
  unfold var.
  replace (len (map (Qplus c) (x :: l))) with (len (x :: l))
    by (unfold len; now rewrite length_map).
  rewrite map_map.
  generalize Hmean. generalize (mean (map (Qplus c) (x :: l))).
  generalize (mean (x :: l)). intros m m' Hm.
  rewrite (sum_map_ext _ (fun y => (c + y - m') * (c + y - m'))
             (fun y => (y - m) * (y - m))).
  - reflexivity.
  - intro y. rewrite Hm. ring.
Qed.

(** The scores read off shifted score dicts are the shifted scores. *)
Lemma present_scores_shift (c : Q) (original_scores : option Q)
  (paraphrase_scores : list (option Q)) :
  ((match option_map (Qplus c) original_scores with Some s => [s] | None => [] end) ++
   flat_map (fun para_scores => match para_scores with Some s => [s] | None => [] end)
     (map (option_map (Qplus c)) paraphrase_scores))%list =
  map (Qplus c)
    ((match original_scores with Some s => [s] | None => [] end) ++
     flat_map (fun para_scores => match para_scores with Some s => [s] | None => [] end)
       paraphrase_scores)%list.
Proof.
  rewrite map_app. f_equal; [destruct original_scores; reflexivity |].
  induction paraphrase_scores as [| para_scores rest IH]; simpl; [reflexivity |].
  rewrite map_app, IH. destruct para_scores; reflexivity.
Qed.

Lemma present_scores_repeat (s : Q) (n : nat) :
  flat_map (fun para_scores : option Q =>
              match para_scores with Some s => [s] | None => [] end)
    (repeat (Some s) n) = repeat s n.
Proof.
  induction n as [| n IH]; simpl; [reflexivity | now rewrite IH].
Qed.

(** The variance of two values is a quarter of their squared distance. *)
Lemma var_pair (s s' : Q) : var [s; s'] * 10 == (25 # 10) * ((s - s') * (s - s')).
Proof.
  unfold var, mean, sum, len. cbn [map fold_left List.length].
  change (inject_Z (Z.of_nat 2)) with 2.
  field.
Qed.

End SpreadFacts.

(** X20.  [get_matched_words] lists what [score_sentence] counts: the two
    lists have the lengths reported as the hedge and absolute counts, and
    hold exactly the lemmas of the sentence that belong to the lexicon.
    With positive lexicon weights the speculative score is 0 exactly when
    both lists are empty. *)
Theorem matched_words_agree_with_score (self : Speculative.SpeculativeScorer)
  (text : string) :
  0 < Speculative.hedge (Speculative.weights self) ->
  0 < Speculative.absolute (Speculative.weights self) ->
  let matched := Speculative.get_matched_words self text in
  let score := fst (Speculative.score_sentence self text) in
  let counts := snd (Speculative.score_sentence self text) in
  Speculative.count_hedges counts = List.length (Speculative.matched_hedges matched) /\
  Speculative.count_absolutes counts =
    List.length (Speculative.matched_absolutes matched) /\
  (forall w, In w (Speculative.matched_hedges matched) <->
             In w (Speculative.lemmas self text) /\ In w (Speculative.hedges self)) /\
  (forall w, In w (Speculative.matched_absolutes matched) <->
             In w (Speculative.lemmas self text) /\ In w (Speculative.absolutes self)) /\
  (score == 0 <->
   Speculative.matched_hedges matched = [] /\
   Speculative.matched_absolutes matched = []).
Proof.
  intros Hh Ha. cbv zeta.
  unfold Speculative.score_sentence, Speculative.get_matched_words.
  cbn [Speculative.matched_hedges Speculative.matched_absolutes].
  assert (Hin : forall set w,
             In w (filter (fun token => Speculative.member token set)
                     (Speculative.lemmas self text)) <->
             In w (Speculative.lemmas self text) /\ In w set).
  { intros set w. rewrite filter_In, member_In. reflexivity. }
  destruct (Speculative.lemmas self text) as [| t tokens] eqn:E.
  - cbn. repeat split; try reflexivity; try tauto.
  - cbn [fst snd Speculative.count_hedges Speculative.count_absolutes].
    unfold Speculative.count_in.
    split; [reflexivity |]. split; [reflexivity |].
    split; [apply Hin |]. split; [apply Hin |].
    set (mh := filter (fun token => Speculative.member token (Speculative.hedges self))
                 (t :: tokens)).
    set (ma := filter (fun token => Speculative.member token (Speculative.absolutes self))
                 (t :: tokens)).
    pose proof (len_pos _ t tokens) as Hlen.
    pose proof (len_nonneg _ mh) as Hmh. pose proof (len_nonneg _ ma) as Hma.
    fold (len mh). fold (len ma).
    split.
    + intro Hzero.
      assert (Hsum : len mh * Speculative.hedge (Speculative.weights self) +
                     len ma * Speculative.absolute (Speculative.weights self) <= 0).
      { apply Qnot_lt_le. intro Hpos.
        assert (Hq : 0 < (len mh * Speculative.hedge (Speculative.weights self) +
                          len ma * Speculative.absolute (Speculative.weights self)) /
                         ((2 # 100) * len (t :: tokens))).
        { apply Qlt_shift_div_l; lra. }
        apply min_pos in Hq. lra. }
      assert (H1 : 0 <= len mh * Speculative.hedge (Speculative.weights self))
        by (apply Qmult_le_0_compat; lra).
      assert (H2 : 0 <= len ma * Speculative.absolute (Speculative.weights self))
        by (apply Qmult_le_0_compat; lra).
      split; apply len_zero.
      * assert (H : len mh * Speculative.hedge (Speculative.weights self) == 0) by lra.
        apply Qmult_integral in H. destruct H; lra.
      * assert (H : len ma * Speculative.absolute (Speculative.weights self) == 0) by lra.
        apply Qmult_integral in H. destruct H; lra.
    + intros [-> ->]. apply min_zero. change (len (@nil string)) with 0.
      unfold Qdiv. lra.
Qed.

(** X20 on the demo scorer (both lexicon weights 1). *)
Lemma matched_words_agree_with_score_witness :
  Speculative.get_matched_words Demo.spec_scorer "It might possibly rise!" =
    {| Speculative.matched_hedges := ["might"; "possibly"];
       Speculative.matched_absolutes := [] |} /\
  Speculative.count_hedges
    (snd (Speculative.score_sentence Demo.spec_scorer "It might possibly rise!")) =
  List.length
    (Speculative.matched_hedges
       (Speculative.get_matched_words Demo.spec_scorer "It might possibly rise!")).
Proof.
  split; [reflexivity |].
  assert (Hh : 0 < Speculative.hedge (Speculative.weights Demo.spec_scorer))
    by reflexivity.
  assert (Ha : 0 < Speculative.absolute (Speculative.weights Demo.spec_scorer))
    by reflexivity.
  exact (proj1 (matched_words_agree_with_score Demo.spec_scorer
                  "It might possibly rise!" Hh Ha)).
Defined.

(** X21.  [calculate_instability] returns a value in [[0,1]]; it is 0
    without paraphrase scores (even when the original has a score) and
    when all scores are equal; it depends on the spread of the scores
    only, not on their level: shifting every score by the same amount
    leaves it unchanged.  The original's score takes part: with one
    paraphrase score [s'] beside the original's [s] the result is
    [min(2.5 * (s - s')^2, 1)]. *)
Theorem calculate_instability_properties (original_scores : option Q)
  (paraphrase_scores : list (option Q)) :
  let result := Paraphrase.calculate_instability original_scores paraphrase_scores in
  Spec.in_unit result /\
  Paraphrase.calculate_instability original_scores [] = 0 /\
  (forall c,
     Paraphrase.calculate_instability (option_map (Qplus c) original_scores)
       (map (option_map (Qplus c)) paraphrase_scores) == result) /\
  (forall s n, Paraphrase.calculate_instability (Some s) (repeat (Some s) n) == 0) /\
  (forall s s',
     Paraphrase.calculate_instability (Some s) [Some s'] ==
     min ((25 # 10) * ((s - s') * (s - s'))) 1).
Proof.
  cbv zeta. split; [| split; [reflexivity | split; [| split]]].
  - unfold Paraphrase.calculate_instability.
    destruct paraphrase_scores as [| p ps]; [apply zero_unit |].
    destruct (_ <? 2)%nat; [apply zero_unit |].
    apply min_unit. pose proof (var_nonneg
      ((match original_scores with Some s => [s] | None => [] end) ++
       flat_map (fun para_scores : option Q =>
                   match para_scores with Some s => [s] | None => [] end)
         (p :: ps))%list). lra.
  - intro c. unfold Paraphrase.calculate_instability.
    destruct paraphrase_scores as [| p ps]; [reflexivity |].
    change (map (option_map (Qplus c)) (p :: ps))
      with (option_map (Qplus c) p :: map (option_map (Qplus c)) ps).
    change (option_map (Qplus c) p :: map (option_map (Qplus c)) ps)
      with (map (option_map (Qplus c)) (p :: ps)).
    rewrite present_scores_shift, length_map.
    destruct (_ <? 2)%nat; [reflexivity |].
    apply min_Qeq. now rewrite var_shift.
  - intros s n. unfold Paraphrase.calculate_instability.
    destruct n as [| n]; [reflexivity |].
    change (repeat (Some s) (S n)) with (Some s :: repeat (Some s) n).
    change (Some s :: repeat (Some s) n) with (repeat (Some s) (S n)).
    rewrite present_scores_repeat.
    destruct (_ <? 2)%nat; [reflexivity |].
    apply min_zero.
    rewrite (var_all_equal s).
    + lra.
    + constructor; [reflexivity |].
      apply Forall_forall. intros x Hx. apply repeat_spec in Hx. now subst.
  - intros s s'. unfold Paraphrase.calculate_instability.
    cbn [flat_map app List.length].
    change (2 <? 2)%nat with false. cbv iota.
    apply min_Qeq. apply var_pair.
Qed.

(* ===================================================================== *)
(** * Further properties: sentence splitting without the spaCy model *)
(* ===================================================================== *)

Section SplitFacts.

Lemma pieces_without_terminator (s : string) :
  Forall (fun piece => Spec.no_terminator piece = true) (re_split_sentence_end s).
Proof.
  unfold Spec.no_terminator.
  induction s as [| c s IH]; [repeat constructor |].
  cbn [re_split_sentence_end]. cbv zeta.
  destruct (is_sentence_end c) eqn:Ec.
  - destruct s as [| c' s']; [constructor; [reflexivity | exact IH] |].
    destruct (is_sentence_end c'); [exact IH | constructor; [reflexivity | exact IH]].
  - destruct (re_split_sentence_end s) as [| piece pieces].
    + repeat constructor. simpl. now rewrite Ec.
    + inversion IH as [| ? ? Hpiece Hpieces]; subst.
      constructor; [| exact Hpieces]. simpl. now rewrite Ec.
Qed.

Lemma all_chars_lstrip (test : ascii -> bool) (s : string) :
  Spec.all_chars test s = true -> Spec.all_chars test (lstrip s) = true.
Proof.
  induction s as [| c s IH]; simpl; [auto |].
  intro H. destruct (is_space c); [| exact H].
  apply andb_true_iff in H. now apply IH.
Qed.

Lemma all_chars_rstrip (test : ascii -> bool) (s : string) :
  Spec.all_chars test s = true -> Spec.all_chars test (rstrip s) = true.
Proof.
  induction s as [| c s IH]; simpl; [auto |].
  intro H. apply andb_true_iff in H. destruct H as [Hc Hs]. specialize (IH Hs).
  destruct (rstrip s) as [| d r].
  - destruct (is_space c); simpl; [reflexivity | now rewrite Hc].
  - change (Spec.all_chars test (String c (String d r)))
      with (test c && Spec.all_chars test (String d r)).
    now rewrite Hc, IH.
Qed.

Lemma rstrip_idem (s : string) : rstrip (rstrip s) = rstrip s.
Proof.
  induction s as [| c s IH]; [reflexivity |].
  cbn [rstrip]. destruct (rstrip s) as [| d r] eqn:E.
  - destruct (is_space c) eqn:Ec; [reflexivity |].
    cbn [rstrip]. now rewrite Ec.
  - change (rstrip (String c (String d r)))
      with (match rstrip (String d r) with
            | EmptyString => if is_space c then EmptyString else String c EmptyString
            | String _ _ as r' => String c r'
            end).
    now rewrite IH.
Qed.

Lemma rstrip_head (c : ascii) (s : string) :
  is_space c = false -> exists r, rstrip (String c s) = String c r.
Proof.
  intro Hc. cbn [rstrip]. destruct (rstrip s) as [| d r].
  - rewrite Hc. now exists EmptyString.
  - now exists (String d r).
Qed.

Lemma lstrip_head (s : string) :
  lstrip s = EmptyString \/
  exists c s', lstrip s = String c s' /\ is_space c = false.
Proof.
  induction s as [| c s IH]; [now left |].
  cbn [lstrip]. destruct (is_space c) eqn:Ec; [exact IH |].
  right. now exists c, s.
Qed.

(** Stripping a stripped string changes nothing. *)
Lemma strip_idem (s : string) : strip (strip s) = strip s.
Proof.
  unfold strip. destruct (lstrip_head s) as [-> | (c & s' & -> & Hc)]; [reflexivity |].
  destruct (rstrip_head c s' Hc) as [r Hr].
  rewrite Hr. cbn [lstrip]. rewrite Hc. rewrite <- Hr. apply rstrip_idem.
Qed.

Lemma split_whole (s : string) :
  Spec.no_terminator s = true -> re_split_sentence_end s = [s].
Proof.
  unfold Spec.no_terminator.
  induction s as [| c s IH]; [reflexivity |].
  cbn [Spec.all_chars]. intro H. apply andb_true_iff in H. destruct H as [Hc Hs].
  apply negb_true_iff in Hc.
  cbn [re_split_sentence_end]. cbv zeta. rewrite Hc, (IH Hs). reflexivity.
Qed.

Lemma filter_all (A : Type) (f : A -> bool) (l : list A) :
  Forall (fun a => f a = true) l -> filter f l = l.
Proof.
  induction 1 as [| a l Ha _ IH]; simpl; [reflexivity |].
  now rewrite Ha, IH.
Qed.

End SplitFacts.

(** X22.  Without the spaCy model [split_sentences] cuts the text at the
    runs of [.], [!] and [?]: every sentence it returns is non-empty, has
    no white space at either end and holds none of the three characters (the
    terminators are dropped).  A text without any of them is one sentence,
    or none when it is blank.  [process_text] drops none of these sentences,
    so in this mode the number of claims is the number of sentences. *)
Theorem fallback_split_sentences (self : Pipeline.THIPipeline) (text : string) :
  Pipeline.nlp self = None ->
  Forall (fun sentence =>
            nonempty sentence = true /\ strip sentence = sentence /\
            Spec.no_terminator sentence = true)
    (Pipeline.split_sentences self text) /\
  (Spec.no_terminator text = true ->
   Pipeline.split_sentences self text =
   if nonempty (strip text) then [strip text] else []) /\
  filter (fun sentence => nonempty (strip sentence))
    (Pipeline.split_sentences self text) =
  Pipeline.split_sentences self text.
Proof.
  intro Hnlp. unfold Pipeline.split_sentences. rewrite Hnlp.
  assert (Hall : Forall (fun sentence =>
                           nonempty sentence = true /\ strip sentence = sentence /\
                           Spec.no_terminator sentence = true)
                   (map strip (filter (fun s => nonempty (strip s))
                                 (re_split_sentence_end text)))).
  { apply Forall_forall. intros sentence Hin.
    apply in_map_iff in Hin. destruct Hin as (piece & <- & Hin).
    apply filter_In in Hin. destruct Hin as [Hin Hne].
    split; [exact Hne |]. split; [apply strip_idem |].
    pose proof (pieces_without_terminator text) as Hpieces.
    rewrite Forall_forall in Hpieces. specialize (Hpieces piece Hin).
    unfold Spec.no_terminator, strip in *.
    now apply all_chars_rstrip, all_chars_lstrip. }
  split; [exact Hall |]. split.
  - intro Hnone. rewrite (split_whole text Hnone). cbn [filter].
    destruct (nonempty (strip text)); reflexivity.
  - apply filter_all. eapply Forall_impl; [| exact Hall].
    intros sentence (Hne & Hstrip & _). now rewrite Hstrip.
Qed.

(** X22 on a pipeline without the spaCy model. *)
Lemma fallback_split_sentences_witness :
  Pipeline.split_sentences Demo.fallback_pipeline " Revenue grew.. It rose!  " =
    ["Revenue grew"; "It rose"] /\
  Forall (fun sentence =>
            nonempty sentence = true /\ strip sentence = sentence /\
            Spec.no_terminator sentence = true)
    (Pipeline.split_sentences Demo.fallback_pipeline " Revenue grew.. It rose!  ").
Proof.
  split; [reflexivity |].
  exact (proj1 (fallback_split_sentences Demo.fallback_pipeline
                  " Revenue grew.. It rose!  " eq_refl)).
Defined.

(* ===================================================================== *)
(** * Further properties: the structural paraphrase *)
(* ===================================================================== *)

Section ShuffleFacts.

Import Paraphrase.

Lemma contains_eq (sub s : string) :
  contains sub s =
  String.prefix sub s ||
  match s with
  | EmptyString => false
  | String _ s' => contains sub s'
  end.
Proof. destruct s; reflexivity. Qed.

Lemma prefix_lower (p s : string) :
  String.prefix p s = true -> String.prefix (lower p) (lower s) = true.
Proof.
  revert s. induction p as [| a p IH]; intros [| b s] H; simpl in *;
    try reflexivity; try discriminate.
  destruct (ascii_dec a b) as [-> | Hab]; [| discriminate].
  destruct (ascii_dec (lower_char b) (lower_char b)) as [_ | Hne];
    [now apply IH | contradiction].
Qed.

(** A literal occurrence is an occurrence ignoring case. *)
Lemma find_contains_lower (sub s : string) (n : nat) :
  find sub s = Some n -> contains (lower sub) (lower s) = true.
Proof.
  revert n. induction s as [| c s IH]; intros n H;
    rewrite find_eq in H; rewrite contains_eq.
  - destruct (String.prefix sub "") eqn:E; [| discriminate].
    now rewrite (prefix_lower _ _ E).
  - destruct (String.prefix sub (String c s)) eqn:E.
    + now rewrite (prefix_lower _ _ E).
    + destruct (find sub s) as [k |] eqn:Ek; [| discriminate].
      cbn [lower]. rewrite (IH k eq_refl). apply orb_true_r.
Qed.

Lemma replace_first_absent (old new s : string) :
  contains old s = false -> replace_first old new s = s.
Proof.
  induction s as [| c s IH]; intro H;
    rewrite contains_eq in H; apply orb_false_iff in H; destruct H as [Hp Hc];
    rewrite replace_first_eq, Hp; [reflexivity |].
  now rewrite (IH Hc).
Qed.

Lemma move_time_indicator_none (indicators : list string) (text : string) :
  Forall (fun indicator => contains (lower indicator) (lower text) = false) indicators ->
  move_time_indicator indicators text = None.
Proof.
  induction 1 as [| indicator indicators Hi _ IH]; [reflexivity |].
  cbn [move_time_indicator]. now rewrite Hi.
Qed.

Lemma move_time_indicator_first (pre post : list string) (indicator text : string) :
  Forall (fun earlier => contains (lower earlier) (lower text) = false) pre ->
  contains (lower indicator) (lower text) = true ->
  startswith (lower text) (lower indicator) = false ->
  move_time_indicator (pre ++ indicator :: post) text =
  Some (indicator ++ " " ++ replace_first indicator "" text)%string.
Proof.
  intros Hpre Hin Hstart.
  induction Hpre as [| earlier pre He _ IH].
  - cbn [app move_time_indicator]. now rewrite Hin, Hstart.
  - cbn [app move_time_indicator]. now rewrite He.
Qed.

End ShuffleFacts.

(** X23.  The three outcomes of the structural paraphrase.  When no time
    indicator occurs in the sentence (ignoring case): a sentence that does
    not start with "the " (ignoring case) is returned unchanged, and so is
    one without the literal "The "; a sentence "The ..." becomes "It is
    reported that the ...".  When a time indicator occurs literally at
    offset [n], no earlier indicator of the list occurs and the sentence
    does not start with it (ignoring case), the indicator is cut out at
    that offset and put in front, followed by a space; the characters
    around the cut are kept as they are. *)
Theorem minor_shuffle_cases (self : Paraphrase.ParaphraseGenerator) (text : string) :
  let result := Paraphrase._minor_shuffle_paraphrase self text in
  (Forall (fun indicator => contains (lower indicator) (lower text) = false)
     Paraphrase.time_indicators ->
   (startswith (lower text) "the " = false -> result = text) /\
   (contains "The " text = false -> result = text) /\
   (forall rest, text = ("The " ++ rest)%string ->
                 result = ("It is reported that the " ++ rest)%string)) /\
  (forall pre indicator post n,
     Paraphrase.time_indicators = (pre ++ indicator :: post)%list ->
     Forall (fun earlier => contains (lower earlier) (lower text) = false) pre ->
     find indicator text = Some n ->
     startswith (lower text) (lower indicator) = false ->
     result =
     (indicator ++ " " ++ take n text ++ drop (n + String.length indicator) text)%string).
Proof.
  cbv zeta. unfold Paraphrase._minor_shuffle_paraphrase. split.
  - intro Hnone. rewrite (move_time_indicator_none _ _ Hnone).
    split; [intros ->; reflexivity |]. split.
    + intro Habsent. rewrite (replace_first_absent _ _ _ Habsent).
      now destruct (startswith (lower text) "the ").
    + intros rest ->. destruct rest as [| c rest]; reflexivity.
  - intros pre indicator post n Hlist Hpre Hfind Hstart.
    rewrite Hlist.
    rewrite (move_time_indicator_first pre post indicator text Hpre
               (find_contains_lower _ _ _ Hfind) Hstart).
    now rewrite (replace_first_find _ "" _ _ Hfind).
Qed.
